(** * Hour Jungle CRM tool server: quote lifecycle, contract conversion,
      reminder engines and tool registry

    A shallow embedding of
      - [mcp-server/tools/quote_tools.py]  (create / update / status /
        delete / convert to contract),
      - [mcp-server/tools/line_tools.py]   (push, payment and renewal
        reminders, bulk reminders),
      - [mcp-server/main.py]               ([call_tool]),
    followed by the properties the design document states about them.

    Modelling conventions.
      - The coroutines run sequentially (every call is awaited at once), so an
        [async def] is a computation in a state-and-exception monad over a
        [World]: the PostgREST tables and views, the LINE push endpoint, the
        clock, and the trace of the requests that were issued.
      - The data gateway is an in-memory store.  A request to it is answered,
        or fails the way the world has in store for it ([postgrest_fault]):
        then the store is left as it was and the client raises.  The LINE
        endpoint may answer anything as well: its n-th answer is a parameter
        of the world.
      - A row is a record.  A column the code reads with [row["c"]] is taken
        to be present and not NULL; a column it reads with [row.get("c")] may
        be NULL ([None]).  PostgREST returns every column of a row, so the
        default of [row.get("c", d)] is never used for a stored row.
      - Amounts are whole numbers (Python [int], here [Z]); [a / b] followed by
        [round] is the exact quotient rounded half to even.
      - [json.dumps(items)] is kept as the list it encodes. *)

From Stdlib Require Import ZArith Lia List Bool Ascii String DecimalString.
From stdpp Require Import base option list gmap strings.
Import ListNotations.

Local Open Scope string_scope.
Local Open Scope list_scope.
Local Open Scope Z_scope.

(** ** Python values and exceptions *)

(** [str(n)] for an [int]. *)
Definition str_int (n : Z) : string := NilZero.string_of_int (Z.to_int n).

(** The exceptions the modelled code raises or lets through; [str(e)] is
    [exn_message]. *)
Inductive exn : Type :=
| ValueError (msg : string)
| TypeError (msg : string)
| OverflowError (msg : string)
| Exception_ (msg : string)
| HTTPException (status_code : Z) (detail : string).

Definition exn_message (e : exn) : string :=
  match e with
  | ValueError m | TypeError m | OverflowError m | Exception_ m => m
  | HTTPException c d => str_int c +:+ ": " +:+ d
  end.

Inductive result (A : Type) : Type :=
| Returned (a : A)
| Raised (e : exn).
Arguments Returned {A} a.
Arguments Raised {A} e.

(** A line item of a quote, [{name, quantity, unit_price, amount}]; a key that
    is absent from the dict is [None]. *)
Record Item : Type := mkItem {
  item_name : option string;
  item_quantity : option Z;
  item_unit_price : option Z;
  item_amount : option Z
}.

(** JSON values that travel in request bodies and in [updates]. *)
Inductive value : Type :=
| VNone
| VBool (b : bool)
| VInt (n : Z)
| VStr (s : string)
| VItems (l : list Item).

(** Python truthiness. *)
Definition truthy (v : value) : bool :=
  match v with
  | VNone => false
  | VBool b => b
  | VInt n => negb (n =? 0)
  | VStr s => negb (String.eqb s "")
  | VItems l => match l with [] => false | _ => true end
  end.

Definition truthy_str (o : option string) : bool :=
  match o with Some s => negb (String.eqb s "") | None => false end.

Definition truthy_int (o : option Z) : bool :=
  match o with Some n => negb (n =? 0) | None => false end.

(** [a or b] on optional strings. *)
Definition or_str (a b : option string) : option string :=
  if truthy_str a then a else b.

(** [a or d] where [d] is a string. *)
Definition or_else (a : option string) (d : string) : string :=
  match a with
  | Some s => if String.eqb s "" then d else s
  | None => d
  end.

(** [str(x)] inside an f-string. *)
Definition str_opt (o : option string) : string :=
  match o with Some s => s | None => "None" end.

Definition str_opt_int (o : option Z) : string :=
  match o with Some n => str_int n | None => "None" end.

(** ** Numbers *)

(** [round(a / b)] for [b > 0]: the quotient rounded to the nearest integer,
    ties to the even one. *)
Definition round_div (a b : Z) : Z :=
  let q := a / b in
  let r := a mod b in
  if 2 * r <? b then q
  else if b <? 2 * r then q + 1
  else if Z.even q then q else q + 1.

(** [f"{n:,.0f}"]: decimal digits in groups of three. *)
Fixpoint group3 (fuel : nat) (n : Z) : string :=
  match fuel with
  | O => str_int n
  | S fuel' =>
      if n <? 1000 then str_int n
      else
        let low := n mod 1000 in
        let pad := if low <? 10 then "00" else if low <? 100 then "0" else "" in
        group3 fuel' (n / 1000) +:+ "," +:+ pad +:+ str_int low
  end.

Definition format_amount (n : Z) : string :=
  if n <? 0 then "-" +:+ group3 (Z.to_nat (Z.log2 (- n))) (- n)
  else group3 (Z.to_nat (Z.log2 n)) n.

(** ** Dates: the part of [datetime] the code uses

    A date is its proleptic Gregorian ordinal (day 1 is 0001-01-01), as in
    [date.toordinal]. *)
Definition MAXORDINAL : Z := 3652059.

Definition is_leap (y : Z) : bool :=
  (y mod 4 =? 0) && (negb (y mod 100 =? 0) || (y mod 400 =? 0)).

Definition days_before_year (y : Z) : Z :=
  let p := y - 1 in p * 365 + p / 4 - p / 100 + p / 400.

Definition days_in_month (y m : Z) : Z :=
  if m =? 2 then (if is_leap y then 29 else 28)
  else if (m =? 4) || (m =? 6) || (m =? 9) || (m =? 11) then 30
  else 31.

Definition days_before_month_table (m : Z) : Z :=
  nth (Z.to_nat m) [0; 0; 31; 59; 90; 120; 151; 181; 212; 243; 273; 304; 334] 0.

Definition days_before_month (y m : Z) : Z :=
  days_before_month_table m + (if (2 <? m) && is_leap y then 1 else 0).

Definition ymd2ord (y m d : Z) : Z :=
  days_before_year y + days_before_month y m + d.

Definition ord2ymd (ordinal : Z) : Z * Z * Z :=
  let n := ordinal - 1 in
  let n400 := n / 146097 in
  let n := n mod 146097 in
  let n100 := n / 36524 in
  let n := n mod 36524 in
  let n4 := n / 1461 in
  let n := n mod 1461 in
  let n1 := n / 365 in
  let n := n mod 365 in
  let year := n400 * 400 + 1 + n100 * 100 + n4 * 4 + n1 in
  if (n1 =? 4) || (n100 =? 4) then (year - 1, 12, 31)
  else
    let leapyear := (n1 =? 3) && (negb (n4 =? 24) || (n100 =? 3)) in
    let month := (n + 50) / 32 in
    let preceding :=
      days_before_month_table month + (if (2 <? month) && leapyear then 1 else 0) in
    if n <? preceding then
      let month' := month - 1 in
      let preceding' :=
        preceding
        - (nth (Z.to_nat month') [0; 31; 28; 31; 30; 31; 30; 31; 31; 30; 31; 30; 31] 0
           + (if (month' =? 2) && leapyear then 1 else 0)) in
      (year, month', n - preceding' + 1)
    else (year, month, n - preceding + 1).

Definition pad2 (n : Z) : string :=
  if n <? 10 then "0" +:+ str_int n else str_int n.

Definition pad4 (n : Z) : string :=
  if n <? 10 then "000" +:+ str_int n
  else if n <? 100 then "00" +:+ str_int n
  else if n <? 1000 then "0" +:+ str_int n
  else str_int n.

(** [d.isoformat()] and [d.strftime("%Y-%m-%d")]. *)
Definition isoformat (ordinal : Z) : string :=
  let '(y, m, d) := ord2ymd ordinal in
  pad4 y +:+ "-" +:+ pad2 m +:+ "-" +:+ pad2 d.

(** [d + timedelta(days=n)]: [OverflowError] outside years 1..9999. *)
Definition add_days (ordinal n : Z) : result Z :=
  let r := ordinal + n in
  if (1 <=? r) && (r <=? MAXORDINAL) then Returned r
  else Raised (OverflowError "date value out of range").

Definition digit_of (c : ascii) : option Z :=
  let n := Z.of_nat (nat_of_ascii c) in
  if (48 <=? n) && (n <=? 57) then Some (n - 48) else None.

Fixpoint digits_value (acc : Z) (s : string) : option Z :=
  match s with
  | EmptyString => Some acc
  | String c s' =>
      match digit_of c with
      | Some d => digits_value (10 * acc + d) s'
      | None => None
      end
  end.

(** The plain calendar form [YYYY-MM-DD], the form in which dates are stored
    and the one [isoformat] prints. *)
Definition parse_iso_date (s : string) : option Z :=
  if negb (Nat.eqb (String.length s) 10) then None
  else if negb (String.eqb (substring 4 1 s) "-" && String.eqb (substring 7 1 s) "-") then None
  else
    match digits_value 0 (substring 0 4 s),
          digits_value 0 (substring 5 2 s),
          digits_value 0 (substring 8 2 s) with
    | Some y, Some m, Some d =>
        if (1 <=? y) && (1 <=? m) && (m <=? 12) && (1 <=? d) && (d <=? days_in_month y m)
        then Some (ymd2ord y m d) else None
    | _, _, _ => None
    end.

(** ** Rows *)

(** A row of table [quotes] (and of its view [v_quotes]). *)
Record Quote : Type := mkQuote {
  q_id : Z;
  q_quote_number : option string;
  q_branch_id : option Z;
  q_customer_id : option Z;
  q_customer_name : option string;
  q_customer_phone : option string;
  q_customer_email : option string;
  q_company_name : option string;
  q_contract_type : option string;
  q_plan_name : option string;
  q_contract_months : option Z;
  q_proposed_start_date : option string;
  q_items : value;
  q_subtotal : option Z;
  q_discount_amount : option Z;
  q_discount_note : option string;
  q_tax_amount : option Z;
  q_total_amount : option Z;
  q_deposit_amount : option Z;
  q_valid_from : option string;
  q_valid_until : option string;
  q_status : option string;
  q_internal_notes : option string;
  q_customer_notes : option string;
  q_created_by : option string;
  q_sent_at : option string;
  q_viewed_at : option string;
  q_responded_at : option string;
  q_converted_contract_id : option Z;
  q_converted_at : option string
}.

(** A row of table [contracts]. *)
Record Contract : Type := mkContract {
  c_id : Z;
  c_contract_number : option string;
  c_customer_id : option Z;
  c_branch_id : option Z;
  c_contract_type : option string;
  c_plan_name : option string;
  c_start_date : string;
  c_end_date : string;
  c_monthly_rent : option Z;
  c_payment_cycle : string;
  c_payment_day : Z;
  c_deposit : option Z;
  c_status : string;
  c_company_name : option string;
  c_representative_name : option string;
  c_phone : option string;
  c_email : option string;
  c_representative_address : option string;
  c_id_number : option string;
  c_company_tax_id : option string;
  c_original_price : option Z;
  c_notes : option string
}.

(** A row of view [v_payments_due]. *)
Record Payment : Type := mkPayment {
  p_id : Z;
  p_branch_id : option Z;
  p_urgency : option string;
  p_customer_name : string;
  p_line_user_id : option string;
  p_payment_period : option string;
  p_total_due : Z;
  p_due_date : string;
  p_overdue_days : option Z;
  p_payment_status : option string
}.

(** A row of view [v_renewal_reminders]. *)
Record Renewal : Type := mkRenewal {
  r_contract_id : Z;
  r_customer_name : string;
  r_end_date : string;
  r_days_remaining : Z;
  r_branch_name : string;
  r_line_user_id : option string
}.

(** ** The world *)

(** What the LINE endpoint does with one push: it answers with an HTTP status,
    or the HTTP client raises. *)
Inductive push_outcome : Type :=
| Responded (status_code : Z)
| ClientError (e : exn).

(** The requests a computation issues, in order. *)
Inductive request : Type :=
| ReqGet (endpoint : string)
| ReqPost (endpoint : string)
| ReqPatch (endpoint : string) (id : Z)
| ReqDelete (endpoint : string) (id : Z)
| ReqPush (to : string) (text : string).

Record World : Type := mkWorld {
  quotes : list Quote;
  contracts : list Contract;
  v_payments_due : list Payment;
  v_renewal_reminders : list Renewal;
  next_quote_id : Z;
  next_contract_id : Z;
  (* what the triggers of the database fill in on insertion *)
  quote_number_trigger : Z -> option string;
  contract_number_trigger : Z -> option string;
  customer_trigger : Contract -> option Z;
  (* what becomes of the n-th request to PostgREST: [None] when it is
     answered, else the exception the HTTP client raises *)
  postgrest_fault : nat -> option exn;
  (* the clock: [date.today()] and [datetime.now().isoformat()] *)
  today : Z;
  now_isoformat : string;
  (* LINE *)
  LINE_CHANNEL_ACCESS_TOKEN : string;
  line_api : nat -> push_outcome;
  trace : list request
}.

Definition set_quotes (qs : list Quote) (nq : Z) (w : World) : World :=
  mkWorld qs (contracts w) (v_payments_due w) (v_renewal_reminders w)
          nq (next_contract_id w)
          (quote_number_trigger w) (contract_number_trigger w) (customer_trigger w)
          (postgrest_fault w)
          (today w) (now_isoformat w) (LINE_CHANNEL_ACCESS_TOKEN w) (line_api w)
          (trace w).

Definition set_contracts (cs : list Contract) (nc : Z) (w : World) : World :=
  mkWorld (quotes w) cs (v_payments_due w) (v_renewal_reminders w)
          (next_quote_id w) nc
          (quote_number_trigger w) (contract_number_trigger w) (customer_trigger w)
          (postgrest_fault w)
          (today w) (now_isoformat w) (LINE_CHANNEL_ACCESS_TOKEN w) (line_api w)
          (trace w).

Definition log (r : request) (w : World) : World :=
  mkWorld (quotes w) (contracts w) (v_payments_due w) (v_renewal_reminders w)
          (next_quote_id w) (next_contract_id w)
          (quote_number_trigger w) (contract_number_trigger w) (customer_trigger w)
          (postgrest_fault w)
          (today w) (now_isoformat w) (LINE_CHANNEL_ACCESS_TOKEN w) (line_api w)
          (trace w ++ [r]).

(** The writes among the requests: the creates, patches and deletes sent to
    the data gateway. *)
Definition is_write (r : request) : bool :=
  match r with
  | ReqPost _ | ReqPatch _ _ | ReqDelete _ _ => true
  | ReqGet _ | ReqPush _ _ => false
  end.

Definition is_push (r : request) : bool :=
  match r with ReqPush _ _ => true | _ => false end.

(** The requests that went to PostgREST. *)
Definition is_data_request (r : request) : bool := negb (is_push r).

Definition data_requests (w : World) : list request :=
  List.filter is_data_request (trace w).

Definition writes (w : World) : list request := List.filter is_write (trace w).
Definition pushes (w : World) : list request := List.filter is_push (trace w).

(** ** The monad of the coroutines *)

Definition M (A : Type) : Type := World -> result A * World.

Definition ret {A : Type} (a : A) : M A := fun w => (Returned a, w).

Definition raise {A : Type} (e : exn) : M A := fun w => (Raised e, w).

Definition bind {A B : Type} (m : M A) (k : A -> M B) : M B :=
  fun w =>
    match m w with
    | (Returned a, w') => k a w'
    | (Raised e, w') => (Raised e, w')
    end.

Definition lift {A : Type} (r : result A) : M A := fun w => (r, w).

(** [try: m  except Exception as e: h e] *)
Definition try_except {A : Type} (m : M A) (h : exn -> M A) : M A :=
  fun w =>
    match m w with
    | (Returned a, w') => (Returned a, w')
    | (Raised e, w') => h e w'
    end.

(** [except Exception as e: raise Exception(f"{prefix}: {e}")] *)
Definition reraise {A : Type} (prefix : string) (m : M A) : M A :=
  try_except m (fun e => raise (Exception_ (prefix +:+ ": " +:+ exn_message e))).

Definition ask {A : Type} (f : World -> A) : M A := fun w => (Returned (f w), w).

(** One request to PostgREST: it is issued, and then it is answered, unless
    the world has a failure in store for it, which the client raises
    ([raise_for_status], or the transport itself). *)
Definition postgrest_request (r : request) : M unit :=
  fun w =>
    match postgrest_fault w (length (data_requests w)) with
    | None => (Returned tt, log r w)
    | Some e => (Raised e, log r w)
    end.

Declare Scope crm_scope.
Delimit Scope crm_scope with crm.
Notation "'do' x <- m ;; k" := (bind m (fun x => k))
  (at level 10, x name, m at level 99, k at level 200) : crm_scope.
Local Open Scope crm_scope.

(** ** The data gateway (PostgREST) *)

(** Reading a column out of a PATCH body: absent keeps the old value, [null]
    clears the column, a value of the column's type replaces it, anything
    else is refused by the store. *)
Definition col_str (new : option value) (old : option string) : option (option string) :=
  match new with
  | None => Some old
  | Some VNone => Some None
  | Some (VStr s) => Some (Some s)
  | Some _ => None
  end.

Definition col_int (new : option value) (old : option Z) : option (option Z) :=
  match new with
  | None => Some old
  | Some VNone => Some None
  | Some (VInt n) => Some (Some n)
  | Some _ => None
  end.

Definition col_json (new : option value) (old : value) : value :=
  match new with
  | None => old
  | Some v => v
  end.

Definition patch_quote (body : gmap string value) (q : Quote) : option Quote :=
  customer_id ← col_int (body !! "customer_id") (q_customer_id q);
  customer_name ← col_str (body !! "customer_name") (q_customer_name q);
  customer_phone ← col_str (body !! "customer_phone") (q_customer_phone q);
  customer_email ← col_str (body !! "customer_email") (q_customer_email q);
  company_name ← col_str (body !! "company_name") (q_company_name q);
  contract_type ← col_str (body !! "contract_type") (q_contract_type q);
  plan_name ← col_str (body !! "plan_name") (q_plan_name q);
  contract_months ← col_int (body !! "contract_months") (q_contract_months q);
  proposed_start_date ← col_str (body !! "proposed_start_date") (q_proposed_start_date q);
  subtotal ← col_int (body !! "subtotal") (q_subtotal q);
  discount_amount ← col_int (body !! "discount_amount") (q_discount_amount q);
  discount_note ← col_str (body !! "discount_note") (q_discount_note q);
  tax_amount ← col_int (body !! "tax_amount") (q_tax_amount q);
  total_amount ← col_int (body !! "total_amount") (q_total_amount q);
  deposit_amount ← col_int (body !! "deposit_amount") (q_deposit_amount q);
  valid_from ← col_str (body !! "valid_from") (q_valid_from q);
  valid_until ← col_str (body !! "valid_until") (q_valid_until q);
  status ← col_str (body !! "status") (q_status q);
  internal_notes ← col_str (body !! "internal_notes") (q_internal_notes q);
  customer_notes ← col_str (body !! "customer_notes") (q_customer_notes q);
  sent_at ← col_str (body !! "sent_at") (q_sent_at q);
  viewed_at ← col_str (body !! "viewed_at") (q_viewed_at q);
  responded_at ← col_str (body !! "responded_at") (q_responded_at q);
  converted_contract_id ← col_int (body !! "converted_contract_id") (q_converted_contract_id q);
  converted_at ← col_str (body !! "converted_at") (q_converted_at q);
  Some {| q_id := q_id q;
          q_quote_number := q_quote_number q;
          q_branch_id := q_branch_id q;
          q_customer_id := customer_id;
          q_customer_name := customer_name;
          q_customer_phone := customer_phone;
          q_customer_email := customer_email;
          q_company_name := company_name;
          q_contract_type := contract_type;
          q_plan_name := plan_name;
          q_contract_months := contract_months;
          q_proposed_start_date := proposed_start_date;
          q_items := col_json (body !! "items") (q_items q);
          q_subtotal := subtotal;
          q_discount_amount := discount_amount;
          q_discount_note := discount_note;
          q_tax_amount := tax_amount;
          q_total_amount := total_amount;
          q_deposit_amount := deposit_amount;
          q_valid_from := valid_from;
          q_valid_until := valid_until;
          q_status := status;
          q_internal_notes := internal_notes;
          q_customer_notes := customer_notes;
          q_created_by := q_created_by q;
          q_sent_at := sent_at;
          q_viewed_at := viewed_at;
          q_responded_at := responded_at;
          q_converted_contract_id := converted_contract_id;
          q_converted_at := converted_at |}.

(** [GET /{endpoint}?id=eq.{id}] on the quotes; [v_quotes] shows the rows of
    [quotes]. *)
Definition postgrest_get_quotes (endpoint : string) (id : Z) : M (list Quote) :=
  do _ <- postgrest_request (ReqGet endpoint) ;;
  ask (fun w => List.filter (fun q => q_id q =? id) (quotes w)).

(** [PATCH /quotes?id=eq.{id}] with [Prefer: return=representation]: every row
    with that id is updated, and the updated rows are returned.  A body the
    store refuses is an HTTP error, which [raise_for_status] raises. *)
Fixpoint patch_rows (id : Z) (body : gmap string value) (rows : list Quote)
  : option (list Quote * list Quote) :=
  match rows with
  | [] => Some ([], [])
  | q :: rest =>
      '(rest', hit) ← patch_rows id body rest;
      if q_id q =? id then
        q' ← patch_quote body q;
        Some (q' :: rest', q' :: hit)
      else Some (q :: rest', hit)
  end.

Definition postgrest_patch_quotes (id : Z) (body : gmap string value) : M (list Quote) :=
  do _ <- postgrest_request (ReqPatch "quotes" id) ;;
  fun w =>
    match patch_rows id body (quotes w) with
    | Some (rows, hit) => (Returned hit, set_quotes rows (next_quote_id w) w)
    | None => (Raised (Exception_ "Client error '400 Bad Request'"), w)
    end.

(** [DELETE /quotes?id=eq.{id}] *)
Definition postgrest_delete_quotes (id : Z) : M bool :=
  do _ <- postgrest_request (ReqDelete "quotes" id) ;;
  fun w =>
    (Returned true,
     set_quotes (List.filter (fun q => negb (q_id q =? id)) (quotes w)) (next_quote_id w) w).

(** The row the store makes of a posted quote: its id and its number are the
    store's. *)
Definition quote_row (id : Z) (quote_number : option string) (data : Quote) : Quote :=
  {| q_id := id;
     q_quote_number := quote_number;
     q_branch_id := q_branch_id data;
     q_customer_id := q_customer_id data;
     q_customer_name := q_customer_name data;
     q_customer_phone := q_customer_phone data;
     q_customer_email := q_customer_email data;
     q_company_name := q_company_name data;
     q_contract_type := q_contract_type data;
     q_plan_name := q_plan_name data;
     q_contract_months := q_contract_months data;
     q_proposed_start_date := q_proposed_start_date data;
     q_items := q_items data;
     q_subtotal := q_subtotal data;
     q_discount_amount := q_discount_amount data;
     q_discount_note := q_discount_note data;
     q_tax_amount := q_tax_amount data;
     q_total_amount := q_total_amount data;
     q_deposit_amount := q_deposit_amount data;
     q_valid_from := q_valid_from data;
     q_valid_until := q_valid_until data;
     q_status := q_status data;
     q_internal_notes := q_internal_notes data;
     q_customer_notes := q_customer_notes data;
     q_created_by := q_created_by data;
     q_sent_at := q_sent_at data;
     q_viewed_at := q_viewed_at data;
     q_responded_at := q_responded_at data;
     q_converted_contract_id := q_converted_contract_id data;
     q_converted_at := q_converted_at data |}.

(** [POST /quotes]: the store gives the row its id and its number. *)
Definition postgrest_post_quotes (data : Quote) : M Quote :=
  do _ <- postgrest_request (ReqPost "quotes") ;;
  fun w =>
    let id := next_quote_id w in
    let row := quote_row id (quote_number_trigger w id) data in
    (Returned row, set_quotes (quotes w ++ [row]) (id + 1) w).

(** The row the store makes of a posted contract: its id and its number are
    the store's, and its trigger links the customer. *)
Definition contract_row (id : Z) (contract_number : option string) (customer_id : option Z)
    (data : Contract) : Contract :=
  {| c_id := id;
     c_contract_number := contract_number;
     c_customer_id := customer_id;
     c_branch_id := c_branch_id data;
     c_contract_type := c_contract_type data;
     c_plan_name := c_plan_name data;
     c_start_date := c_start_date data;
     c_end_date := c_end_date data;
     c_monthly_rent := c_monthly_rent data;
     c_payment_cycle := c_payment_cycle data;
     c_payment_day := c_payment_day data;
     c_deposit := c_deposit data;
     c_status := c_status data;
     c_company_name := c_company_name data;
     c_representative_name := c_representative_name data;
     c_phone := c_phone data;
     c_email := c_email data;
     c_representative_address := c_representative_address data;
     c_id_number := c_id_number data;
     c_company_tax_id := c_company_tax_id data;
     c_original_price := c_original_price data;
     c_notes := c_notes data |}.

(** [POST /contracts] *)
Definition postgrest_post_contracts (data : Contract) : M Contract :=
  do _ <- postgrest_request (ReqPost "contracts") ;;
  fun w =>
    let id := next_contract_id w in
    let row := contract_row id (contract_number_trigger w id) (customer_trigger w data) data in
    (Returned row, set_contracts (contracts w ++ [row]) (id + 1) w).

(** ** quote_tools.py *)

(** The dict a quote tool returns: [{"success", "message", "updated_fields",
    "quote"}], the last two when present. *)
Record QuoteReply : Type := mkQuoteReply {
  qr_success : bool;
  qr_message : string;
  qr_updated_fields : option (gset string);
  qr_quote : option Quote
}.

(** [sum(item.get("amount", 0) for item in items)] *)
Definition sum_amounts (items : list Item) : Z :=
  foldl (fun acc item => acc + default 0 (item_amount item)) 0 items.

Definition if_str (o : option string) : option string :=
  if truthy_str o then o else None.

Definition if_int (o : option Z) : option Z :=
  if truthy_int o then o else None.

Record CreateQuoteArgs : Type := mkCreateQuoteArgs {
  cq_branch_id : Z;
  cq_customer_id : option Z;
  cq_customer_name : option string;
  cq_customer_phone : option string;
  cq_customer_email : option string;
  cq_company_name : option string;
  cq_contract_type : string;
  cq_plan_name : option string;
  cq_contract_months : Z;
  cq_proposed_start_date : option string;
  cq_items : option (list Item);
  cq_discount_amount : option Z;
  cq_discount_note : option string;
  cq_deposit_amount : option Z;
  cq_valid_days : Z;
  cq_internal_notes : option string;
  cq_customer_notes : option string;
  cq_created_by : option string
}.

(** The defaults of the signature of [create_quote]. *)
Definition create_quote_defaults (branch_id : Z) (items : option (list Item))
    (discount_amount : option Z) : CreateQuoteArgs :=
  {| cq_branch_id := branch_id;
     cq_customer_id := None;
     cq_customer_name := None;
     cq_customer_phone := None;
     cq_customer_email := None;
     cq_company_name := None;
     cq_contract_type := "virtual_office";
     cq_plan_name := None;
     cq_contract_months := 12;
     cq_proposed_start_date := None;
     cq_items := items;
     cq_discount_amount := discount_amount;
     cq_discount_note := None;
     cq_deposit_amount := Some 0;
     cq_valid_days := 30;
     cq_internal_notes := None;
     cq_customer_notes := None;
     cq_created_by := None |}.

Definition create_quote (a : CreateQuoteArgs) : M QuoteReply :=
  let items := default [] (cq_items a) in
  let subtotal := sum_amounts items in
  let total_amount := subtotal - default 0 (cq_discount_amount a) in
  do today_ <- ask today ;;
  do valid_until <- lift (add_days today_ (cq_valid_days a)) ;;
  let data :=
    {| q_id := 0;
       q_quote_number := None;
       q_branch_id := Some (cq_branch_id a);
       q_customer_id := if_int (cq_customer_id a);
       q_customer_name := if_str (cq_customer_name a);
       q_customer_phone := if_str (cq_customer_phone a);
       q_customer_email := if_str (cq_customer_email a);
       q_company_name := if_str (cq_company_name a);
       q_contract_type := Some (cq_contract_type a);
       q_plan_name := if_str (cq_plan_name a);
       q_contract_months := Some (cq_contract_months a);
       q_proposed_start_date := if_str (cq_proposed_start_date a);
       q_items := VItems items;
       q_subtotal := Some subtotal;
       q_discount_amount := Some (default 0 (cq_discount_amount a));
       q_discount_note := if_str (cq_discount_note a);
       q_tax_amount := None;
       q_total_amount := Some total_amount;
       q_deposit_amount := Some (default 0 (cq_deposit_amount a));
       q_valid_from := Some (isoformat today_);
       q_valid_until := Some (isoformat valid_until);
       q_status := Some "draft";
       q_internal_notes := if_str (cq_internal_notes a);
       q_customer_notes := if_str (cq_customer_notes a);
       q_created_by := if_str (cq_created_by a);
       q_sent_at := None;
       q_viewed_at := None;
       q_responded_at := None;
       q_converted_contract_id := None;
       q_converted_at := None |} in
  reraise "建立報價單失敗"
    (do quote <- postgrest_post_quotes data ;;
     (* the row carries its [quote_number], so the message never falls back
        on [quote["id"]] *)
     ret {| qr_success := true;
            qr_message := "報價單 " +:+ str_opt (q_quote_number quote) +:+ " 建立成功";
            qr_updated_fields := None;
            qr_quote := Some quote |}).

Definition allowed_fields : list string :=
  [ "customer_id"; "customer_name"; "customer_phone"; "customer_email";
    "company_name"; "contract_type"; "plan_name"; "contract_months";
    "proposed_start_date"; "items"; "subtotal"; "discount_amount";
    "discount_note"; "tax_amount"; "total_amount"; "deposit_amount";
    "valid_from"; "valid_until"; "status"; "internal_notes"; "customer_notes" ].

(** [subtotal - discount] where [discount] came out of a dict. *)
Definition int_minus (a : Z) (v : value) : result value :=
  match v with
  | VInt d => Returned (VInt (a - d))
  | VBool b => Returned (VInt (a - (if b then 1 else 0)))
  | VNone => Raised (TypeError "unsupported operand type(s) for -: 'int' and 'NoneType'")
  | VStr _ => Raised (TypeError "unsupported operand type(s) for -: 'int' and 'str'")
  | VItems _ => Raised (TypeError "unsupported operand type(s) for -: 'int' and 'list'")
  end.

(** The block of [update_quote] that runs when ["items"] is among the
    filtered fields. *)
Definition recompute_amounts (filtered_updates : gmap string value)
  : result (gmap string value) :=
  match filtered_updates !! "items" with
  | Some (VItems items) =>
      let subtotal := sum_amounts items in
      let filtered_updates := <["subtotal" := VInt subtotal]> filtered_updates in
      let discount := default (VInt 0) (filtered_updates !! "discount_amount") in
      match int_minus subtotal discount with
      | Returned total_amount =>
          Returned (<["items" := VItems items]>
                      (<["total_amount" := total_amount]> filtered_updates))
      | Raised e => Raised e
      end
  | _ => Returned filtered_updates
  end.

Definition update_quote (quote_id : Z) (updates : gmap string value) : M QuoteReply :=
  let filtered_updates := filter (fun kv => kv.1 ∈ allowed_fields) updates in
  if decide (filtered_updates = ∅) then raise (ValueError "沒有有效的更新欄位")
  else
    do filtered_updates <- lift (recompute_amounts filtered_updates) ;;
    reraise "更新報價單失敗"
      (do result_ <- postgrest_patch_quotes quote_id filtered_updates ;;
       match result_ with
       | [] => ret {| qr_success := false; qr_message := "找不到報價單";
                      qr_updated_fields := None; qr_quote := None |}
       | quote :: _ =>
           ret {| qr_success := true; qr_message := "報價單更新成功";
                  qr_updated_fields := Some (dom filtered_updates);
                  qr_quote := Some quote |}
       end).

Definition valid_statuses : list string :=
  [ "draft"; "sent"; "viewed"; "accepted"; "rejected"; "expired"; "converted" ].

(** The body [update_quote_status] sends: the status, the timestamp that
    goes with it, and the notes when given. *)
Definition status_update_data (status : string) (notes : option string) (now : string)
  : gmap string value :=
  let update_data : gmap string value := {[ "status" := VStr status ]} in
  let update_data :=
    if String.eqb status "sent" then <["sent_at" := VStr now]> update_data
    else if String.eqb status "viewed" then <["viewed_at" := VStr now]> update_data
    else if String.eqb status "accepted" || String.eqb status "rejected"
         then <["responded_at" := VStr now]> update_data
    else update_data in
  match notes with
  | Some n => if truthy_str notes then <["internal_notes" := VStr n]> update_data
              else update_data
  | None => update_data
  end.

Definition update_quote_status (quote_id : Z) (status : string) (notes : option string)
  : M QuoteReply :=
  if negb (bool_decide (status ∈ valid_statuses)) then
    raise (ValueError ("無效的狀態，允許: "
                       +:+ "draft, sent, viewed, accepted, rejected, expired, converted"))
  else
    do now <- ask now_isoformat ;;
    let update_data := status_update_data status notes now in
    reraise "更新報價單狀態失敗"
      (do result_ <- postgrest_patch_quotes quote_id update_data ;;
       match result_ with
       | [] => ret {| qr_success := false; qr_message := "找不到報價單";
                      qr_updated_fields := None; qr_quote := None |}
       | quote :: _ =>
           ret {| qr_success := true;
                  qr_message := "報價單狀態已更新為 " +:+ status;
                  qr_updated_fields := None;
                  qr_quote := Some quote |}
       end).

Definition delete_quote (quote_id : Z) : M QuoteReply :=
  reraise "刪除報價單失敗"
    (do quotes_ <- postgrest_get_quotes "quotes" quote_id ;;
     match quotes_ with
     | [] => ret {| qr_success := false; qr_message := "找不到報價單";
                    qr_updated_fields := None; qr_quote := None |}
     | quote :: _ =>
         if negb (bool_decide (q_status quote = Some "draft")) then
           ret {| qr_success := false;
                  qr_message := "只能刪除草稿狀態的報價單，目前狀態為 "
                                +:+ str_opt (q_status quote);
                  qr_updated_fields := None; qr_quote := None |}
         else
           do _ <- postgrest_delete_quotes quote_id ;;
           ret {| qr_success := true;
                  qr_message := "報價單 " +:+ str_opt (q_quote_number quote) +:+ " 已刪除";
                  qr_updated_fields := None; qr_quote := None |}
     end).

(** *** convert_quote_to_contract *)

Record ConvertArgs : Type := mkConvertArgs {
  cv_start_date : option string;
  cv_end_date : option string;
  cv_payment_cycle : string;
  cv_payment_day : Z;
  cv_company_name : option string;
  cv_representative_name : option string;
  cv_representative_address : option string;
  cv_id_number : option string;
  cv_company_tax_id : option string;
  cv_phone : option string;
  cv_email : option string;
  cv_original_price : option Z;
  cv_monthly_rent : option Z;
  cv_deposit_amount : option Z;
  cv_notes : option string
}.

(** A call that passes the quote id only. *)
Definition no_overrides : ConvertArgs :=
  {| cv_start_date := None; cv_end_date := None;
     cv_payment_cycle := "monthly"; cv_payment_day := 5;
     cv_company_name := None; cv_representative_name := None;
     cv_representative_address := None; cv_id_number := None;
     cv_company_tax_id := None; cv_phone := None; cv_email := None;
     cv_original_price := None; cv_monthly_rent := None;
     cv_deposit_amount := None; cv_notes := None |}.

(** The ["contract"] dict of a successful conversion. *)
Record ContractSummary : Type := mkContractSummary {
  cs_id : Z;
  cs_contract_number : option string;
  cs_customer_id : option Z;
  cs_company_name : option string;
  cs_representative_name : option string;
  cs_start_date : string;
  cs_end_date : string;
  cs_monthly_rent : option Z;
  cs_deposit : option Z;
  cs_status : string
}.

Inductive ConvertReply : Type :=
| ConvertFailure (message : string)
| ConvertSuccess (message : string) (contract : ContractSummary) (quote_number : option string).

Definition cr_success (r : ConvertReply) : bool :=
  match r with ConvertFailure _ => false | ConvertSuccess _ _ _ => true end.

(** The three refusals of [convert_quote_to_contract]. *)
Definition msg_quote_not_found : string := "找不到報價單".

Definition msg_not_accepted (status : option string) : string :=
  "只有已接受的報價單才能轉換為合約，目前狀態為 " +:+ str_opt status.

Definition msg_already_converted (contract_id : option Z) : string :=
  "此報價單已轉換過，合約 ID: " +:+ str_opt_int contract_id.

(** Step 5: [round(total_amount / contract_months) if contract_months > 0
    else total_amount]. *)
Definition derive_monthly_rent (total_amount contract_months : option Z)
  : result (option Z) :=
  match contract_months with
  | None => Raised (TypeError "'>' not supported between instances of 'NoneType' and 'int'")
  | Some months =>
      if 0 <? months then
        match total_amount with
        | Some total => Returned (Some (round_div total months))
        | None => Raised (TypeError "unsupported operand type(s) for /: 'NoneType' and 'int'")
        end
      else Returned total_amount
  end.

Definition converted_body (contract_id : Z) (now : string) : gmap string value :=
  <["status" := VStr "converted"]>
    (<["converted_contract_id" := VInt contract_id]>
       {[ "converted_at" := VStr now ]}).

Section Conversion.

(** [datetime.fromisoformat], from the standard library: the ordinal of the
    day of the date it reads, [None] where it raises [ValueError].  It
    stays a parameter: which strings it reads depends on the version of
    Python; [parse_iso_date] is the part all versions share. *)
Variable fromisoformat : string -> option Z.

(** Step 4, when no end date is given: the start date plus thirty days per
    contract month, printed with [strftime("%Y-%m-%d")]. *)
Definition derive_end_date (contract_start : string) (contract_months : option Z)
  : result string :=
  match fromisoformat contract_start with
  | None => Raised (ValueError ("Invalid isoformat string: '" +:+ contract_start +:+ "'"))
  | Some start_dt =>
      match contract_months with
      | None => Raised (TypeError "unsupported operand type(s) for *: 'NoneType' and 'int'")
      | Some months =>
          match add_days start_dt (months * 30) with
          | Returned end_dt => Returned (isoformat end_dt)
          | Raised e => Raised e
          end
      end
  end.

Definition convert_quote_to_contract (quote_id : Z) (a : ConvertArgs) : M ConvertReply :=
  reraise "報價單轉換失敗"
    (do quotes_ <- postgrest_get_quotes "v_quotes" quote_id ;;
     match quotes_ with
     | [] => ret (ConvertFailure msg_quote_not_found)
     | quote :: _ =>
         if negb (bool_decide (q_status quote = Some "accepted")) then
           ret (ConvertFailure (msg_not_accepted (q_status quote)))
         else if truthy_int (q_converted_contract_id quote) then
           ret (ConvertFailure (msg_already_converted (q_converted_contract_id quote)))
         else
           do today_ <- ask today ;;
           let contract_start :=
             or_else (or_str (cv_start_date a) (q_proposed_start_date quote))
                     (isoformat today_) in
           let contract_months := q_contract_months quote in
           do contract_end <-
             (if negb (truthy_str (cv_end_date a))
              then lift (derive_end_date contract_start contract_months)
              else ret (default "" (cv_end_date a))) ;;
           do monthly_rent <-
             (match cv_monthly_rent a with
              | None => lift (derive_monthly_rent (q_total_amount quote) contract_months)
              | Some rent => ret (Some rent)
              end) ;;
           let deposit_amount :=
             match cv_deposit_amount a with
             | None => q_deposit_amount quote
             | Some d => Some d
             end in
           let contract_data :=
             {| c_id := 0;
                c_contract_number := None;
                c_customer_id := None;
                c_branch_id := q_branch_id quote;
                c_contract_type := q_contract_type quote;
                c_plan_name := q_plan_name quote;
                c_start_date := contract_start;
                c_end_date := contract_end;
                c_monthly_rent := monthly_rent;
                c_payment_cycle := cv_payment_cycle a;
                c_payment_day := cv_payment_day a;
                c_deposit := deposit_amount;
                c_status := "pending_sign";
                c_company_name := or_str (cv_company_name a) (q_company_name quote);
                c_representative_name :=
                  or_str (cv_representative_name a) (q_customer_name quote);
                c_phone := or_str (cv_phone a) (q_customer_phone quote);
                c_email := or_str (cv_email a) (q_customer_email quote);
                c_representative_address := if_str (cv_representative_address a);
                c_id_number := if_str (cv_id_number a);
                c_company_tax_id := if_str (cv_company_tax_id a);
                c_original_price := if_int (cv_original_price a);
                c_notes :=
                  if truthy_str (cv_notes a) then cv_notes a
                  else Some ("從報價單 " +:+ str_opt (q_quote_number quote) +:+ " 轉換") |} in
           do contract <- postgrest_post_contracts contract_data ;;
           do now <- ask now_isoformat ;;
           do _ <- postgrest_patch_quotes quote_id (converted_body (c_id contract) now) ;;
           ret (ConvertSuccess "報價單已成功轉換為合約"
                  {| cs_id := c_id contract;
                     cs_contract_number := c_contract_number contract;
                     cs_customer_id := c_customer_id contract;
                     cs_company_name := c_company_name contract;
                     cs_representative_name := c_representative_name contract;
                     cs_start_date := contract_start;
                     cs_end_date := contract_end;
                     cs_monthly_rent := monthly_rent;
                     cs_deposit := deposit_amount;
                     cs_status := "pending_sign" |}
                  (q_quote_number quote))
     end).

End Conversion.

(** ** line_tools.py *)

(** The dict a LINE tool returns; a key that is absent is [None]. *)
Record LineReply : Type := mkLineReply {
  lr_success : bool;
  lr_message : option string;
  lr_error : option string;
  lr_payment_id : option Z;
  lr_reminder_type : option string;
  lr_contract_id : option Z;
  lr_days_remaining : option Z
}.

Definition line_failure (error : string) : LineReply :=
  {| lr_success := false; lr_message := None; lr_error := Some error;
     lr_payment_id := None; lr_reminder_type := None;
     lr_contract_id := None; lr_days_remaining := None |}.

Definition line_ok : LineReply :=
  {| lr_success := true; lr_message := None; lr_error := None;
     lr_payment_id := None; lr_reminder_type := None;
     lr_contract_id := None; lr_days_remaining := None |}.

(** [send_line_push]: one text message pushed to one address.  Whatever
    happens at the endpoint comes back as a dict, never as an exception. *)
Definition send_line_push (line_user_id : string) (text : string) : M LineReply :=
  fun w =>
    if String.eqb (LINE_CHANNEL_ACCESS_TOKEN w) "" then
      (Returned (line_failure "LINE Bot 未設定"), w)
    else
      let w1 := log (ReqPush line_user_id text) w in
      match line_api w (length (pushes w)) with
      | Responded status_code =>
          if status_code =? 200 then (Returned line_ok, w1)
          else (Returned (line_failure ("LINE API 錯誤: " +:+ str_int status_code)), w1)
      | ClientError e => (Returned (line_failure (exn_message e)), w1)
      end.

(** The filters of a [GET /v_payments_due]: [id=eq.], [branch_id=eq.],
    [urgency=eq.], each when given. *)
Record PaymentParams : Type := mkPaymentParams {
  pp_id : option Z;
  pp_branch_id : option Z;
  pp_urgency : option string
}.

Definition payment_matches (params : PaymentParams) (p : Payment) : bool :=
  match pp_id params with Some i => p_id p =? i | None => true end
  && match pp_branch_id params with
     | Some b => bool_decide (p_branch_id p = Some b)
     | None => true
     end
  && match pp_urgency params with
     | Some u => bool_decide (p_urgency p = Some u)
     | None => true
     end.

Definition postgrest_get_payments (params : PaymentParams) : M (list Payment) :=
  do _ <- postgrest_request (ReqGet "v_payments_due") ;;
  ask (fun w => List.filter (payment_matches params) (v_payments_due w)).

Definition postgrest_get_renewals (contract_id : Z) : M (list Renewal) :=
  do _ <- postgrest_request (ReqGet "v_renewal_reminders") ;;
  ask (fun w => List.filter (fun r => r_contract_id r =? contract_id) (v_renewal_reminders w)).

(** The four texts of a payment reminder. *)
Definition payment_message (reminder_type : string) (payment : Payment) : string :=
  let customer_name := p_customer_name payment in
  let period := str_opt (p_payment_period payment) in
  let amount := p_total_due payment in
  let due_date := p_due_date payment in
  if String.eqb reminder_type "upcoming" then
    "親愛的 " +:+ customer_name +:+ " 您好 🙋‍♀️

" +:+ "提醒您 " +:+ period +:+ " 的租金 $" +:+ format_amount amount
      +:+ " 將於 " +:+ due_date +:+ " 到期，" +:+ "請記得繳費喔！

" +:+ "如有任何問題歡迎聯繫我們 💼"
  else if String.eqb reminder_type "due" then
    "親愛的 " +:+ customer_name +:+ " 您好 📢

" +:+ "您 " +:+ period +:+ " 的租金 $" +:+ format_amount amount +:+ " 今天到期囉！
" +:+ "請儘快完成繳費，謝謝您的配合 🙏"
  else if String.eqb reminder_type "overdue" then
    let overdue_days := str_opt_int (p_overdue_days payment) in
    "親愛的 " +:+ customer_name +:+ " 您好 ⚠️

" +:+ "您 " +:+ period +:+ " 的租金 $" +:+ format_amount amount
      +:+ " 已逾期 " +:+ overdue_days +:+ " 天，" +:+ "請儘速處理。

" +:+ "如有任何困難請聯繫我們協助處理 📞"
  else
    "親愛的 " +:+ customer_name +:+ "，您有一筆 $" +:+ format_amount amount
      +:+ " 的款項需要處理。".

Definition send_payment_reminder (payment_id : Z) (reminder_type : string) : M LineReply :=
  reraise "發送繳費提醒失敗"
    (do payments <- postgrest_get_payments
                      {| pp_id := Some payment_id; pp_branch_id := None; pp_urgency := None |} ;;
     match payments with
     | [] => ret (line_failure "找不到付款記錄")
     | payment :: _ =>
         match if_str (p_line_user_id payment) with
         | None =>
             ret (line_failure ("客戶 " +:+ p_customer_name payment +:+ " 沒有綁定 LINE"))
         | Some line_user_id =>
             let message := payment_message reminder_type payment in
             do result_ <- send_line_push line_user_id message ;;
             if lr_success result_ then
               ret {| lr_success := true;
                      lr_message := Some ("已發送" +:+ reminder_type +:+ "提醒給 "
                                          +:+ p_customer_name payment);
                      lr_error := None;
                      lr_payment_id := Some payment_id;
                      lr_reminder_type := Some reminder_type;
                      lr_contract_id := None;
                      lr_days_remaining := None |}
             else ret result_
         end
     end).

(** The label that opens a renewal notice, by the days that remain. *)
Definition renewal_urgency (days_remaining : Z) : string :=
  if days_remaining <=? 7 then "⚠️ 緊急"
  else if days_remaining <=? 30 then "📢 重要"
  else "📋 提醒".

Definition renewal_message (renewal : Renewal) : string :=
  let urgency := renewal_urgency (r_days_remaining renewal) in
  urgency +:+ " 續約通知

" +:+ "親愛的 " +:+ r_customer_name renewal +:+ " 您好，

"
  +:+ "您在 " +:+ r_branch_name renewal +:+ " 的合約將於 " +:+ r_end_date renewal +:+ " 到期，"
  +:+ "距今還有 " +:+ str_int (r_days_remaining renewal) +:+ " 天。

"
  +:+ "如需續約或有任何問題，歡迎隨時聯繫我們！

" +:+ "感謝您對 Hour Jungle 的支持 🙏".

Definition send_renewal_reminder (contract_id : Z) : M LineReply :=
  reraise "發送續約提醒失敗"
    (do renewals <- postgrest_get_renewals contract_id ;;
     match renewals with
     | [] => ret (line_failure "找不到合約或合約不在續約提醒範圍內")
     | renewal :: _ =>
         match if_str (r_line_user_id renewal) with
         | None =>
             ret (line_failure ("客戶 " +:+ r_customer_name renewal +:+ " 沒有綁定 LINE"))
         | Some line_user_id =>
             do result_ <- send_line_push line_user_id (renewal_message renewal) ;;
             if lr_success result_ then
               ret {| lr_success := true;
                      lr_message := Some ("已發送續約提醒給 " +:+ r_customer_name renewal);
                      lr_error := None;
                      lr_payment_id := None;
                      lr_reminder_type := None;
                      lr_contract_id := Some contract_id;
                      lr_days_remaining := Some (r_days_remaining renewal) |}
             else ret result_
         end
     end).

(** One entry of the ["errors"] list of a bulk run. *)
Record BulkError : Type := mkBulkError {
  be_payment_id : Z;
  be_customer : string;
  be_error : option string
}.

Inductive BulkReply : Type :=
| DryRun (total_payments with_line_id would_send : nat) (total_amount : Z)
| Live (sent_count failed_count : Z) (errors : option (list BulkError)).

(** The [for payment in payments_with_line] loop, with its three
    accumulators. *)
Fixpoint bulk_loop (payments_with_line : list Payment)
    (sent_count failed_count : Z) (errors : list BulkError)
  : M (Z * Z * list BulkError) :=
  match payments_with_line with
  | [] => ret (sent_count, failed_count, errors)
  | payment :: rest =>
      let reminder_type :=
        if bool_decide (p_payment_status payment = Some "overdue")
        then "overdue" else "upcoming" in
      do result_ <- send_payment_reminder (p_id payment) reminder_type ;;
      if lr_success result_ then bulk_loop rest (sent_count + 1) failed_count errors
      else
        bulk_loop rest sent_count (failed_count + 1)
          (errors ++ [ {| be_payment_id := p_id payment;
                          be_customer := p_customer_name payment;
                          be_error := lr_error result_ |} ])
  end.

Definition has_line (p : Payment) : bool := truthy_str (p_line_user_id p).

Definition send_bulk_payment_reminders (branch_id : option Z) (urgency : string)
    (dry_run : bool) : M BulkReply :=
  let params :=
    {| pp_id := None;
       pp_branch_id := if_int branch_id;
       pp_urgency := if String.eqb urgency "all" then None else Some urgency |} in
  reraise "批次發送失敗"
    (do payments <- postgrest_get_payments params ;;
     let payments_with_line := List.filter has_line payments in
     if dry_run then
       ret (DryRun (length payments) (length payments_with_line)
                   (length payments_with_line)
                   (foldl (fun acc p => acc + p_total_due p) 0 payments_with_line))
     else
       do counts <- bulk_loop payments_with_line 0 0 [] ;;
       let '(sent_count, failed_count, errors) := counts in
       ret (Live sent_count failed_count
                 (match errors with [] => None | _ => Some errors end))).

(** ** main.py: the tool registry *)

Section Registry.

(** The keyword arguments of a call and what a handler returns. *)
Context {Params Result : Type}.

Record Tool : Type := mkTool {
  description : string;
  handler : Params -> M Result
}.

(** The dict [call_tool] returns. *)
Record Envelope : Type := mkEnvelope {
  env_success : bool;
  env_tool : string;
  env_result : option Result;
  env_error : option string
}.

Definition call_tool (MCP_TOOLS : gmap string Tool) (tool_name : string)
    (params : Params) : M Envelope :=
  match MCP_TOOLS !! tool_name with
  | None => raise (HTTPException 404 ("Tool '" +:+ tool_name +:+ "' not found"))
  | Some tool =>
      try_except
        (do result_ <- handler tool params ;;
         ret {| env_success := true; env_tool := tool_name;
                env_result := Some result_; env_error := None |})
        (fun e =>
           ret {| env_success := false; env_tool := tool_name;
                  env_result := None; env_error := Some (exn_message e) |})
  end.

End Registry.

(** * More of the tool server: reading quotes, plain messages, the payments
      that are due, the MCP endpoint *)

(** ** quote_tools.py: [get_quote] and [list_quotes] *)

(** A row of view [v_quotes] as [get_quote] hands it on: the columns of table
    [quotes] and, beside them, the column [is_expired] the view computes. *)
Record QuoteView : Type := mkQuoteView {
  qv_quote : Quote;
  qv_is_expired : bool
}.

(** The dict [get_quote] returns: [{"found", "message"}] or
    [{"found", "quote"}]. *)
Record QuoteLookup : Type := mkQuoteLookup {
  ql_found : bool;
  ql_message : option string;
  ql_quote : option QuoteView
}.

(** The dict [list_quotes] returns. *)
Record QuoteList : Type := mkQuoteList {
  lq_count : nat;
  lq_stats : gmap string Z;
  lq_quotes : list Quote
}.

(** [stats = {"draft": 0, "sent": 0, "accepted": 0, "expired": 0}] *)
Definition initial_stats : gmap string Z :=
  <["draft" := 0]> (<["sent" := 0]> (<["accepted" := 0]> (<["expired" := 0]> ∅))).

(** [stats[key] += 1], for a key that is in the dict. *)
Definition stats_add1 (key : string) (stats : gmap string Z) : gmap string Z :=
  <[key := default 0 (stats !! key) + 1]> stats.

(** The filters of a [GET /v_quotes] of [list_quotes]: [branch_id=eq.],
    [status=eq.], [customer_id=eq.], each when the argument is truthy. *)
Definition quote_listed (branch_id : option Z) (status : option string)
    (customer_id : option Z) (q : Quote) : bool :=
  match if_int branch_id with
  | Some b => bool_decide (q_branch_id q = Some b)
  | None => true
  end
  && match if_str status with
     | Some s => bool_decide (q_status q = Some s)
     | None => true
     end
  && match if_int customer_id with
     | Some c => bool_decide (q_customer_id q = Some c)
     | None => true
     end.

Section QuoteListing.

(** Two things view [v_quotes] adds to the columns of table [quotes]: the
    computed column [is_expired] (read for its truth value) and the order of
    the rows by [created_at], latest first. *)
Variable is_expired : Quote -> bool.
Variable created_at_desc : list Quote -> list Quote.

(** [get_quote] returns the first row of the view with the id, as the view
    shows it. *)
Definition get_quote (quote_id : Z) : M QuoteLookup :=
  reraise "取得報價單失敗"
    (do quotes_ <- postgrest_get_quotes "v_quotes" quote_id ;;
     match quotes_ with
     | [] => ret {| ql_found := false; ql_message := Some "找不到報價單"; ql_quote := None |}
     | quote :: _ =>
         ret {| ql_found := true; ql_message := None;
                ql_quote := Some {| qv_quote := quote; qv_is_expired := is_expired quote |} |}
     end).

(** The body of the loop [for q in quotes]. *)
Definition count_quote (stats : gmap string Z) (q : Quote) : gmap string Z :=
  let stats :=
    match q_status q with
    | Some status =>
        if bool_decide (is_Some (stats !! status)) then stats_add1 status stats else stats
    | None => stats
    end in
  if is_expired q
     && negb (bool_decide (q_status q ∈ [Some "accepted"; Some "converted"; Some "rejected"]))
  then stats_add1 "expired" stats
  else stats.

(** [GET /v_quotes?limit=..&order=created_at.desc&..]; [limit] is not
    negative. *)
Definition postgrest_list_quotes (branch_id : option Z) (status : option string)
    (customer_id : option Z) (limit : Z) : M (list Quote) :=
  do _ <- postgrest_request (ReqGet "v_quotes") ;;
  ask (fun w =>
         take (Z.to_nat limit)
              (created_at_desc
                 (List.filter (quote_listed branch_id status customer_id) (quotes w)))).

Definition list_quotes (branch_id : option Z) (status : option string)
    (customer_id : option Z) (limit : Z) : M QuoteList :=
  reraise "取得報價單列表失敗"
    (do quotes_ <- postgrest_list_quotes branch_id status customer_id limit ;;
     ret {| lq_count := length quotes_;
            lq_stats := foldl count_quote initial_stats quotes_;
            lq_quotes := quotes_ |}).

End QuoteListing.

(** ** line_tools.py: [send_line_message] *)

(** A row of table [customers] as [select=id,name,line_user_id] shows it. *)
Record Customer : Type := mkCustomer {
  cu_id : Z;
  cu_name : string;
  cu_line_user_id : option string
}.

Section PlainMessages.

(** The rows of table [customers]; the tool reads them and writes none. *)
Variable customers : list Customer.

Definition postgrest_get_customers (customer_id : Z) : M (list Customer) :=
  do _ <- postgrest_request (ReqGet "customers") ;;
  ret (List.filter (fun c => cu_id c =? customer_id) customers).

Definition send_line_message (customer_id : Z) (message : string) : M LineReply :=
  reraise "發送訊息失敗"
    (do customers_ <- postgrest_get_customers customer_id ;;
     match customers_ with
     | [] => ret (line_failure "找不到客戶")
     | customer :: _ =>
         match if_str (cu_line_user_id customer) with
         | None => ret (line_failure ("客戶 " +:+ cu_name customer +:+ " 沒有綁定 LINE"))
         | Some line_user_id =>
             do result_ <- send_line_push line_user_id message ;;
             if lr_success result_ then
               ret {| lr_success := true;
                      lr_message := Some ("已發送訊息給 " +:+ cu_name customer);
                      lr_error := None;
                      lr_payment_id := None;
                      lr_reminder_type := None;
                      lr_contract_id := None;
                      lr_days_remaining := None |}
             else ret result_
         end
     end).

End PlainMessages.

(** ** crm_tools.py: [list_payments_due] *)

(** The dict [list_payments_due] returns. *)
Record PaymentsDue : Type := mkPaymentsDue {
  pd_count : nat;
  pd_total_amount : Z;
  pd_overdue_count : Z;
  pd_overdue_amount : Z;
  pd_payments : list Payment
}.

(** [GET /v_payments_due?limit=..&..]; [limit] is not negative. *)
Definition postgrest_get_payments_limit (params : PaymentParams) (limit : Z)
  : M (list Payment) :=
  do _ <- postgrest_request (ReqGet "v_payments_due") ;;
  ask (fun w => take (Z.to_nat limit) (List.filter (payment_matches params) (v_payments_due w))).

Definition is_overdue (p : Payment) : bool :=
  bool_decide (p_payment_status p = Some "overdue").

Definition list_payments_due (branch_id : option Z) (urgency : option string) (limit : Z)
  : M PaymentsDue :=
  let params :=
    {| pp_id := None;
       pp_branch_id := if_int branch_id;
       pp_urgency :=
         match if_str urgency with
         | Some u => if String.eqb u "all" then None else Some u
         | None => None
         end |} in
  reraise "取得應收款失敗"
    (do payments <- postgrest_get_payments_limit params limit ;;
     let total_amount := foldl (fun acc p => acc + p_total_due p) 0 payments in
     let overdue_count := foldl (fun acc p => if is_overdue p then acc + 1 else acc) 0 payments in
     let overdue_amount :=
       foldl (fun acc p => if is_overdue p then acc + p_total_due p else acc) 0 payments in
     ret {| pd_count := length payments;
            pd_total_amount := total_amount;
            pd_overdue_count := overdue_count;
            pd_overdue_amount := overdue_amount;
            pd_payments := payments |}).

(** ** main.py: the MCP endpoint *)

Section McpEndpoint.

Context {Params Result : Type}.

(** [str(result)] *)
Variable str_result : Result -> string.

(** The dict [mcp_call_tool] returns: one text block and [isError]. *)
Record McpReply : Type := mkMcpReply {
  mcp_text : string;
  isError : bool
}.

Definition mcp_call_tool (MCP_TOOLS : gmap string (@Tool Params Result))
    (tool_name : string) (args : Params) : M McpReply :=
  match MCP_TOOLS !! tool_name with
  | None =>
      ret {| mcp_text := "Error: Tool '" +:+ tool_name +:+ "' not found"; isError := true |}
  | Some tool =>
      try_except
        (do result_ <- handler tool args ;;
         ret {| mcp_text := str_result result_; isError := false |})
        (fun e => ret {| mcp_text := "Error: " +:+ exn_message e; isError := true |})
  end.

End McpEndpoint.

(** * Vocabulary of the properties *)

(** The row a read by id hands to the code: [rows[0]]. *)
Definition find_quote (quote_id : Z) (w : World) : option Quote :=
  List.find (fun q => q_id q =? quote_id) (quotes w).

Definition find_payment (payment_id : Z) (w : World) : option Payment :=
  List.find (fun p => p_id p =? payment_id) (v_payments_due w).

(** The data gateway answers every request. *)
Definition postgrest_answers (w : World) : Prop :=
  forall n : nat, postgrest_fault w n = None.

(** The same world with other failures in store for the data gateway. *)
Definition with_postgrest_fault (fault : nat -> option exn) (w : World) : World :=
  {| quotes := quotes w;
     contracts := contracts w;
     v_payments_due := v_payments_due w;
     v_renewal_reminders := v_renewal_reminders w;
     next_quote_id := next_quote_id w;
     next_contract_id := next_contract_id w;
     quote_number_trigger := quote_number_trigger w;
     contract_number_trigger := contract_number_trigger w;
     customer_trigger := customer_trigger w;
     postgrest_fault := fault;
     today := today w;
     now_isoformat := now_isoformat w;
     LINE_CHANNEL_ACCESS_TOKEN := LINE_CHANNEL_ACCESS_TOKEN w;
     line_api := line_api w;
     trace := trace w |}.

(** A computation returns (rather than raises) a reply that satisfies [P]. *)
Definition returns {A : Type} (m : M A) (w : World) (P : A -> World -> Prop) : Prop :=
  exists a w', m w = (Returned a, w') /\ P a w'.

(** A small store to run the scenarios of the design document on: no rows
    yet, 1 January 2024, a data gateway that answers, a LINE endpoint that
    refuses the second push of a run and accepts the others. *)
Definition blank_world : World :=
  {| quotes := [];
     contracts := [];
     v_payments_due := [];
     v_renewal_reminders := [];
     next_quote_id := 1;
     next_contract_id := 1;
     quote_number_trigger := fun id => Some ("Q" +:+ str_int id);
     contract_number_trigger := fun id => Some ("C" +:+ str_int id);
     customer_trigger := fun _ => None;
     postgrest_fault := fun _ => None;
     today := 738886;
     now_isoformat := "2024-01-01T09:00:00";
     LINE_CHANNEL_ACCESS_TOKEN := "channel-token";
     line_api := fun n => if Nat.eqb n 1 then Responded 500 else Responded 200;
     trace := [] |}.

(** Quote [Q1]: one item of 1000 and a discount of 100. *)
Definition item_1000 : Item :=
  {| item_name := Some "office"; item_quantity := Some 1;
     item_unit_price := Some 1000; item_amount := Some 1000 |}.

Definition Q1_args : CreateQuoteArgs :=
  create_quote_defaults 1 (Some [item_1000]) (Some 100).

Definition world_Q1_draft : World := (create_quote Q1_args blank_world).2.

Definition world_Q1_accepted : World :=
  (update_quote_status 1 "accepted" None world_Q1_draft).2.

(** A quote row with its lifecycle columns replaced and every other column
    kept. *)
Definition with_lifecycle (status internal_notes sent_at viewed_at responded_at : option string)
    (converted_contract_id : option Z) (converted_at : option string) (q : Quote) : Quote :=
  {| q_id := q_id q;
     q_quote_number := q_quote_number q;
     q_branch_id := q_branch_id q;
     q_customer_id := q_customer_id q;
     q_customer_name := q_customer_name q;
     q_customer_phone := q_customer_phone q;
     q_customer_email := q_customer_email q;
     q_company_name := q_company_name q;
     q_contract_type := q_contract_type q;
     q_plan_name := q_plan_name q;
     q_contract_months := q_contract_months q;
     q_proposed_start_date := q_proposed_start_date q;
     q_items := q_items q;
     q_subtotal := q_subtotal q;
     q_discount_amount := q_discount_amount q;
     q_discount_note := q_discount_note q;
     q_tax_amount := q_tax_amount q;
     q_total_amount := q_total_amount q;
     q_deposit_amount := q_deposit_amount q;
     q_valid_from := q_valid_from q;
     q_valid_until := q_valid_until q;
     q_status := status;
     q_internal_notes := internal_notes;
     q_customer_notes := q_customer_notes q;
     q_created_by := q_created_by q;
     q_sent_at := sent_at;
     q_viewed_at := viewed_at;
     q_responded_at := responded_at;
     q_converted_contract_id := converted_contract_id;
     q_converted_at := converted_at |}.

(** What a status update is to leave in a row: the new status, the notes when
    given, and the timestamp that goes with the status: [sent] stamps
    [sent_at], [viewed] stamps [viewed_at], [accepted] and [rejected] stamp
    [responded_at]; every other status stamps nothing. *)
Definition stamped (status : string) (notes : option string) (now : string) (q : Quote) : Quote :=
  with_lifecycle
    (Some status)
    (if truthy_str notes then notes else q_internal_notes q)
    (if String.eqb status "sent" then Some now else q_sent_at q)
    (if String.eqb status "viewed" then Some now else q_viewed_at q)
    (if String.eqb status "accepted" || String.eqb status "rejected"
     then Some now else q_responded_at q)
    (q_converted_contract_id q)
    (q_converted_at q)
    q.

(** What a conversion is to leave in the row of the quote. *)
Definition converted (contract_id : Z) (now : string) (q : Quote) : Quote :=
  with_lifecycle
    (Some "converted") (q_internal_notes q) (q_sent_at q) (q_viewed_at q) (q_responded_at q)
    (Some contract_id) (Some now) q.

(** The rows of a table after the rows with the given id went through [f]. *)
Definition rows_updated (id : Z) (f : Quote -> Quote) (rows : list Quote) : list Quote :=
  map (fun q => if q_id q =? id then f q else q) rows.

(** A catalog with one tool, the status update of a quote, called with the
    id and the status. *)
Definition status_tools : gmap string (@Tool (Z * string) QuoteReply) :=
  {[ "quote_update_status" :=
       {| description := "更新報價單狀態";
          handler := fun params => update_quote_status params.1 params.2 None |} ]}.

(** The row of [Q1] as the store holds it after the creation. *)
Definition quote_Q1 : Quote :=
  {| q_id := 1;
     q_quote_number := Some "Q1";
     q_branch_id := Some 1;
     q_customer_id := None;
     q_customer_name := None;
     q_customer_phone := None;
     q_customer_email := None;
     q_company_name := None;
     q_contract_type := Some "virtual_office";
     q_plan_name := None;
     q_contract_months := Some 12;
     q_proposed_start_date := None;
     q_items := VItems [item_1000];
     q_subtotal := Some 1000;
     q_discount_amount := Some 100;
     q_discount_note := None;
     q_tax_amount := None;
     q_total_amount := Some 900;
     q_deposit_amount := Some 0;
     q_valid_from := Some "2024-01-01";
     q_valid_until := Some "2024-01-31";
     q_status := Some "draft";
     q_internal_notes := None;
     q_customer_notes := None;
     q_created_by := None;
     q_sent_at := None;
     q_viewed_at := None;
     q_responded_at := None;
     q_converted_contract_id := None;
     q_converted_at := None |}.

Definition quote_Q1_accepted : Quote :=
  stamped "accepted" None "2024-01-01T09:00:00" quote_Q1.

(** ** Contract conversion, as the design document words it *)

Section ConversionVocabulary.

Variable fromisoformat : string -> option Z.

(** Step 4: the start date is the one of the caller, else the one the quote
    proposes, else today. *)
Definition contract_start_of (a : ConvertArgs) (quote : Quote) (w : World) : string :=
  match cv_start_date a with
  | Some s => if String.eqb s "" then
                or_else (q_proposed_start_date quote) (isoformat (today w))
              else s
  | None => or_else (q_proposed_start_date quote) (isoformat (today w))
  end.

(** Step 5: the end date is the one of the caller, else the start date plus
    [contract_months * 30] days; [None] when it cannot be computed. *)
Definition derived_end_date (a : ConvertArgs) (quote : Quote) (w : World) : option string :=
  if truthy_str (cv_end_date a) then cv_end_date a
  else
    match fromisoformat (contract_start_of a quote w), q_contract_months quote with
    | Some start, Some months =>
        if (1 <=? start + months * 30) && (start + months * 30 <=? MAXORDINAL)
        then Some (isoformat (start + months * 30))
        else None
    | _, _ => None
    end.

(** Step 6: the monthly rent is the one of the caller, else the total of
    the quote divided by the contract months and rounded; with no months
    to divide by, the total as it is.  [None] when it cannot be
    computed. *)
Definition derived_monthly_rent (a : ConvertArgs) (quote : Quote) : option (option Z) :=
  match cv_monthly_rent a with
  | Some rent => Some (Some rent)
  | None =>
      match q_contract_months quote with
      | None => None
      | Some months =>
          if 0 <? months then
            match q_total_amount quote with
            | Some total => Some (Some (round_div total months))
            | None => None
            end
          else Some (q_total_amount quote)
      end
  end.

(** The quote can be converted: it is accepted and was not converted
    yet. *)
Definition convertible (quote : Quote) : Prop :=
  q_status quote = Some "accepted" /\ truthy_int (q_converted_contract_id quote) = false.

(** The contract a conversion asks the store to create. *)
Definition contract_data_of (a : ConvertArgs) (quote : Quote) (w : World)
    (contract_end : string) (monthly_rent : option Z) : Contract :=
  {| c_id := 0;
     c_contract_number := None;
     c_customer_id := None;
     c_branch_id := q_branch_id quote;
     c_contract_type := q_contract_type quote;
     c_plan_name := q_plan_name quote;
     c_start_date := contract_start_of a quote w;
     c_end_date := contract_end;
     c_monthly_rent := monthly_rent;
     c_payment_cycle := cv_payment_cycle a;
     c_payment_day := cv_payment_day a;
     c_deposit := match cv_deposit_amount a with
                  | None => q_deposit_amount quote
                  | Some d => Some d
                  end;
     c_status := "pending_sign";
     c_company_name := or_str (cv_company_name a) (q_company_name quote);
     c_representative_name := or_str (cv_representative_name a) (q_customer_name quote);
     c_phone := or_str (cv_phone a) (q_customer_phone quote);
     c_email := or_str (cv_email a) (q_customer_email quote);
     c_representative_address := if_str (cv_representative_address a);
     c_id_number := if_str (cv_id_number a);
     c_company_tax_id := if_str (cv_company_tax_id a);
     c_original_price := if_int (cv_original_price a);
     c_notes := if truthy_str (cv_notes a) then cv_notes a
                else Some ("從報價單 " +:+ str_opt (q_quote_number quote) +:+ " 轉換") |}.

(** The row of the new contract in the store. *)
Definition new_contract (data : Contract) (w : World) : Contract :=
  contract_row (next_contract_id w) (contract_number_trigger w (next_contract_id w))
               (customer_trigger w data) data.

(** The world after a conversion: one read, the contract created, the rows
    of the quote patched. *)
Definition converted_world (quote_id : Z) (data : Contract) (w : World) : World :=
  set_quotes
    (rows_updated quote_id (converted (next_contract_id w) (now_isoformat w)) (quotes w))
    (next_quote_id w)
    (log (ReqPatch "quotes" quote_id)
       (set_contracts (contracts w ++ [new_contract data w]) (next_contract_id w + 1)
          (log (ReqPost "contracts") (log (ReqGet "v_quotes") w)))).

(** The reply of a conversion that went through. *)
Definition conversion_reply (a : ConvertArgs) (quote : Quote) (w : World)
    (contract_end : string) (monthly_rent : option Z) : ConvertReply :=
  let data := contract_data_of a quote w contract_end monthly_rent in
  ConvertSuccess "報價單已成功轉換為合約"
    {| cs_id := next_contract_id w;
       cs_contract_number := contract_number_trigger w (next_contract_id w);
       cs_customer_id := customer_trigger w data;
       cs_company_name := c_company_name data;
       cs_representative_name := c_representative_name data;
       cs_start_date := contract_start_of a quote w;
       cs_end_date := contract_end;
       cs_monthly_rent := monthly_rent;
       cs_deposit := c_deposit data;
       cs_status := "pending_sign" |}
    (q_quote_number quote).

(** The five ways a conversion can go (steps 1 to 11 of the algorithm). *)
Inductive convert_outcome (quote_id : Z) (a : ConvertArgs) (w : World)
  : result ConvertReply -> World -> Prop :=
| OutcomeNotFound :
    find_quote quote_id w = None ->
    convert_outcome quote_id a w
      (Returned (ConvertFailure msg_quote_not_found)) (log (ReqGet "v_quotes") w)
| OutcomeNotAccepted quote :
    find_quote quote_id w = Some quote ->
    q_status quote <> Some "accepted" ->
    convert_outcome quote_id a w
      (Returned (ConvertFailure (msg_not_accepted (q_status quote))))
      (log (ReqGet "v_quotes") w)
| OutcomeAlreadyConverted quote :
    find_quote quote_id w = Some quote ->
    q_status quote = Some "accepted" ->
    truthy_int (q_converted_contract_id quote) = true ->
    convert_outcome quote_id a w
      (Returned (ConvertFailure (msg_already_converted (q_converted_contract_id quote))))
      (log (ReqGet "v_quotes") w)
| OutcomeRaised quote msg :
    find_quote quote_id w = Some quote ->
    convertible quote ->
    derived_end_date a quote w = None \/ derived_monthly_rent a quote = None ->
    convert_outcome quote_id a w (Raised (Exception_ msg)) (log (ReqGet "v_quotes") w)
| OutcomeConverted quote contract_end monthly_rent :
    find_quote quote_id w = Some quote ->
    convertible quote ->
    derived_end_date a quote w = Some contract_end ->
    derived_monthly_rent a quote = Some monthly_rent ->
    convert_outcome quote_id a w
      (Returned (conversion_reply a quote w contract_end monthly_rent))
      (converted_world quote_id (contract_data_of a quote w contract_end monthly_rent) w).

End ConversionVocabulary.

(** A call that gives a start date no version of Python reads. *)
Definition unreadable_start : ConvertArgs :=
  {| cv_start_date := Some "next month"; cv_end_date := None;
     cv_payment_cycle := "monthly"; cv_payment_day := 5;
     cv_company_name := None; cv_representative_name := None;
     cv_representative_address := None; cv_id_number := None;
     cv_company_tax_id := None; cv_phone := None; cv_email := None;
     cv_original_price := None; cv_monthly_rent := None;
     cv_deposit_amount := None; cv_notes := None |}.

Definition world_Q1_converted : World :=
  (convert_quote_to_contract parse_iso_date 1 no_overrides world_Q1_accepted).2.

(** ** The totals of a quote *)

(** The sum of the [amount] fields of the items; an item without the field
    counts for nothing. *)
Definition amounts_total (items : list Item) : Z :=
  fold_right Z.add 0 (map (fun item => default 0 (item_amount item)) items).

(** The invariant of the totals of a stored quote: [subtotal] is the sum of
    the amounts of its items and [total_amount] is [subtotal] minus
    [discount_amount]. *)
Definition totals_consistent (quote : Quote) : Prop :=
  exists items subtotal discount,
    q_items quote = VItems items
    /\ q_subtotal quote = Some subtotal
    /\ q_discount_amount quote = Some discount
    /\ subtotal = amounts_total items
    /\ q_total_amount quote = Some (subtotal - discount).

(** An update of [Q1] that sends the items again and nothing else. *)
Definition items_only : gmap string value := {[ "items" := VItems [item_1000] ]}.

(** An update of [Q1] that sends the items and a discount. *)
Definition items_and_discount : gmap string value :=
  <["discount_amount" := VInt 250]> {[ "items" := VItems [item_1000; item_1000] ]}.

(** ** Reminders *)

(** The payments a bulk run is about: the rows of the view for the branch,
    when one is given, and of the urgency, unless it is ["all"]. *)
Definition due_candidates (branch_id : option Z) (urgency : string) (w : World)
  : list Payment :=
  List.filter
    (fun p =>
       match branch_id with
       | Some b => (b =? 0) || bool_decide (p_branch_id p = Some b)
       | None => true
       end
       && (String.eqb urgency "all" || bool_decide (p_urgency p = Some urgency)))
    (v_payments_due w).

(** The candidates with a bound messaging address. *)
Definition with_address (payments : list Payment) : list Payment :=
  List.filter has_line payments.

(** Whether the [k]-th push of the world is delivered: the channel is
    configured and the endpoint answers 200. *)
Definition delivered (w : World) (k : nat) : bool :=
  negb (String.eqb (LINE_CHANNEL_ACCESS_TOKEN w) "")
  && match line_api w k with
     | Responded status_code => status_code =? 200
     | ClientError _ => false
     end.

(** The dispatches of a run, one per candidate and in their order, the first
    of them being the [k]-th push of the world, each with its outcome. *)
Fixpoint dispatches (w : World) (k : nat) (candidates : list Payment)
  : list (Payment * bool) :=
  match candidates with
  | [] => []
  | p :: rest => (p, delivered w k) :: dispatches w (S k) rest
  end.

(** The payments whose dispatch succeeded, and those whose dispatch failed. *)
Definition reached (outcome : list (Payment * bool)) : list Payment :=
  map fst (List.filter (fun d => d.2) outcome).

Definition missed (outcome : list (Payment * bool)) : list Payment :=
  map fst (List.filter (fun d => negb d.2) outcome).

(** The reminder type a bulk run picks for a payment, and the push it makes
    of it. *)
Definition bulk_reminder_type (p : Payment) : string :=
  if bool_decide (p_payment_status p = Some "overdue") then "overdue" else "upcoming".

Definition reminder_push (p : Payment) : request :=
  ReqPush (default "" (p_line_user_id p)) (payment_message (bulk_reminder_type p) p).

(** ** Reading an amount as a reminder prints it

    What [f"{n:,.0f}"] prints for an integer: a minus sign when it is
    negative, then its decimal digits in groups of three counted from the
    right, with a comma between two groups.  So the first group has one to
    three digits and does not begin with 0 (the lone [0] apart), and every
    other group has three.  The reader below accepts these texts and no
    others, and gives the integer they denote. *)
Definition digit_value (c : ascii) : option Z :=
  let n := Z.of_N (N_of_ascii c) in
  if (48 <=? n) && (n <=? 57) then Some (n - 48) else None.

(** The state of the reader: the value of the digits read, the number of the
    digits read in the group at hand, and whether that group is the first. *)
Record AmountReader : Type := mkAmountReader {
  ar_value : Z;
  ar_digits : nat;
  ar_first : bool
}.

Definition reader_start : AmountReader :=
  {| ar_value := 0; ar_digits := 0; ar_first := true |}.

Definition group_complete (st : AmountReader) : bool :=
  if ar_first st then (1 <=? ar_digits st)%nat else (ar_digits st =? 3)%nat.

(** One character: a comma closes a complete group of a number that is not 0;
    a digit goes into the group at hand unless the group is full or began
    with 0. *)
Definition read_char (st : AmountReader) (c : ascii) : option AmountReader :=
  if Ascii.eqb c ","
  then
    if group_complete st && (0 <? ar_value st)
    then Some {| ar_value := ar_value st; ar_digits := 0; ar_first := false |}
    else None
  else
    match digit_value c with
    | Some d =>
        if (ar_digits st <? 3)%nat
           && negb (ar_first st && (0 <? ar_digits st)%nat && (ar_value st =? 0))
        then Some {| ar_value := 10 * ar_value st + d;
                     ar_digits := S (ar_digits st);
                     ar_first := ar_first st |}
        else None
    | None => None
    end.

Fixpoint read_chars (s : string) (st : AmountReader) : option AmountReader :=
  match s with
  | EmptyString => Some st
  | String c rest =>
      match read_char st c with
      | Some st' => read_chars rest st'
      | None => None
      end
  end.

Definition read_unsigned (s : string) : option Z :=
  match read_chars s reader_start with
  | Some st => if group_complete st then Some (ar_value st) else None
  | None => None
  end.

Definition read_amount (s : string) : option Z :=
  match s with
  | EmptyString => None
  | String c rest =>
      if Ascii.eqb c "-"
      then match read_unsigned rest with
           | Some v => if 0 <? v then Some (- v) else None
           | None => None
           end
      else read_unsigned s
  end.

(** The value of a group of three digits. *)
Definition three_digits (s : string) : option Z :=
  match s with
  | String a (String b (String c EmptyString)) =>
      match digit_value a, digit_value b, digit_value c with
      | Some x, Some y, Some z => Some (100 * x + 10 * y + z)
      | _, _, _ => None
      end
  | _ => None
  end.

(** The numbers [0 .. 999]. *)
Definition below_1000 : list Z := map Z.of_nat (seq 0 1000).

(** Three overdue payments, all with a LINE address. *)
Definition overdue_payment (id : Z) (customer line_user_id : string) (total_due : Z) : Payment :=
  {| p_id := id; p_branch_id := Some 1; p_urgency := Some "overdue";
     p_customer_name := customer; p_line_user_id := Some line_user_id;
     p_payment_period := Some "2023-12"; p_total_due := total_due;
     p_due_date := "2023-12-05"; p_overdue_days := Some 27;
     p_payment_status := Some "overdue" |}.

Definition world_three_overdue : World :=
  {| quotes := [];
     contracts := [];
     v_payments_due :=
       [ overdue_payment 11 "Chen" "U-chen" 3000;
         overdue_payment 12 "Lin" "U-lin" 4500;
         overdue_payment 13 "Wang" "U-wang" 1200 ];
     v_renewal_reminders := [];
     next_quote_id := 1;
     next_contract_id := 1;
     quote_number_trigger := fun _ => None;
     contract_number_trigger := fun _ => None;
     customer_trigger := fun _ => None;
     postgrest_fault := fun _ => None;
     today := 738886;
     now_isoformat := "2024-01-01T09:00:00";
     LINE_CHANNEL_ACCESS_TOKEN := "channel-token";
     line_api := fun n => if Nat.eqb n 1 then Responded 500 else Responded 200;
     trace := [] |}.

(** A quote row with its items and its three amounts replaced and every
    other column kept. *)
Definition with_amounts (items : value) (subtotal discount_amount total_amount : option Z)
    (q : Quote) : Quote :=
  {| q_id := q_id q;
     q_quote_number := q_quote_number q;
     q_branch_id := q_branch_id q;
     q_customer_id := q_customer_id q;
     q_customer_name := q_customer_name q;
     q_customer_phone := q_customer_phone q;
     q_customer_email := q_customer_email q;
     q_company_name := q_company_name q;
     q_contract_type := q_contract_type q;
     q_plan_name := q_plan_name q;
     q_contract_months := q_contract_months q;
     q_proposed_start_date := q_proposed_start_date q;
     q_items := items;
     q_subtotal := subtotal;
     q_discount_amount := discount_amount;
     q_discount_note := q_discount_note q;
     q_tax_amount := q_tax_amount q;
     q_total_amount := total_amount;
     q_deposit_amount := q_deposit_amount q;
     q_valid_from := q_valid_from q;
     q_valid_until := q_valid_until q;
     q_status := q_status q;
     q_internal_notes := q_internal_notes q;
     q_customer_notes := q_customer_notes q;
     q_created_by := q_created_by q;
     q_sent_at := q_sent_at q;
     q_viewed_at := q_viewed_at q;
     q_responded_at := q_responded_at q;
     q_converted_contract_id := q_converted_contract_id q;
     q_converted_at := q_converted_at q |}.

(** The two updates that touch the items: the items alone, and the items
    with a discount. *)
Definition update_items (items : list Item) : gmap string value :=
  {[ "items" := VItems items ]}.

Definition update_items_discount (items : list Item) (discount : Z) : gmap string value :=
  <["discount_amount" := VInt discount]> {[ "items" := VItems items ]}.

(** The body that goes to the store when the items come alone: the discount
    that is subtracted is 0. *)
Definition body_items (items : list Item) : gmap string value :=
  <["items" := VItems items]>
    (<["total_amount" := VInt (sum_amounts items - 0)]>
       (<["subtotal" := VInt (sum_amounts items)]> (update_items items))).

Definition body_items_discount (items : list Item) (discount : Z) : gmap string value :=
  <["items" := VItems items]>
    (<["total_amount" := VInt (sum_amounts items - discount)]>
       (<["subtotal" := VInt (sum_amounts items)]> (update_items_discount items discount))).

(** * Vocabulary of the further properties *)



(** A value Python subtracts from an [int]. *)
Definition is_number (v : value) : bool :=
  match v with
  | VInt _ | VBool _ => true
  | VNone | VStr _ | VItems _ => false
  end.

(** A quote row with another status and every other column kept. *)
Definition with_status (status : string) (q : Quote) : Quote :=
  with_lifecycle (Some status) (q_internal_notes q) (q_sent_at q) (q_viewed_at q)
                 (q_responded_at q) (q_converted_contract_id q) (q_converted_at q) q.

(** The reply of a tool that found no quote. *)
Definition quote_not_found : QuoteReply :=
  {| qr_success := false; qr_message := "找不到報價單";
     qr_updated_fields := None; qr_quote := None |}.

(** The data gateway answers the [k]-th request from now, or fails on it. *)
Definition answers_at (k : nat) (w : World) : Prop :=
  postgrest_fault w (length (data_requests w) + k) = None.

Definition fails_at (k : nat) (e : exn) (w : World) : Prop :=
  postgrest_fault w (length (data_requests w) + k) = Some e.

(** A world whose gateway fails on every request. *)
Definition gateway_down (e : exn) (w : World) : World :=
  with_postgrest_fault (fun _ => Some e) w.

(** A world whose gateway answers all requests but the [k]-th. *)
Definition gateway_fails_once (k : nat) (e : exn) (w : World) : World :=
  with_postgrest_fault (fun n => if Nat.eqb n k then Some e else None) w.

(** The row a read of the renewal view by contract hands to the code. *)
Definition find_renewal (contract_id : Z) (w : World) : option Renewal :=
  List.find (fun r => r_contract_id r =? contract_id) (v_renewal_reminders w).

Definition find_customer (customer_id : Z) (customers : list Customer) : option Customer :=
  List.find (fun c => cu_id c =? customer_id) customers.

(** A call of the conversion in which the caller gives the end date and the
    monthly rent. *)
Definition with_terms (end_date : string) (monthly_rent : Z) (a : ConvertArgs) : ConvertArgs :=
  {| cv_start_date := cv_start_date a;
     cv_end_date := Some end_date;
     cv_payment_cycle := cv_payment_cycle a;
     cv_payment_day := cv_payment_day a;
     cv_company_name := cv_company_name a;
     cv_representative_name := cv_representative_name a;
     cv_representative_address := cv_representative_address a;
     cv_id_number := cv_id_number a;
     cv_company_tax_id := cv_company_tax_id a;
     cv_phone := cv_phone a;
     cv_email := cv_email a;
     cv_original_price := cv_original_price a;
     cv_monthly_rent := Some monthly_rent;
     cv_deposit_amount := cv_deposit_amount a;
     cv_notes := cv_notes a |}.

(** A renewal that is due in 5 days, and a world that has it in its view. *)
Definition renewal_chen : Renewal :=
  {| r_contract_id := 7; r_customer_name := "Chen"; r_end_date := "2024-01-06";
     r_days_remaining := 5; r_branch_name := "大忠館"; r_line_user_id := Some "U-chen" |}.

(** The renewal of [renewal_chen] with another number of days left. *)
Definition renewal_in (days_remaining : Z) : Renewal :=
  {| r_contract_id := 7; r_customer_name := "Chen"; r_end_date := "2024-01-06";
     r_days_remaining := days_remaining; r_branch_name := "大忠館";
     r_line_user_id := Some "U-chen" |}.

Definition renewal_unbound : Renewal :=
  {| r_contract_id := 8; r_customer_name := "Lin"; r_end_date := "2024-02-20";
     r_days_remaining := 50; r_branch_name := "大忠館"; r_line_user_id := None |}.

Definition world_renewals : World :=
  {| quotes := [];
     contracts := [];
     v_payments_due := [];
     v_renewal_reminders := [renewal_chen; renewal_unbound];
     next_quote_id := 1;
     next_contract_id := 1;
     quote_number_trigger := fun _ => None;
     contract_number_trigger := fun _ => None;
     customer_trigger := fun _ => None;
     postgrest_fault := fun _ => None;
     today := 738886;
     now_isoformat := "2024-01-01T09:00:00";
     LINE_CHANNEL_ACCESS_TOKEN := "channel-token";
     line_api := fun _ => Responded 200;
     trace := [] |}.

(** The world of [world_renewals] with the one renewal [renewal_in days_remaining]. *)
Definition world_renewal_in (days_remaining : Z) : World :=
  {| quotes := [];
     contracts := [];
     v_payments_due := [];
     v_renewal_reminders := [renewal_in days_remaining];
     next_quote_id := 1;
     next_contract_id := 1;
     quote_number_trigger := fun _ => None;
     contract_number_trigger := fun _ => None;
     customer_trigger := fun _ => None;
     postgrest_fault := fun _ => None;
     today := 738886;
     now_isoformat := "2024-01-01T09:00:00";
     LINE_CHANNEL_ACCESS_TOKEN := "channel-token";
     line_api := fun _ => Responded 200;
     trace := [] |}.

(** The same world with no channel token. *)
Definition without_channel (w : World) : World :=
  {| quotes := quotes w;
     contracts := contracts w;
     v_payments_due := v_payments_due w;
     v_renewal_reminders := v_renewal_reminders w;
     next_quote_id := next_quote_id w;
     next_contract_id := next_contract_id w;
     quote_number_trigger := quote_number_trigger w;
     contract_number_trigger := contract_number_trigger w;
     customer_trigger := customer_trigger w;
     postgrest_fault := postgrest_fault w;
     today := today w;
     now_isoformat := now_isoformat w;
     LINE_CHANNEL_ACCESS_TOKEN := "";
     line_api := line_api w;
     trace := trace w |}.

(** Two customers, one with a LINE address. *)
Definition customers_two : list Customer :=
  [ {| cu_id := 3; cu_name := "Chen"; cu_line_user_id := Some "U-chen" |};
    {| cu_id := 4; cu_name := "Lin"; cu_line_user_id := None |} ].

(** ** Counting quotes *)

(** How many rows of a list satisfy a test. *)
Definition count_rows {A : Type} (f : A -> bool) (rows : list A) : Z :=
  Z.of_nat (length (List.filter f rows)).

Definition has_status (status : string) (q : Quote) : bool :=
  bool_decide (q_status q = Some status).

(** The statuses after which a quote is no longer open. *)
Definition closed_status (q : Quote) : bool :=
  has_status "accepted" q || has_status "converted" q || has_status "rejected" q.

(** A quote the view flags as expired while it is still open. *)
Definition open_and_expired (is_expired : Quote -> bool) (q : Quote) : bool :=
  is_expired q && negb (closed_status q).

(** What one row adds to the counter of key [k] in the statistics of
    [list_quotes]: one when its status is [k], and, for the key [expired],
    one more when the row is flagged as expired and still open. *)
Definition tally (is_expired : Quote -> bool) (k : string) (q : Quote) : Z :=
  (if has_status k q then 1 else 0)
  + (if String.eqb k "expired" && open_and_expired is_expired q then 1 else 0).

Definition tally_rows (is_expired : Quote -> bool) (k : string) (rows : list Quote) : Z :=
  fold_right Z.add 0 (map (tally is_expired k) rows).

(** The sum of the amounts due of some payments. *)
Definition total_due (payments : list Payment) : Z :=
  fold_right Z.add 0 (map p_total_due payments).

(** The rows [list_payments_due] asks the view for, before the limit: no
    urgency, an empty one and ["all"] all mean every urgency. *)
Definition listed_payments (branch_id : option Z) (urgency : option string) (w : World)
  : list Payment :=
  due_candidates branch_id (or_else urgency "all") w.

(** An update of [Q1] in which the caller sends two items, a discount, and a
    subtotal and a total that do not go with them. *)
Definition update_with_wrong_totals : gmap string value :=
  <["subtotal" := VInt 1]>
    (<["total_amount" := VInt 1]>
       (<["discount_amount" := VInt 250]> {[ "items" := VItems [item_1000; item_1000] ]})).

(** The arguments of a creation with another number of days of validity. *)
Definition with_valid_days (valid_days : Z) (a : CreateQuoteArgs) : CreateQuoteArgs :=
  {| cq_branch_id := cq_branch_id a;
     cq_customer_id := cq_customer_id a;
     cq_customer_name := cq_customer_name a;
     cq_customer_phone := cq_customer_phone a;
     cq_customer_email := cq_customer_email a;
     cq_company_name := cq_company_name a;
     cq_contract_type := cq_contract_type a;
     cq_plan_name := cq_plan_name a;
     cq_contract_months := cq_contract_months a;
     cq_proposed_start_date := cq_proposed_start_date a;
     cq_items := cq_items a;
     cq_discount_amount := cq_discount_amount a;
     cq_discount_note := cq_discount_note a;
     cq_deposit_amount := cq_deposit_amount a;
     cq_valid_days := valid_days;
     cq_internal_notes := cq_internal_notes a;
     cq_customer_notes := cq_customer_notes a;
     cq_created_by := cq_created_by a |}.

(** A quote that has not started its lifecycle. *)
Definition lifecycle_blank (q : Quote) : Prop :=
  q_sent_at q = None /\ q_viewed_at q = None /\ q_responded_at q = None
  /\ q_converted_contract_id q = None /\ q_converted_at q = None.

(** The world after a creation stored [quote]. *)
Definition world_with_new_quote (quote : Quote) (w : World) : World :=
  set_quotes (quotes w ++ [quote]) (next_quote_id w + 1) (log (ReqPost "quotes") w).

(** A tool reports a failure [e] of the gateway: it raises the [Exception]
    that carries its own prefix and the text of [e], and leaves the rows of
    the store and the pushes as they were. *)
Definition reports {A : Type} (prefix : string) (e : exn) (m : M A) (w : World) : Prop :=
  exists w',
    m w = (Raised (Exception_ (prefix +:+ ": " +:+ exn_message e)), w')
    /\ quotes w' = quotes w
    /\ contracts w' = contracts w
    /\ pushes w' = pushes w.

(** The reply of a renewal reminder that was delivered. *)
Definition renewal_sent (contract_id : Z) (renewal : Renewal) : LineReply :=
  {| lr_success := true;
     lr_message := Some ("已發送續約提醒給 " +:+ r_customer_name renewal);
     lr_error := None;
     lr_payment_id := None;
     lr_reminder_type := None;
     lr_contract_id := Some contract_id;
     lr_days_remaining := Some (r_days_remaining renewal) |}.

(** The reply of a plain message that was delivered. *)
Definition message_sent (customer : Customer) : LineReply :=
  {| lr_success := true;
     lr_message := Some ("已發送訊息給 " +:+ cu_name customer);
     lr_error := None;
     lr_payment_id := None;
     lr_reminder_type := None;
     lr_contract_id := None;
     lr_days_remaining := None |}.

(** A computation that leaves the store as it found it, whatever it returns
    or raises: the rows of the quotes and of the contracts, the next ids, and
    the writes that were sent. *)
Definition same_store (w w' : World) : Prop :=
  quotes w' = quotes w
  /\ contracts w' = contracts w
  /\ next_quote_id w' = next_quote_id w
  /\ next_contract_id w' = next_contract_id w
  /\ writes w' = writes w.

Definition readonly {A : Type} (m : M A) : Prop :=
  forall w : World, same_store w (m w).2.

(** A world whose LINE endpoint answers every push with one status. *)
Definition line_always (status_code : Z) (w : World) : World :=
  {| quotes := quotes w;
     contracts := contracts w;
     v_payments_due := v_payments_due w;
     v_renewal_reminders := v_renewal_reminders w;
     next_quote_id := next_quote_id w;
     next_contract_id := next_contract_id w;
     quote_number_trigger := quote_number_trigger w;
     contract_number_trigger := contract_number_trigger w;
     customer_trigger := customer_trigger w;
     postgrest_fault := postgrest_fault w;
     today := today w;
     now_isoformat := now_isoformat w;
     LINE_CHANNEL_ACCESS_TOKEN := LINE_CHANNEL_ACCESS_TOKEN w;
     line_api := fun _ => Responded status_code;
     trace := trace w |}.

(** * Running computations *)

Lemma bind_returned {A B : Type} (m : M A) (k : A -> M B) (w w' : World) (a : A) :
  m w = (Returned a, w') -> bind m k w = k a w'.
Proof. intros H. unfold bind. now rewrite H. Qed.

Lemma bind_raised {A B : Type} (m : M A) (k : A -> M B) (w w' : World) (e : exn) :
  m w = (Raised e, w') -> bind m k w = (Raised e, w').
Proof. intros H. unfold bind. now rewrite H. Qed.

Lemma reraise_returned {A : Type} (prefix : string) (m : M A) (w w' : World) (a : A) :
  m w = (Returned a, w') -> reraise prefix m w = (Returned a, w').
Proof. intros H. unfold reraise, try_except. now rewrite H. Qed.

Lemma reraise_raised {A : Type} (prefix : string) (m : M A) (w w' : World) (e : exn) :
  m w = (Raised e, w') ->
  reraise prefix m w = (Raised (Exception_ (prefix +:+ ": " +:+ exn_message e)), w').
Proof. intros H. unfold reraise, try_except. now rewrite H. Qed.

(** [reraise] turns every exception into an [Exception] and lets replies
    through. *)
Lemma reraise_inv {A : Type} (prefix : string) (m : M A) (w w' : World) (a : A) :
  reraise prefix m w = (Returned a, w') -> m w = (Returned a, w').
Proof.
  unfold reraise, try_except, raise. destruct (m w) as [[b|e] w1]; intros H.
  - exact H.
  - discriminate H.
Qed.

Lemma find_head_filter {A : Type} (f : A -> bool) (l : list A) :
  head (List.filter f l) = List.find f l.
Proof.
  induction l as [|x l IH]; simpl; [reflexivity|].
  destruct (f x); [reflexivity | exact IH].
Qed.

Lemma filter_of_find {A : Type} (f : A -> bool) (l : list A) (x : A) :
  List.find f l = Some x -> exists rest, List.filter f l = x :: rest.
Proof.
  rewrite <- find_head_filter. destruct (List.filter f l) as [|y rest]; simpl.
  - discriminate.
  - intros [= ->]. now exists rest.
Qed.

Lemma filter_of_find_none {A : Type} (f : A -> bool) (l : list A) :
  List.find f l = None -> List.filter f l = [].
Proof.
  rewrite <- find_head_filter. destruct (List.filter f l); simpl; [reflexivity | discriminate].
Qed.

Lemma writes_log (r : request) (w : World) :
  writes (log r w) = writes w ++ (if is_write r then [r] else []).
Proof.
  unfold writes. simpl. rewrite List.filter_app. simpl.
  destruct (is_write r); reflexivity.
Qed.

Lemma pushes_log (r : request) (w : World) :
  pushes (log r w) = pushes w ++ (if is_push r then [r] else []).
Proof.
  unfold pushes. simpl. rewrite List.filter_app. simpl.
  destruct (is_push r); reflexivity.
Qed.

Lemma writes_set_quotes (rows : list Quote) (n : Z) (w : World) :
  writes (set_quotes rows n w) = writes w.
Proof. reflexivity. Qed.

Lemma writes_set_contracts (rows : list Contract) (n : Z) (w : World) :
  writes (set_contracts rows n w) = writes w.
Proof. reflexivity. Qed.

Lemma pushes_set_quotes (rows : list Quote) (n : Z) (w : World) :
  pushes (set_quotes rows n w) = pushes w.
Proof. reflexivity. Qed.

Lemma pushes_set_contracts (rows : list Contract) (n : Z) (w : World) :
  pushes (set_contracts rows n w) = pushes w.
Proof. reflexivity. Qed.

(** The requests of a world after some more were logged. *)
Ltac trace_simpl :=
  repeat (rewrite ?writes_set_quotes, ?writes_set_contracts, ?writes_log,
            ?pushes_set_quotes, ?pushes_set_contracts, ?pushes_log;
          cbn [is_write is_push]);
  rewrite ?app_nil_r.

(** A gateway that answers goes on answering: nothing the code does changes
    what becomes of the requests. *)
Lemma postgrest_answers_log (r : request) (w : World) :
  postgrest_answers w -> postgrest_answers (log r w).
Proof. intros H. exact H. Qed.

Lemma postgrest_answers_set_quotes (rows : list Quote) (n : Z) (w : World) :
  postgrest_answers w -> postgrest_answers (set_quotes rows n w).
Proof. intros H. exact H. Qed.

Lemma postgrest_answers_set_contracts (rows : list Contract) (n : Z) (w : World) :
  postgrest_answers w -> postgrest_answers (set_contracts rows n w).
Proof. intros H. exact H. Qed.

Lemma postgrest_request_run (r : request) (w : World) :
  postgrest_answers w -> postgrest_request r w = (Returned tt, log r w).
Proof. intros H. unfold postgrest_request. now rewrite H. Qed.

Lemma postgrest_request_fails (r : request) (w : World) (e : exn) :
  postgrest_fault w (length (data_requests w)) = Some e ->
  postgrest_request r w = (Raised e, log r w).
Proof. intros H. unfold postgrest_request. now rewrite H. Qed.

Lemma postgrest_get_quotes_run (endpoint : string) (id : Z) (w : World) :
  postgrest_answers w ->
  postgrest_get_quotes endpoint id w
  = (Returned (List.filter (fun q => q_id q =? id) (quotes w)), log (ReqGet endpoint) w).
Proof.
  intros H. unfold postgrest_get_quotes.
  erewrite bind_returned by (apply postgrest_request_run; exact H). reflexivity.
Qed.

Lemma postgrest_post_quotes_run (data : Quote) (w : World) :
  postgrest_answers w ->
  postgrest_post_quotes data w
  = (Returned (quote_row (next_quote_id w) (quote_number_trigger w (next_quote_id w)) data),
     set_quotes
       (quotes w ++ [quote_row (next_quote_id w) (quote_number_trigger w (next_quote_id w)) data])
       (next_quote_id w + 1) (log (ReqPost "quotes") w)).
Proof.
  intros H. unfold postgrest_post_quotes.
  erewrite bind_returned by (apply postgrest_request_run; exact H). reflexivity.
Qed.

Lemma postgrest_post_contracts_run (data : Contract) (w : World) :
  postgrest_answers w ->
  postgrest_post_contracts data w
  = (Returned (contract_row (next_contract_id w)
                 (contract_number_trigger w (next_contract_id w)) (customer_trigger w data) data),
     set_contracts
       (contracts w ++ [contract_row (next_contract_id w)
                          (contract_number_trigger w (next_contract_id w))
                          (customer_trigger w data) data])
       (next_contract_id w + 1) (log (ReqPost "contracts") w)).
Proof.
  intros H. unfold postgrest_post_contracts.
  erewrite bind_returned by (apply postgrest_request_run; exact H). reflexivity.
Qed.

Lemma postgrest_delete_quotes_run (id : Z) (w : World) :
  postgrest_answers w ->
  postgrest_delete_quotes id w
  = (Returned true,
     set_quotes (List.filter (fun q => negb (q_id q =? id)) (quotes w)) (next_quote_id w)
                (log (ReqDelete "quotes" id) w)).
Proof.
  intros H. unfold postgrest_delete_quotes.
  erewrite bind_returned by (apply postgrest_request_run; exact H). reflexivity.
Qed.

(** The worlds of the scenarios have a gateway that answers. *)
Lemma blank_world_answers : postgrest_answers blank_world.
Proof. intros n. reflexivity. Qed.

Lemma world_Q1_draft_answers : postgrest_answers world_Q1_draft.
Proof. intros n. vm_compute. reflexivity. Qed.

Lemma world_Q1_accepted_answers : postgrest_answers world_Q1_accepted.
Proof. intros n. vm_compute. reflexivity. Qed.

Lemma world_three_overdue_answers : postgrest_answers world_three_overdue.
Proof. intros n. reflexivity. Qed.

(** * The tool registry *)

(** C9: an invocation through the registry of a name that is not in the
    catalog fails with the unknown-tool error; for a name in the catalog, an
    exception of the handler is caught and comes back as the envelope
    [{success: false, error: str(e)}], a value of the handler comes back as
    [{success: true, result: value}], and so the call never raises. *)
Theorem call_tool_envelope {Params Result : Type}
    (MCP_TOOLS : gmap string (@Tool Params Result))
    (tool_name : string) (params : Params) (w : World) :
  (MCP_TOOLS !! tool_name = None ->
   call_tool MCP_TOOLS tool_name params w
   = (Raised (HTTPException 404 ("Tool '" +:+ tool_name +:+ "' not found")), w))
  /\ (forall tool : Tool,
        MCP_TOOLS !! tool_name = Some tool ->
        (forall (e : exn) (w' : World),
            handler tool params w = (Raised e, w') ->
            call_tool MCP_TOOLS tool_name params w
            = (Returned {| env_success := false; env_tool := tool_name;
                           env_result := None; env_error := Some (exn_message e) |}, w'))
        /\ (forall (value : Result) (w' : World),
              handler tool params w = (Returned value, w') ->
              call_tool MCP_TOOLS tool_name params w
              = (Returned {| env_success := true; env_tool := tool_name;
                             env_result := Some value; env_error := None |}, w'))
        /\ (exists (envelope : Envelope) (w' : World),
              call_tool MCP_TOOLS tool_name params w = (Returned envelope, w'))).
Proof.
  split.
  - intros Hnone. unfold call_tool. rewrite Hnone. reflexivity.
  - intros tool Hsome. unfold call_tool. rewrite Hsome.
    unfold try_except, bind, ret.
    destruct (handler tool params w) as [[value|e] w1] eqn:Hrun;
      (split; [|split]).
    + intros e w' [=].
    + intros value' w' [= <- <-]. reflexivity.
    + eauto.
    + intros e' w' [= <- <-]. reflexivity.
    + intros value' w' [=].
    + eauto.
Qed.

(** The call of the status tool with a status that is not known: the
    [ValueError] of the handler comes back inside the envelope. *)
Lemma call_tool_envelope_witness :
  status_tools !! "quote_update_status"
  = Some {| description := "更新報價單狀態";
            handler := fun params => update_quote_status params.1 params.2 None |}
  /\ call_tool status_tools "quote_update_status" (1, "archived") world_Q1_draft
     = (Returned {| env_success := false; env_tool := "quote_update_status";
                    env_result := None;
                    env_error :=
                      Some "無效的狀態，允許: draft, sent, viewed, accepted, rejected, expired, converted" |},
        world_Q1_draft).
Proof.
  split; [reflexivity|].
  destruct (call_tool_envelope status_tools "quote_update_status"
              (1, "archived") world_Q1_draft) as [_ Hknown].
  destruct (Hknown _ eq_refl) as [Hraised _].
  exact (Hraised
           (ValueError "無效的狀態，允許: draft, sent, viewed, accepted, rejected, expired, converted")
           world_Q1_draft eq_refl).
Defined.

(** * Patching rows *)

Lemma patch_rows_updated (id : Z) (body : gmap string value) (f : Quote -> Quote)
    (rows : list Quote) :
  (forall q, patch_quote body q = Some (f q)) ->
  patch_rows id body rows
  = Some (rows_updated id f rows, map f (List.filter (fun q => q_id q =? id) rows)).
Proof.
  intros Hf. induction rows as [|q rows IH]; simpl; [reflexivity|].
  rewrite IH. simpl. destruct (q_id q =? id); simpl.
  - rewrite Hf. reflexivity.
  - reflexivity.
Qed.

Lemma postgrest_patch_quotes_run (id : Z) (body : gmap string value) (f : Quote -> Quote)
    (w : World) :
  postgrest_answers w ->
  (forall q, patch_quote body q = Some (f q)) ->
  postgrest_patch_quotes id body w
  = (Returned (map f (List.filter (fun q => q_id q =? id) (quotes w))),
     set_quotes (rows_updated id f (quotes w)) (next_quote_id w) (log (ReqPatch "quotes" id) w)).
Proof.
  intros Hup Hf. unfold postgrest_patch_quotes.
  erewrite bind_returned by (apply postgrest_request_run; exact Hup).
  cbn [quotes log]. rewrite (patch_rows_updated id body f (quotes w) Hf). reflexivity.
Qed.

Lemma patch_quote_stamped (status : string) (notes : option string) (now : string) (q : Quote) :
  patch_quote (status_update_data status notes now) q = Some (stamped status notes now q).
Proof.
  unfold status_update_data, stamped.
  destruct notes as [n|]; simpl truthy_str;
    [destruct (String.eqb n "")|]; simpl negb; cbv iota;
    (destruct (String.eqb_spec status "sent") as [->|_]; [reflexivity|]);
    (destruct (String.eqb_spec status "viewed") as [->|_]; [reflexivity|]);
    (destruct (String.eqb_spec status "accepted") as [->|_]; [reflexivity|]);
    (destruct (String.eqb_spec status "rejected") as [->|_]; reflexivity).
Qed.

Lemma patch_quote_converted (contract_id : Z) (now : string) (q : Quote) :
  patch_quote (converted_body contract_id now) q = Some (converted contract_id now q).
Proof. reflexivity. Qed.

Lemma find_rows_updated (id : Z) (f : Quote -> Quote) (rows : list Quote) :
  (forall q, q_id (f q) = q_id q) ->
  List.find (fun q => q_id q =? id) (rows_updated id f rows)
  = option_map f (List.find (fun q => q_id q =? id) rows).
Proof.
  intros Hid. induction rows as [|q rows IH]; simpl; [reflexivity|].
  destruct (q_id q =? id) eqn:E.
  - rewrite Hid, E. reflexivity.
  - rewrite E. exact IH.
Qed.

(** * Status updates *)

Lemma valid_status_cases (status : string) :
  status ∈ valid_statuses <->
  status = "draft" \/ status = "sent" \/ status = "viewed" \/ status = "accepted"
  \/ status = "rejected" \/ status = "expired" \/ status = "converted".
Proof.
  unfold valid_statuses. rewrite !elem_of_cons, elem_of_nil. tauto.
Qed.

(** The status update of a quote with a status outside the seven known ones
    raises [ValueError] and sends nothing. *)
Lemma update_quote_status_rejects_unknown_status :
  update_quote_status 1 "archived" None world_Q1_draft
  = (Raised (ValueError "無效的狀態，允許: draft, sent, viewed, accepted, rejected, expired, converted"),
     world_Q1_draft).
Proof. reflexivity. Qed.

(** C3, as the code has it: the status update checks the status against the
    seven known values.  A status outside them raises [ValueError] and leaves
    the world as it was; each of the seven is accepted whatever the current
    status of the quote: when the data gateway answers, the patch that is
    sent sets the status, the notes when given, and the timestamp of the
    status and no other ([sent] stamps [sent_at], [viewed] stamps
    [viewed_at], [accepted] and [rejected] stamp [responded_at]), and the
    reply is a success exactly when a row was patched. *)
Theorem update_quote_status_validates_then_stamps
    (quote_id : Z) (status : string) (notes : option string) (w : World) :
  (status ∉ valid_statuses ->
   exists msg, update_quote_status quote_id status notes w = (Raised (ValueError msg), w))
  /\ (status ∈ valid_statuses ->
      postgrest_answers w ->
      returns (update_quote_status quote_id status notes) w
        (fun reply w' =>
           quotes w' = rows_updated quote_id (stamped status notes (now_isoformat w)) (quotes w)
           /\ writes w' = writes w ++ [ReqPatch "quotes" quote_id]
           /\ (qr_success reply = true <-> find_quote quote_id w <> None)
           /\ qr_quote reply
              = option_map (stamped status notes (now_isoformat w)) (find_quote quote_id w))).
Proof.
  unfold update_quote_status. split; [intros Hstatus | intros Hstatus Hup].
  - rewrite bool_decide_eq_false_2 by exact Hstatus. simpl. eexists. reflexivity.
  - rewrite bool_decide_eq_true_2 by exact Hstatus. simpl negb. cbv iota.
    unfold returns.
    set (f := stamped status notes (now_isoformat w)).
    assert (Hpatch : postgrest_patch_quotes quote_id
                       (status_update_data status notes (now_isoformat w)) w
                     = (Returned (map f (List.filter (fun q => q_id q =? quote_id) (quotes w))),
                        set_quotes (rows_updated quote_id f (quotes w)) (next_quote_id w)
                                   (log (ReqPatch "quotes" quote_id) w))).
    { apply postgrest_patch_quotes_run; [exact Hup|]. intros q. apply patch_quote_stamped. }
    unfold find_quote. rewrite <- find_head_filter.
    destruct (List.filter (fun q => q_id q =? quote_id) (quotes w)) as [|q rest] eqn:Hrows.
    + eexists _, _. split.
      * unfold bind at 1. unfold ask at 1. apply reraise_returned.
        erewrite bind_returned by exact Hpatch. reflexivity.
      * trace_simpl. simpl. repeat split; try reflexivity;
          intros; [discriminate | congruence].
    + eexists _, _. split.
      * unfold bind at 1. unfold ask at 1. apply reraise_returned.
        erewrite bind_returned by exact Hpatch. reflexivity.
      * trace_simpl. simpl. repeat split; try reflexivity;
          intros; discriminate.
Qed.

(** The status update that accepts quote [Q1]; the status of the witness is
    one of the seven, and [archived] is not. *)
Lemma update_quote_status_validates_then_stamps_witness :
  ("accepted" ∈ valid_statuses)
  /\ ("archived" ∉ valid_statuses)
  /\ postgrest_answers world_Q1_draft
  /\ (exists msg,
        update_quote_status 1 "archived" None world_Q1_draft
        = (Raised (ValueError msg), world_Q1_draft))
  /\ returns (update_quote_status 1 "accepted" None) world_Q1_draft
       (fun reply w' =>
          quotes w'
          = rows_updated 1 (stamped "accepted" None (now_isoformat world_Q1_draft))
                         (quotes world_Q1_draft)
          /\ writes w' = writes world_Q1_draft ++ [ReqPatch "quotes" 1]
          /\ (qr_success reply = true <-> find_quote 1 world_Q1_draft <> None)
          /\ qr_quote reply
             = option_map (stamped "accepted" None (now_isoformat world_Q1_draft))
                          (find_quote 1 world_Q1_draft)).
Proof.
  assert (Hin : "accepted" ∈ valid_statuses) by (apply valid_status_cases; tauto).
  assert (Hout : "archived" ∉ valid_statuses).
  { rewrite valid_status_cases. intros H. repeat destruct H as [H|H]; discriminate H. }
  pose proof world_Q1_draft_answers as Hup.
  split; [exact Hin|]. split; [exact Hout|]. split; [exact Hup|].
  split.
  - exact (proj1 (update_quote_status_validates_then_stamps 1 "archived" None world_Q1_draft) Hout).
  - exact (proj2 (update_quote_status_validates_then_stamps 1 "accepted" None world_Q1_draft)
             Hin Hup).
Defined.

(** * Deleting a quote *)

Lemma find_quote_Q1_draft : find_quote 1 world_Q1_draft = Some quote_Q1.
Proof. reflexivity. Qed.

Lemma find_quote_Q1_accepted : find_quote 1 world_Q1_accepted = Some quote_Q1_accepted.
Proof. reflexivity. Qed.

Lemma find_after_delete (id : Z) (rows : list Quote) :
  List.find (fun q => q_id q =? id) (List.filter (fun q => negb (q_id q =? id)) rows) = None.
Proof.
  induction rows as [|q rows IH]; simpl; [reflexivity|].
  destruct (q_id q =? id) eqn:E; simpl; [exact IH|]. rewrite E. exact IH.
Qed.

(** C6: for a stored quote (and a data gateway that answers), [delete_quote]
    succeeds exactly when the status of the quote is [draft].  In that case
    one delete is sent and the quote is gone; for any other status the reply
    is a failure, no write is sent and the rows stay as they were. *)
Theorem delete_quote_only_draft (quote_id : Z) (w : World) (quote : Quote) :
  postgrest_answers w ->
  find_quote quote_id w = Some quote ->
  returns (delete_quote quote_id) w
    (fun reply w' =>
       (qr_success reply = true <-> q_status quote = Some "draft")
       /\ (q_status quote = Some "draft" ->
           writes w' = writes w ++ [ReqDelete "quotes" quote_id]
           /\ find_quote quote_id w' = None
           /\ quotes w' = List.filter (fun q => negb (q_id q =? quote_id)) (quotes w))
       /\ (q_status quote <> Some "draft" ->
           writes w' = writes w /\ quotes w' = quotes w /\ contracts w' = contracts w)).
Proof.
  intros Hup Hfind. unfold returns, delete_quote.
  destruct (filter_of_find _ _ _ Hfind) as [rest Hrows].
  destruct (decide (q_status quote = Some "draft")) as [Hdraft|Hother].
  - eexists _, _. split.
    + apply reraise_returned.
      erewrite bind_returned by (apply postgrest_get_quotes_run; exact Hup).
      rewrite Hrows. rewrite bool_decide_eq_true_2 by exact Hdraft. cbn [negb].
      erewrite bind_returned by (apply postgrest_delete_quotes_run; exact Hup).
      reflexivity.
    + simpl qr_success. split; [tauto|]. split; [|tauto]. intros _.
      trace_simpl. split; [reflexivity|]. split; [|reflexivity].
      unfold find_quote. simpl. apply find_after_delete.
  - eexists _, _. split.
    + apply reraise_returned.
      erewrite bind_returned by (apply postgrest_get_quotes_run; exact Hup).
      rewrite Hrows. rewrite bool_decide_eq_false_2 by exact Hother. cbn [negb].
      reflexivity.
    + simpl qr_success. split; [split; [discriminate | tauto]|]. split; [tauto|]. intros _.
      trace_simpl. repeat split; reflexivity.
Qed.

(** Deleting [Q1] while it is a draft. *)
Lemma delete_quote_only_draft_witness :
  postgrest_answers world_Q1_draft
  /\ find_quote 1 world_Q1_draft = Some quote_Q1
  /\ returns (delete_quote 1) world_Q1_draft
       (fun reply w' =>
          (qr_success reply = true <-> q_status quote_Q1 = Some "draft")
          /\ (q_status quote_Q1 = Some "draft" ->
              writes w' = writes world_Q1_draft ++ [ReqDelete "quotes" 1]
              /\ find_quote 1 w' = None
              /\ quotes w' = List.filter (fun q => negb (q_id q =? 1)) (quotes world_Q1_draft))
          /\ (q_status quote_Q1 <> Some "draft" ->
              writes w' = writes world_Q1_draft /\ quotes w' = quotes world_Q1_draft
              /\ contracts w' = contracts world_Q1_draft)).
Proof.
  split; [exact world_Q1_draft_answers|]. split; [reflexivity|].
  exact (delete_quote_only_draft 1 world_Q1_draft quote_Q1 world_Q1_draft_answers eq_refl).
Defined.

(** Deleting [Q1] once it is accepted is refused and changes nothing. *)
Example delete_accepted_quote_refused :
  delete_quote 1 world_Q1_accepted
  = (Returned {| qr_success := false;
                 qr_message := "只能刪除草稿狀態的報價單，目前狀態為 accepted";
                 qr_updated_fields := None; qr_quote := None |},
     log (ReqGet "quotes") world_Q1_accepted).
Proof. vm_compute. reflexivity. Qed.

(** * Converting a quote into a contract *)

Lemma bind_ask {A B : Type} (f : World -> A) (k : A -> M B) (w : World) :
  bind (ask f) k w = k (f w) w.
Proof. reflexivity. Qed.

Lemma bind_ret {A B : Type} (a : A) (k : A -> M B) (w : World) :
  bind (ret a) k w = k a w.
Proof. reflexivity. Qed.

Lemma bind_lift_returned {A B : Type} (a : A) (k : A -> M B) (w : World) :
  bind (lift (Returned a)) k w = k a w.
Proof. reflexivity. Qed.

Lemma bind_lift_raised {A B : Type} (e : exn) (k : A -> M B) (w : World) :
  bind (lift (Raised e)) k w = (Raised e, w).
Proof. reflexivity. Qed.

Lemma or_else_or_str (a b : option string) (d : string) :
  or_else (or_str a b) d
  = match a with
    | Some s => if String.eqb s "" then or_else b d else s
    | None => or_else b d
    end.
Proof.
  unfold or_str, truthy_str. destruct a as [s|]; [|reflexivity].
  destruct (String.eqb s "") eqn:E; simpl; [reflexivity|]. now rewrite E.
Qed.

Section ConversionFacts.

Variable fromisoformat : string -> option Z.

Lemma derive_end_date_spec (a : ConvertArgs) (quote : Quote) (w : World) :
  truthy_str (cv_end_date a) = false ->
  match derived_end_date fromisoformat a quote w with
  | Some contract_end =>
      derive_end_date fromisoformat (contract_start_of a quote w) (q_contract_months quote)
      = Returned contract_end
  | None =>
      exists e,
        derive_end_date fromisoformat (contract_start_of a quote w) (q_contract_months quote)
        = Raised e
  end.
Proof.
  intros Hend. unfold derived_end_date, derive_end_date, add_days. rewrite Hend.
  destruct (fromisoformat (contract_start_of a quote w)) as [start|]; [|eauto].
  destruct (q_contract_months quote) as [months|]; [|eauto].
  destruct ((1 <=? start + months * 30) && (start + months * 30 <=? MAXORDINAL)); eauto.
Qed.

Lemma derive_monthly_rent_spec (a : ConvertArgs) (quote : Quote) :
  cv_monthly_rent a = None ->
  match derived_monthly_rent a quote with
  | Some rent =>
      derive_monthly_rent (q_total_amount quote) (q_contract_months quote) = Returned rent
  | None =>
      exists e,
        derive_monthly_rent (q_total_amount quote) (q_contract_months quote) = Raised e
  end.
Proof.
  intros Hrent. unfold derived_monthly_rent, derive_monthly_rent. rewrite Hrent.
  destruct (q_contract_months quote) as [months|]; [|eauto].
  destruct (0 <? months); [|reflexivity].
  destruct (q_total_amount quote); eauto.
Qed.

Lemma truthy_str_some (o : option string) :
  truthy_str o = true -> exists s, o = Some s /\ String.eqb s "" = false.
Proof.
  destruct o as [s|]; simpl; [|discriminate].
  destruct (String.eqb s "") eqn:E; [discriminate|]. intros _. exists s. now split.
Qed.

Lemma reraise_run {A : Type} (prefix : string) (m : M A) (w : World) :
  reraise prefix m w
  = match m w with
    | (Returned a, w') => (Returned a, w')
    | (Raised e, w') => (Raised (Exception_ (prefix +:+ ": " +:+ exn_message e)), w')
    end.
Proof. reflexivity. Qed.

(** A conversion goes one of the five ways. *)
Lemma convert_cases (quote_id : Z) (a : ConvertArgs) (w : World) :
  postgrest_answers w ->
  convert_outcome fromisoformat quote_id a w
    (convert_quote_to_contract fromisoformat quote_id a w).1
    (convert_quote_to_contract fromisoformat quote_id a w).2.
Proof.
  intros Hup. unfold convert_quote_to_contract. rewrite reraise_run.
  erewrite bind_returned by (apply postgrest_get_quotes_run; exact Hup).
  destruct (find_quote quote_id w) as [quote|] eqn:Hfind.
  2: { unfold find_quote in Hfind. rewrite (filter_of_find_none _ _ Hfind).
       now constructor. }
  pose proof Hfind as Hfind'. unfold find_quote in Hfind'.
  destruct (filter_of_find _ _ _ Hfind') as [rest Hrows]. rewrite Hrows.
  destruct (decide (q_status quote = Some "accepted")) as [Hacc|Hacc].
  2: { rewrite bool_decide_eq_false_2 by exact Hacc. now apply OutcomeNotAccepted. }
  rewrite bool_decide_eq_true_2 by exact Hacc. cbn [negb].
  destruct (truthy_int (q_converted_contract_id quote)) eqn:Hconv.
  { now apply OutcomeAlreadyConverted. }
  assert (Hable : convertible quote) by (split; assumption).
  cbv iota. rewrite bind_ask. change (today (log (ReqGet "v_quotes") w)) with (today w).
  rewrite or_else_or_str.
  change (match cv_start_date a with
          | Some s => if String.eqb s "" then
                        or_else (q_proposed_start_date quote) (isoformat (today w))
                      else s
          | None => or_else (q_proposed_start_date quote) (isoformat (today w))
          end) with (contract_start_of a quote w).
  (* the end date *)
  assert (Hend :
    match derived_end_date fromisoformat a quote w with
    | Some contract_end =>
        (if negb (truthy_str (cv_end_date a))
         then lift (derive_end_date fromisoformat (contract_start_of a quote w)
                      (q_contract_months quote))
         else ret (default "" (cv_end_date a))) = lift (Returned contract_end)
    | None =>
        exists e,
        (if negb (truthy_str (cv_end_date a))
         then lift (derive_end_date fromisoformat (contract_start_of a quote w)
                      (q_contract_months quote))
         else ret (default "" (cv_end_date a))) = lift (Raised e)
    end).
  { destruct (truthy_str (cv_end_date a)) eqn:Hsupplied; cbn [negb].
    - unfold derived_end_date. rewrite Hsupplied.
      destruct (truthy_str_some _ Hsupplied) as (s & -> & _). reflexivity.
    - pose proof (derive_end_date_spec a quote w Hsupplied) as Hspec.
      destruct (derived_end_date fromisoformat a quote w).
      + now rewrite Hspec.
      + destruct Hspec as [e ->]. now exists e. }
  destruct (derived_end_date fromisoformat a quote w) as [contract_end|] eqn:Hderived_end.
  2: { destruct Hend as [e ->]. rewrite bind_lift_raised.
       eapply OutcomeRaised; eauto. }
  rewrite Hend, bind_lift_returned.
  (* the monthly rent *)
  assert (Hrent :
    match derived_monthly_rent a quote with
    | Some monthly_rent =>
        match cv_monthly_rent a with
        | Some rent => ret (Some rent)
        | None => lift (derive_monthly_rent (q_total_amount quote) (q_contract_months quote))
        end = lift (Returned monthly_rent)
    | None =>
        exists e,
        match cv_monthly_rent a with
        | Some rent => ret (Some rent)
        | None => lift (derive_monthly_rent (q_total_amount quote) (q_contract_months quote))
        end = lift (Raised e)
    end).
  { destruct (cv_monthly_rent a) as [rent|] eqn:Hsupplied.
    - unfold derived_monthly_rent. rewrite Hsupplied. reflexivity.
    - pose proof (derive_monthly_rent_spec a quote Hsupplied) as Hspec.
      destruct (derived_monthly_rent a quote).
      + now rewrite Hspec.
      + destruct Hspec as [e ->]. now exists e. }
  destruct (derived_monthly_rent a quote) as [monthly_rent|] eqn:Hderived_rent.
  2: { destruct Hrent as [e ->]. rewrite bind_lift_raised.
       eapply OutcomeRaised; eauto. }
  rewrite Hrent, bind_lift_returned.
  (* the two writes *)
  erewrite bind_returned by (apply postgrest_post_contracts_run; exact Hup).
  rewrite bind_ask.
  erewrite bind_returned
    by (apply postgrest_patch_quotes_run
          with (f := converted (next_contract_id w) (now_isoformat w));
        [exact Hup | intros q; apply patch_quote_converted]).
  unfold ret. cbn [fst snd].
  exact (OutcomeConverted fromisoformat quote_id a w quote contract_end monthly_rent
           Hfind Hable Hderived_end Hderived_rent).
Qed.

Lemma convert_outcome_of_run (quote_id : Z) (a : ConvertArgs) (w w' : World)
    (r : result ConvertReply) :
  postgrest_answers w ->
  convert_quote_to_contract fromisoformat quote_id a w = (r, w') ->
  convert_outcome fromisoformat quote_id a w r w'.
Proof.
  intros Hup Hrun. pose proof (convert_cases quote_id a w Hup) as H. now rewrite Hrun in H.
Qed.

Lemma convert_run_of_outcome (quote_id : Z) (a : ConvertArgs) (w w' : World)
    (reply : ConvertReply) :
  postgrest_answers w ->
  convert_outcome fromisoformat quote_id a w (Returned reply) w' ->
  convert_quote_to_contract fromisoformat quote_id a w = (Returned reply, w').
Proof.
  intros Hup Hout. pose proof (convert_cases quote_id a w Hup) as Hrun.
  destruct (convert_quote_to_contract fromisoformat quote_id a w) as [r w1]. cbn [fst snd] in Hrun.
  inversion Hout; subst; inversion Hrun; subst;
    repeat match goal with
           | H1 : find_quote _ _ = _, H2 : find_quote _ _ = _ |- _ =>
               rewrite H1 in H2; inversion H2; subst; clear H2
           | H : convertible _ |- _ => destruct H
           end;
    try congruence;
    match goal with H : _ \/ _ |- _ => destruct H; congruence end.
Qed.


Lemma derived_end_date_supplied (a : ConvertArgs) (quote : Quote) (w : World) :
  truthy_str (cv_end_date a) = true ->
  derived_end_date fromisoformat a quote w = cv_end_date a
  /\ cv_end_date a <> None.
Proof.
  intros Hend. unfold derived_end_date. rewrite Hend. split; [reflexivity|].
  destruct (cv_end_date a); [discriminate | discriminate Hend].
Qed.


(** C1, as the code has it (with a data gateway that answers): a conversion
    succeeds exactly when the quote exists, its status is [accepted], its [converted_contract_id] is unset,
    and the end date and the monthly rent can be derived (they can when the
    caller gives them; else the start date must be one [fromisoformat]
    reads, thirty days per contract month later must still be a date, and
    the quote must have its contract months and its total).  After a
    conversion that succeeded, any further conversion of the same quote is
    refused and sends no create and no patch: the first one left the status
    [converted], so it is the check of the status that refuses, not the
    check of [converted_contract_id]. *)
Theorem convert_succeeds_iff_convertible (quote_id : Z) (a : ConvertArgs) (w : World) :
  postgrest_answers w ->
  ((exists reply w',
       convert_quote_to_contract fromisoformat quote_id a w = (Returned reply, w')
       /\ cr_success reply = true)
   <-> (exists quote,
          find_quote quote_id w = Some quote
          /\ q_status quote = Some "accepted"
          /\ truthy_int (q_converted_contract_id quote) = false
          /\ derived_end_date fromisoformat a quote w <> None
          /\ derived_monthly_rent a quote <> None))
  /\ (forall reply w',
        convert_quote_to_contract fromisoformat quote_id a w = (Returned reply, w') ->
        cr_success reply = true ->
        forall a2 : ConvertArgs,
        exists w'',
          convert_quote_to_contract fromisoformat quote_id a2 w'
          = (Returned (ConvertFailure (msg_not_accepted (Some "converted"))), w'')
          /\ writes w'' = writes w'
          /\ quotes w'' = quotes w'
          /\ contracts w'' = contracts w').
Proof.
  intros Hup. split; [split|].
  - intros (reply & w' & Hrun & Hok).
    apply (convert_outcome_of_run _ _ _ _ _ Hup) in Hrun.
    inversion Hrun; subst; try discriminate Hok.
    match goal with H : convertible _ |- _ => destruct H as [Hacc Hunset] end.
    exists quote. repeat split; try assumption; congruence.
  - intros (quote & Hfind & Hacc & Hunset & Hend & Hrent).
    destruct (derived_end_date fromisoformat a quote w) as [contract_end|] eqn:E1;
      [|congruence].
    destruct (derived_monthly_rent a quote) as [monthly_rent|] eqn:E2; [|congruence].
    eexists _, _. split.
    + apply (convert_run_of_outcome _ _ _ _ _ Hup).
      apply (OutcomeConverted fromisoformat quote_id a w quote contract_end monthly_rent);
        [assumption | split; assumption | assumption | assumption].
    + reflexivity.
  - intros reply w' Hrun Hok a2.
    apply (convert_outcome_of_run _ _ _ _ _ Hup) in Hrun.
    inversion Hrun; subst; try discriminate Hok.
    match goal with
    | H : find_quote quote_id w = Some ?q |- _ =>
        assert (Hfind' :
          find_quote quote_id
            (converted_world quote_id
               (contract_data_of a q w contract_end monthly_rent) w)
          = Some (converted (next_contract_id w) (now_isoformat w) q))
    end.
    { unfold find_quote, converted_world. cbn [quotes set_quotes].
      rewrite find_rows_updated by reflexivity.
      match goal with H : find_quote quote_id w = Some _ |- _ =>
        unfold find_quote in H; rewrite H end.
      reflexivity. }
    eexists. split.
    + apply convert_run_of_outcome; [exact Hup|].
      refine (OutcomeNotAccepted fromisoformat quote_id a2 _ _ Hfind' _). discriminate.
    + rewrite writes_log. cbn [is_write]. rewrite app_nil_r. repeat split; reflexivity.
Qed.


End ConversionFacts.

(** [round_div] is rounding to the nearest integer, ties to the even one. *)
Lemma round_div_nearest_even (a b : Z) :
  0 < b ->
  2 * Z.abs (a - round_div a b * b) <= b
  /\ (2 * Z.abs (a - round_div a b * b) = b -> Z.even (round_div a b) = true).
Proof.
  intros Hb. unfold round_div.
  pose proof (Z.div_mod a b ltac:(lia)) as Hdm.
  pose proof (Z.mod_pos_bound a b Hb) as Hr.
  destruct (Z.ltb_spec (2 * (a mod b)) b) as [H1|H1].
  - split; [lia|]. intros Heq. lia.
  - destruct (Z.ltb_spec b (2 * (a mod b))) as [H2|H2].
    + split; [lia|]. intros Heq. lia.
    + destruct (Z.even (a / b)) eqn:He.
      * split; [lia|]. intros _. exact He.
      * split; [lia|]. intros _. rewrite Z.even_add, He. reflexivity.
Qed.

Example round_900_by_12 : round_div 900 12 = 75.
Proof. reflexivity. Qed.

(** A tie goes to the even neighbour, as [round] does in Python 3. *)
Example round_30_by_12 : round_div 30 12 = 2 /\ round_div 42 12 = 4.
Proof. split; reflexivity. Qed.


(** ** The scenario of quote [Q1] *)

(** Converting the accepted [Q1] with no overrides on 1 January 2024: a rent
    of 75 a month, and 360 days to 26 December 2024. *)
Example convert_Q1 :
  convert_quote_to_contract parse_iso_date 1 no_overrides world_Q1_accepted
  = (Returned (conversion_reply no_overrides quote_Q1_accepted world_Q1_accepted
                 "2024-12-26" (Some 75)),
     world_Q1_converted).
Proof. vm_compute. reflexivity. Qed.

(** The accepted, unconverted [Q1] is not converted when the caller gives a
    start date that cannot be read, and the second conversion of [Q1] is
    refused for its status, not as already converted. *)
Lemma convert_claim_counterexample :
  (find_quote 1 world_Q1_accepted = Some quote_Q1_accepted
   /\ q_status quote_Q1_accepted = Some "accepted"
   /\ q_converted_contract_id quote_Q1_accepted = None
   /\ convert_quote_to_contract parse_iso_date 1 unreadable_start world_Q1_accepted
      = (Raised (Exception_ "報價單轉換失敗: Invalid isoformat string: 'next month'"),
         log (ReqGet "v_quotes") world_Q1_accepted))
  /\ ((convert_quote_to_contract parse_iso_date 1 no_overrides world_Q1_converted).1
      = Returned (ConvertFailure "只有已接受的報價單才能轉換為合約，目前狀態為 converted")
      /\ (convert_quote_to_contract parse_iso_date 1 no_overrides world_Q1_converted).1
         <> Returned (ConvertFailure (msg_already_converted (Some 1)))).
Proof.
  split; [repeat split; vm_compute; reflexivity|].
  split; [vm_compute; reflexivity|]. vm_compute. intros H. discriminate H.
Qed.

Lemma convert_succeeds_iff_convertible_witness :
  postgrest_answers world_Q1_accepted
  /\ (exists reply w',
      convert_quote_to_contract parse_iso_date 1 no_overrides world_Q1_accepted
      = (Returned reply, w')
      /\ cr_success reply = true)
  /\ (exists w'',
        convert_quote_to_contract parse_iso_date 1 unreadable_start world_Q1_converted
        = (Returned (ConvertFailure (msg_not_accepted (Some "converted"))), w'')
        /\ writes w'' = writes world_Q1_converted
        /\ quotes w'' = quotes world_Q1_converted
        /\ contracts w'' = contracts world_Q1_converted).
Proof.
  destruct (convert_succeeds_iff_convertible parse_iso_date 1 no_overrides world_Q1_accepted
              world_Q1_accepted_answers)
    as [Hiff Hsecond].
  split; [exact world_Q1_accepted_answers|]. split.
  - apply Hiff. exists quote_Q1_accepted.
    repeat split; try (vm_compute; reflexivity); vm_compute; discriminate.
  - exact (Hsecond _ _ convert_Q1 eq_refl unreadable_start).
Defined.


(** The strings [isoformat] prints are read back by [parse_iso_date] as the
    day they were printed from; checked here on every day of 2024 and 2025. *)
Example isoformat_read_back :
  forallb (fun n => bool_decide (parse_iso_date (isoformat n) = Some n))
          (map (fun i => 738886 + Z.of_nat i) (seq 0 731))
  = true.
Proof. vm_compute. reflexivity. Qed.

Example isoformat_samples :
  isoformat 738886 = "2024-01-01"
  /\ isoformat (738886 + 12 * 30) = "2024-12-26"
  /\ isoformat 738945 = "2024-02-29"
  /\ parse_iso_date "2024-02-30" = None
  /\ parse_iso_date "next month" = None.
Proof. vm_compute. repeat split; reflexivity. Qed.


(** Nothing compensates a conversion that fails half way: when the gateway
    fails on the patch of the quote (the fifth request this store sees), the
    contract is in the store and the quote is still [accepted]. *)
Example convert_is_not_compensated :
  let w := with_postgrest_fault
             (fun n => if Nat.eqb n 4 then Some (Exception_ "Server error '503'") else None)
             world_Q1_accepted in
  let run := convert_quote_to_contract parse_iso_date 1 no_overrides w in
  run.1 = Raised (Exception_ "報價單轉換失敗: Server error '503'")
  /\ map c_id (contracts run.2) = [1]
  /\ map q_status (quotes run.2) = [Some "accepted"]
  /\ map q_converted_contract_id (quotes run.2) = [None].
Proof. vm_compute. repeat split; reflexivity. Qed.

(** * The totals of a quote *)

Lemma sum_amounts_from (items : list Item) (acc : Z) :
  foldl (fun acc item => acc + default 0 (item_amount item)) acc items
  = acc + amounts_total items.
Proof.
  revert acc. induction items as [|item items IH]; intros acc; simpl.
  - unfold amounts_total. simpl. lia.
  - rewrite IH. unfold amounts_total. simpl. lia.
Qed.

Lemma sum_amounts_total (items : list Item) : sum_amounts items = amounts_total items.
Proof. unfold sum_amounts. rewrite sum_amounts_from. lia. Qed.

(** After [create_quote] the stored quote has consistent totals. *)
Lemma create_quote_totals (a : CreateQuoteArgs) (w : World) :
  postgrest_answers w ->
  1 <= today w + cq_valid_days a <= MAXORDINAL ->
  returns (create_quote a) w
    (fun reply w' =>
       exists quote,
         qr_success reply = true
         /\ qr_quote reply = Some quote
         /\ quotes w' = quotes w ++ [quote]
         /\ q_status quote = Some "draft"
         /\ q_items quote = VItems (default [] (cq_items a))
         /\ q_subtotal quote = Some (amounts_total (default [] (cq_items a)))
         /\ q_discount_amount quote = Some (default 0 (cq_discount_amount a))
         /\ q_total_amount quote
            = Some (amounts_total (default [] (cq_items a)) - default 0 (cq_discount_amount a))
         /\ totals_consistent quote).
Proof.
  intros Hup Hrange. unfold returns, create_quote.
  rewrite bind_ask. unfold add_days.
  replace ((1 <=? today w + cq_valid_days a) && (today w + cq_valid_days a <=? MAXORDINAL))
    with true by (symmetry; apply andb_true_intro; split; apply Z.leb_le; lia).
  rewrite bind_lift_returned.
  eexists _, _. split.
  - apply reraise_returned.
    erewrite bind_returned by (apply postgrest_post_quotes_run; exact Hup). reflexivity.
  - eexists. cbn [qr_success qr_quote]. rewrite !sum_amounts_total.
    repeat split; try reflexivity.
    eexists _, _, _. repeat split; reflexivity.
Qed.

(** The scenario of the design document: items [[{amount: 1000}]] and a
    discount of 100 give a subtotal of 1000 and a total of 900. *)
Example create_Q1 :
  exists reply,
    create_quote Q1_args blank_world = (Returned reply, world_Q1_draft)
    /\ qr_quote reply = Some quote_Q1
    /\ q_subtotal quote_Q1 = Some 1000
    /\ q_total_amount quote_Q1 = Some 900.
Proof. eexists. vm_compute. repeat split; reflexivity. Qed.

(** C2 fails on the code: an update that sends the items of [Q1] again and no
    discount recomputes [total_amount] with a discount of 0, while the
    discount of 100 stays in the row: the stored quote has [subtotal = 1000],
    [discount_amount = 100] and [total_amount = 1000], which is not
    [subtotal - discount_amount]. *)
Theorem update_quote_items_forgets_stored_discount :
  exists reply w' quote,
    update_quote 1 items_only world_Q1_draft = (Returned reply, w')
    /\ qr_success reply = true
    /\ find_quote 1 w' = Some quote
    /\ qr_quote reply = Some quote
    /\ q_items quote = VItems [item_1000]
    /\ q_subtotal quote = Some 1000
    /\ q_discount_amount quote = Some 100
    /\ q_total_amount quote = Some 1000
    /\ ~ totals_consistent quote.
Proof.
  eexists _, _, _. split; [vm_compute; reflexivity|].
  repeat split.
  intros (items & subtotal & discount & _ & Hsub & Hdisc & _ & Htotal).
  cbn in Hsub, Hdisc, Htotal.
  injection Hsub as <-. injection Hdisc as <-. injection Htotal as Htotal. lia.
Qed.

(** When the same update carries the discount too, the totals are
    consistent. *)
Example update_quote_items_and_discount :
  exists reply w' quote,
    update_quote 1 items_and_discount world_Q1_draft = (Returned reply, w')
    /\ find_quote 1 w' = Some quote
    /\ q_subtotal quote = Some 2000
    /\ q_discount_amount quote = Some 250
    /\ q_total_amount quote = Some 1750
    /\ totals_consistent quote.
Proof.
  eexists _, _, _. split; [vm_compute; reflexivity|].
  repeat split.
  eexists _, _, _. repeat split; reflexivity.
Qed.

(** ** Updates that touch the items *)

Lemma filtered_update_items (items : list Item) :
  filter (fun kv : string * value => kv.1 ∈ allowed_fields) (update_items items)
  = update_items items.
Proof. vm_compute. reflexivity. Qed.

Lemma filtered_update_items_discount (items : list Item) (discount : Z) :
  filter (fun kv : string * value => kv.1 ∈ allowed_fields)
         (update_items_discount items discount)
  = update_items_discount items discount.
Proof. vm_compute. reflexivity. Qed.

Lemma update_items_not_empty (items : list Item) : update_items items <> ∅.
Proof.
  intros H. apply (f_equal (fun m : gmap string value => m !! "items")) in H.
  vm_compute in H. discriminate H.
Qed.

Lemma update_items_discount_not_empty (items : list Item) (discount : Z) :
  update_items_discount items discount <> ∅.
Proof.
  intros H. apply (f_equal (fun m : gmap string value => m !! "items")) in H.
  vm_compute in H. discriminate H.
Qed.

Lemma recompute_update_items (items : list Item) :
  recompute_amounts (update_items items) = Returned (body_items items).
Proof. vm_compute. reflexivity. Qed.

Lemma recompute_update_items_discount (items : list Item) (discount : Z) :
  recompute_amounts (update_items_discount items discount)
  = Returned (body_items_discount items discount).
Proof. vm_compute. reflexivity. Qed.

Lemma patch_quote_body_items (items : list Item) (q : Quote) :
  patch_quote (body_items items) q
  = Some (with_amounts (VItems items) (Some (sum_amounts items)) (q_discount_amount q)
            (Some (sum_amounts items - 0)) q).
Proof. vm_compute. reflexivity. Qed.

Lemma patch_quote_body_items_discount (items : list Item) (discount : Z) (q : Quote) :
  patch_quote (body_items_discount items discount) q
  = Some (with_amounts (VItems items) (Some (sum_amounts items)) (Some discount)
            (Some (sum_amounts items - discount)) q).
Proof. vm_compute. reflexivity. Qed.

(** What an update of the items alone leaves in the store, whatever the
    items and whatever the quote: the subtotal is the sum of the amounts, the
    discount of the quote is kept, and the total is the subtotal with nothing
    subtracted. *)
Lemma update_quote_items_only (quote_id : Z) (items : list Item) (w : World) (quote : Quote) :
  postgrest_answers w ->
  find_quote quote_id w = Some quote ->
  returns (update_quote quote_id (update_items items)) w
    (fun reply w' =>
       exists quote',
         qr_success reply = true
         /\ qr_quote reply = Some quote'
         /\ find_quote quote_id w' = Some quote'
         /\ q_items quote' = VItems items
         /\ q_subtotal quote' = Some (amounts_total items)
         /\ q_discount_amount quote' = q_discount_amount quote
         /\ q_total_amount quote' = Some (amounts_total items)).
Proof.
  intros Hup Hfind. unfold returns, update_quote.
  rewrite filtered_update_items.
  destruct (decide (update_items items = ∅)) as [Hempty|_];
    [exfalso; exact (update_items_not_empty items Hempty)|].
  rewrite recompute_update_items, bind_lift_returned.
  set (f := with_amounts (VItems items) (Some (sum_amounts items)) (q_discount_amount quote)
              (Some (sum_amounts items - 0))).
  pose proof (postgrest_patch_quotes_run quote_id (body_items items)
                (fun q => with_amounts (VItems items) (Some (sum_amounts items))
                            (q_discount_amount q) (Some (sum_amounts items - 0)) q)
                w Hup (patch_quote_body_items items)) as Hpatch.
  pose proof Hfind as Hfind'. unfold find_quote in Hfind'.
  destruct (filter_of_find _ _ _ Hfind') as [rest Hrows].
  rewrite Hrows in Hpatch. cbn [map] in Hpatch.
  eexists _, _. split.
  - apply reraise_returned. erewrite bind_returned by exact Hpatch. reflexivity.
  - exists (f quote). subst f. cbn [qr_success qr_quote]. split; [reflexivity|].
    split; [reflexivity|]. split.
    + unfold find_quote. cbn [quotes set_quotes].
      rewrite find_rows_updated by reflexivity. rewrite Hfind'. reflexivity.
    + cbn [with_amounts q_items q_subtotal q_discount_amount q_total_amount].
      rewrite sum_amounts_total, Z.sub_0_r. repeat split; reflexivity.
Qed.

(** So the totals of a quote with a discount are no longer consistent after
    its items were updated alone. *)
Lemma update_quote_items_only_inconsistent (quote_id : Z) (items : list Item) (w : World)
    (quote : Quote) (discount : Z) :
  postgrest_answers w ->
  find_quote quote_id w = Some quote ->
  q_discount_amount quote = Some discount ->
  discount <> 0 ->
  returns (update_quote quote_id (update_items items)) w
    (fun reply w' =>
       exists quote',
         qr_success reply = true
         /\ find_quote quote_id w' = Some quote'
         /\ ~ totals_consistent quote').
Proof.
  intros Hup Hfind Hdiscount Hne.
  destruct (update_quote_items_only quote_id items w quote Hup Hfind)
    as (reply & w' & Hrun & quote' & Hok & _ & Hfind' & Hitems & Hsub & Hdisc & Htotal).
  exists reply, w'. split; [exact Hrun|]. exists quote'. repeat split; try assumption.
  intros (items' & subtotal & discount' & Hi & Hs & Hd & Heq & Ht).
  rewrite Hdisc, Hdiscount in Hd. rewrite Hsub in Hs. rewrite Htotal in Ht.
  injection Hd as <-. injection Hs as <-. injection Ht as Ht. lia.
Qed.

(** An update of the items together with a discount leaves consistent
    totals. *)
Lemma update_quote_items_and_discount_consistent (quote_id : Z) (items : list Item)
    (discount : Z) (w : World) (quote : Quote) :
  postgrest_answers w ->
  find_quote quote_id w = Some quote ->
  returns (update_quote quote_id (update_items_discount items discount)) w
    (fun reply w' =>
       exists quote',
         qr_success reply = true
         /\ qr_quote reply = Some quote'
         /\ find_quote quote_id w' = Some quote'
         /\ q_subtotal quote' = Some (amounts_total items)
         /\ q_discount_amount quote' = Some discount
         /\ q_total_amount quote' = Some (amounts_total items - discount)
         /\ totals_consistent quote').
Proof.
  intros Hup Hfind. unfold returns, update_quote.
  rewrite filtered_update_items_discount.
  destruct (decide (update_items_discount items discount = ∅)) as [Hempty|_];
    [exfalso; exact (update_items_discount_not_empty items discount Hempty)|].
  rewrite recompute_update_items_discount, bind_lift_returned.
  pose proof (postgrest_patch_quotes_run quote_id (body_items_discount items discount)
                (fun q => with_amounts (VItems items) (Some (sum_amounts items))
                            (Some discount) (Some (sum_amounts items - discount)) q)
                w Hup (patch_quote_body_items_discount items discount)) as Hpatch.
  pose proof Hfind as Hfind'. unfold find_quote in Hfind'.
  destruct (filter_of_find _ _ _ Hfind') as [rest Hrows].
  rewrite Hrows in Hpatch. cbn [map] in Hpatch.
  eexists _, _. split.
  - apply reraise_returned. erewrite bind_returned by exact Hpatch. reflexivity.
  - eexists. cbn [qr_success qr_quote]. split; [reflexivity|].
    split; [reflexivity|]. split.
    + unfold find_quote. cbn [quotes set_quotes].
      rewrite find_rows_updated by reflexivity. rewrite Hfind'. reflexivity.
    + cbn [with_amounts q_items q_subtotal q_discount_amount q_total_amount].
      rewrite sum_amounts_total. repeat split; try reflexivity.
      eexists _, _, _. repeat split; reflexivity.
Qed.

(** * The amount in the text of a reminder *)

Lemma read_chars_app (s1 s2 : string) (st : AmountReader) :
  read_chars (s1 +:+ s2) st
  = match read_chars s1 st with
    | Some st' => read_chars s2 st'
    | None => None
    end.
Proof.
  revert st. induction s1 as [|c s1 IH]; intros st.
  - reflexivity.
  - change (String c s1 +:+ s2) with (String c (s1 +:+ s2)). cbn [read_chars].
    destruct (read_char st c); [apply IH | reflexivity].
Qed.

Lemma forallb_below_1000 (P : Z -> bool) :
  forallb P below_1000 = true -> forall n, 0 <= n < 1000 -> P n = true.
Proof.
  intros H n Hn. rewrite forallb_forall in H. apply H. unfold below_1000.
  apply in_map_iff. exists (Z.to_nat n). split; [lia|]. apply in_seq. lia.
Qed.

(** A number below 1000 is printed as its digits, with no comma. *)
Lemma read_small_amount (n : Z) :
  0 <= n < 1000 ->
  exists st,
    read_chars (str_int n) reader_start = Some st
    /\ ar_value st = n /\ group_complete st = true.
Proof.
  intros Hn.
  pose (P := fun n => match read_chars (str_int n) reader_start with
                      | Some st => (ar_value st =? n) && group_complete st
                      | None => false
                      end).
  assert (H : P n = true).
  { apply forallb_below_1000; [vm_compute; reflexivity | exact Hn]. }
  unfold P in H. destruct (read_chars (str_int n) reader_start) as [st|]; [|discriminate H].
  apply andb_true_iff in H as [Hv Hc]. exists st. repeat split; [lia | exact Hc].
Qed.

(** The three last digits of a group that is not the first, with the zeros
    that pad them. *)
Lemma three_digits_padded (low : Z) :
  0 <= low < 1000 ->
  three_digits ((if low <? 10 then "00" else if low <? 100 then "0" else "") +:+ str_int low)
  = Some low.
Proof.
  intros Hlow.
  pose (P := fun low =>
               match three_digits ((if low <? 10 then "00"
                                    else if low <? 100 then "0" else "") +:+ str_int low) with
               | Some x => x =? low
               | None => false
               end).
  assert (H : P low = true).
  { apply forallb_below_1000; [vm_compute; reflexivity | exact Hlow]. }
  unfold P in H. destruct (three_digits _) as [x|]; [|discriminate H].
  f_equal. lia.
Qed.

Lemma digit_is_no_comma (c : ascii) (d : Z) :
  digit_value c = Some d -> Ascii.eqb c "," = false.
Proof.
  destruct c as [[] [] [] [] [] [] [] []]; vm_compute; intros H; congruence.
Qed.

Lemma read_digit (v : Z) (k : nat) (c : ascii) (d : Z) :
  digit_value c = Some d ->
  (k < 3)%nat ->
  read_char {| ar_value := v; ar_digits := k; ar_first := false |} c
  = Some {| ar_value := 10 * v + d; ar_digits := S k; ar_first := false |}.
Proof.
  intros Hd Hk. unfold read_char.
  rewrite (digit_is_no_comma c d Hd), Hd. cbn [ar_first ar_digits ar_value andb negb].
  destruct (Nat.ltb_spec k 3); [reflexivity | lia].
Qed.

Lemma read_three_digits (s : string) (x v : Z) :
  three_digits s = Some x ->
  read_chars s {| ar_value := v; ar_digits := 0; ar_first := false |}
  = Some {| ar_value := 1000 * v + x; ar_digits := 3; ar_first := false |}.
Proof.
  destruct s as [|a [|b [|c [|]]]]; try discriminate. unfold three_digits.
  destruct (digit_value a) as [da|] eqn:Ha; [|discriminate].
  destruct (digit_value b) as [db|] eqn:Hb; [|discriminate].
  destruct (digit_value c) as [dc|] eqn:Hc; [|discriminate].
  intros [= <-]. cbn [read_chars].
  rewrite (read_digit _ _ a da Ha) by lia.
  rewrite (read_digit _ _ b db Hb) by lia.
  rewrite (read_digit _ _ c dc Hc) by lia.
  do 2 f_equal. lia.
Qed.

(** The digits in groups of three, read back. *)
Lemma read_group3 (fuel : nat) :
  forall n, 0 <= n < 2 ^ (Z.of_nat fuel + 1) ->
  exists st,
    read_chars (group3 fuel n) reader_start = Some st
    /\ ar_value st = n /\ group_complete st = true.
Proof.
  induction fuel as [|fuel IH]; intros n Hn.
  - cbn [group3]. apply read_small_amount. change (2 ^ (Z.of_nat 0 + 1)) with 2 in Hn. lia.
  - cbn [group3]. destruct (Z.ltb_spec n 1000) as [Hsmall|Hlarge].
    + apply read_small_amount. lia.
    + cbn zeta.
      assert (Hpow : 2 ^ (Z.of_nat (S fuel) + 1) = 2 * 2 ^ (Z.of_nat fuel + 1)).
      { replace (Z.of_nat (S fuel) + 1) with (Z.succ (Z.of_nat fuel + 1)) by lia.
        apply Z.pow_succ_r. lia. }
      pose proof (Z.div_mod n 1000 ltac:(lia)) as Hdiv.
      pose proof (Z.mod_pos_bound n 1000 ltac:(lia)) as Hlow.
      assert (Hq : 1 <= n / 1000 < 2 ^ (Z.of_nat fuel + 1)) by lia.
      destruct (IH (n / 1000) ltac:(lia)) as (st & Hread & Hvalue & Hcomplete).
      rewrite read_chars_app, Hread.
      change ("," +:+ ?s) with (String "," s). cbn [read_chars].
      unfold read_char at 1. cbn [Ascii.eqb Bool.eqb]. rewrite Hcomplete, Hvalue.
      destruct (Z.ltb_spec 0 (n / 1000)); [|lia]. cbn [andb].
      rewrite (read_three_digits _ (n mod 1000) (n / 1000))
        by (apply three_digits_padded; exact Hlow).
      eexists. split; [reflexivity|]. cbn. split; [lia | reflexivity].
Qed.

Lemma read_unsigned_group3 (n : Z) :
  0 <= n -> read_unsigned (group3 (Z.to_nat (Z.log2 n)) n) = Some n.
Proof.
  intros Hn. unfold read_unsigned.
  destruct (read_group3 (Z.to_nat (Z.log2 n)) n) as (st & -> & <- & ->); [|reflexivity].
  rewrite Z2Nat.id by apply Z.log2_nonneg.
  destruct (Z.eq_dec n 0) as [->|Hpos]; [cbn; lia|].
  pose proof (Z.log2_spec n ltac:(lia)) as Hlog.
  replace (Z.log2 n + 1) with (Z.succ (Z.log2 n)) by lia. lia.
Qed.

(** The text [format_amount] prints for an amount reads back as that amount:
    the amount is in the text in full, sign and digits, grouped by three. *)
Lemma format_amount_reads_back (n : Z) : read_amount (format_amount n) = Some n.
Proof.
  unfold format_amount. destruct (Z.ltb_spec n 0) as [Hneg|Hpos].
  - change ("-" +:+ ?s) with (String "-" s). cbn [read_amount Ascii.eqb Bool.eqb].
    rewrite read_unsigned_group3 by lia.
    destruct (Z.ltb_spec 0 (- n)); [|lia]. f_equal. lia.
  - pose proof (read_unsigned_group3 n Hpos) as Hread.
    destruct (group3 (Z.to_nat (Z.log2 n)) n) as [|c rest] eqn:Htext.
    + discriminate Hread.
    + cbn [read_amount]. destruct (Ascii.eqb_spec c "-") as [->|_]; [|exact Hread].
      discriminate Hread.
Qed.

(** The grouping at the boundaries, and a negative amount. *)
Example format_amount_texts :
  map format_amount [0; 7; 999; 1000; 3000; 12050; 1234567; -4500]
  = ["0"; "7"; "999"; "1,000"; "3,000"; "12,050"; "1,234,567"; "-4,500"].
Proof. vm_compute. reflexivity. Qed.

(** Texts that are not what the format prints are not read. *)
Example read_amount_refuses :
  map read_amount [""; "3000"; "3,00"; "03,000"; "3,0000"; ",300"; "-0"; "3,000 "]
  = [None; None; None; None; None; None; None; None].
Proof. vm_compute. reflexivity. Qed.

(** * Reminders over LINE *)

Lemma postgrest_get_payments_run (params : PaymentParams) (w : World) :
  postgrest_answers w ->
  postgrest_get_payments params w
  = (Returned (List.filter (payment_matches params) (v_payments_due w)),
     log (ReqGet "v_payments_due") w).
Proof.
  intros H. unfold postgrest_get_payments.
  erewrite bind_returned by (apply postgrest_request_run; exact H). reflexivity.
Qed.

Lemma postgrest_get_payments_fails (params : PaymentParams) (w : World) (e : exn) :
  postgrest_fault w (length (data_requests w)) = Some e ->
  postgrest_get_payments params w = (Raised e, log (ReqGet "v_payments_due") w).
Proof.
  intros H. unfold postgrest_get_payments.
  erewrite bind_raised by (apply postgrest_request_fails; exact H). reflexivity.
Qed.

(** What one push does: nothing is sent when the channel is not configured;
    else one request goes out and the reply tells whether it was
    delivered. *)
Lemma send_line_push_run (line_user_id text : string) (w : World) :
  exists reply,
    send_line_push line_user_id text w
    = (Returned reply,
       if String.eqb (LINE_CHANNEL_ACCESS_TOKEN w) "" then w
       else log (ReqPush line_user_id text) w)
    /\ lr_success reply = delivered w (length (pushes w))
    /\ (lr_success reply = true -> reply = line_ok)
    /\ (lr_success reply = false -> exists error, reply = line_failure error).
Proof.
  unfold send_line_push, delivered.
  destruct (String.eqb (LINE_CHANNEL_ACCESS_TOKEN w) ""); cbn [negb andb].
  - eexists. split; [reflexivity|]. cbn. repeat split; [discriminate | eauto].
  - destruct (line_api w (length (pushes w))) as [status_code|e].
    + destruct (status_code =? 200); eexists; (split; [reflexivity|]); cbn;
        repeat split; eauto; discriminate.
    + eexists. split; [reflexivity|]. cbn. repeat split; [discriminate | eauto].
Qed.

Lemma payment_matches_id (id : Z) (p : Payment) :
  payment_matches {| pp_id := Some id; pp_branch_id := None; pp_urgency := None |} p
  = (p_id p =? id).
Proof. unfold payment_matches. cbn. now rewrite !andb_true_r. Qed.

Lemma filter_payments_by_id (id : Z) (rows : list Payment) :
  List.filter
    (payment_matches {| pp_id := Some id; pp_branch_id := None; pp_urgency := None |}) rows
  = List.filter (fun p => p_id p =? id) rows.
Proof. apply List.filter_ext. intros p. apply payment_matches_id. Qed.

Lemma if_str_some (o : option string) (s : string) :
  o = Some s -> s <> "" -> if_str o = Some s.
Proof.
  intros -> Hs. unfold if_str, truthy_str.
  destruct (String.eqb_spec s ""); [contradiction | reflexivity].
Qed.

Lemma has_line_address (p : Payment) :
  has_line p = true ->
  exists line_user_id,
    p_line_user_id p = Some line_user_id /\ if_str (p_line_user_id p) = Some line_user_id.
Proof.
  unfold has_line, if_str. intros H. rewrite H.
  destruct (p_line_user_id p) as [s|]; [|discriminate H]. now exists s.
Qed.

(** The reminder of a payment that is in the view with an address: one read,
    one push when the channel is configured, and a reply that tells whether
    the push was delivered.  It raises nothing. *)
Lemma send_payment_reminder_run (payment_id : Z) (reminder_type : string) (w : World)
    (payment : Payment) (line_user_id : string) :
  postgrest_answers w ->
  find_payment payment_id w = Some payment ->
  p_line_user_id payment = Some line_user_id ->
  line_user_id <> "" ->
  exists reply,
    send_payment_reminder payment_id reminder_type w
    = (Returned reply,
       if String.eqb (LINE_CHANNEL_ACCESS_TOKEN w) "" then log (ReqGet "v_payments_due") w
       else log (ReqPush line_user_id (payment_message reminder_type payment))
                (log (ReqGet "v_payments_due") w))
    /\ lr_success reply = delivered w (length (pushes w))
    /\ (lr_success reply = true ->
        lr_payment_id reply = Some payment_id
        /\ lr_reminder_type reply = Some reminder_type
        /\ lr_error reply = None)
    /\ (lr_success reply = false -> exists error, reply = line_failure error).
Proof.
  intros Hup Hfind Haddr Hne. unfold send_payment_reminder.
  destruct (filter_of_find _ _ _ Hfind) as [rest Hrows].
  destruct (send_line_push_run line_user_id (payment_message reminder_type payment)
              (log (ReqGet "v_payments_due") w)) as (push & Hpush & Hok & Hyes & Hno).
  rewrite pushes_log in Hok. cbn [is_push] in Hok. rewrite app_nil_r in Hok.
  change (LINE_CHANNEL_ACCESS_TOKEN (log (ReqGet "v_payments_due") w))
    with (LINE_CHANNEL_ACCESS_TOKEN w) in Hpush.
  change (delivered (log (ReqGet "v_payments_due") w)) with (delivered w) in Hok.
  destruct (lr_success push) eqn:Hsuccess.
  - eexists. split.
    + apply reraise_returned.
      erewrite bind_returned by (apply postgrest_get_payments_run; exact Hup).
      rewrite filter_payments_by_id, Hrows, (if_str_some _ _ Haddr Hne).
      erewrite bind_returned by exact Hpush. rewrite Hsuccess. reflexivity.
    + cbn. repeat split; [exact Hok | discriminate].
  - exists push. split.
    + apply reraise_returned.
      erewrite bind_returned by (apply postgrest_get_payments_run; exact Hup).
      rewrite filter_payments_by_id, Hrows, (if_str_some _ _ Haddr Hne).
      erewrite bind_returned by exact Hpush. rewrite Hsuccess. reflexivity.
    + rewrite Hsuccess. repeat split; [exact Hok | discriminate | discriminate | discriminate |].
      intros _. apply Hno. reflexivity.
Qed.

(** Whatever the payment, the reminder type and the LINE endpoint, the
    reminder of one payment returns a dict when the data gateway answers its
    read, and raises when it does not. *)
Lemma send_payment_reminder_returns (payment_id : Z) (reminder_type : string) (w : World) :
  postgrest_answers w ->
  exists reply w', send_payment_reminder payment_id reminder_type w = (Returned reply, w').
Proof.
  intros Hup. unfold send_payment_reminder.
  destruct (List.filter
              (payment_matches {| pp_id := Some payment_id; pp_branch_id := None;
                                  pp_urgency := None |})
              (v_payments_due w)) as [|payment rest] eqn:Hrows.
  - eexists _, _. apply reraise_returned.
    erewrite bind_returned by (apply postgrest_get_payments_run; exact Hup).
    rewrite Hrows. reflexivity.
  - destruct (if_str (p_line_user_id payment)) as [line_user_id|] eqn:Haddr.
    + destruct (send_line_push_run line_user_id (payment_message reminder_type payment)
                  (log (ReqGet "v_payments_due") w)) as (push & Hpush & _).
      destruct (lr_success push) eqn:Hsuccess;
        eexists _, _; apply reraise_returned;
        (erewrite bind_returned by (apply postgrest_get_payments_run; exact Hup));
        rewrite Hrows, Haddr;
        (erewrite bind_returned by exact Hpush);
        rewrite Hsuccess; reflexivity.
    + eexists _, _. apply reraise_returned.
      erewrite bind_returned by (apply postgrest_get_payments_run; exact Hup).
      rewrite Hrows, Haddr. reflexivity.
Qed.

Lemma send_payment_reminder_raises (payment_id : Z) (reminder_type : string) (w : World)
    (e : exn) :
  postgrest_fault w (length (data_requests w)) = Some e ->
  send_payment_reminder payment_id reminder_type w
  = (Raised (Exception_ ("發送繳費提醒失敗" +:+ ": " +:+ exn_message e)),
     log (ReqGet "v_payments_due") w).
Proof.
  intros H. unfold send_payment_reminder. apply reraise_raised.
  erewrite bind_raised by (apply postgrest_get_payments_fails; exact H). reflexivity.
Qed.

Lemma payment_message_generic (reminder_type : string) (payment : Payment) :
  reminder_type <> "upcoming" -> reminder_type <> "due" -> reminder_type <> "overdue" ->
  payment_message reminder_type payment
  = "親愛的 " +:+ p_customer_name payment +:+ "，您有一筆 $"
    +:+ format_amount (p_total_due payment) +:+ " 的款項需要處理。".
Proof.
  intros H1 H2 H3. unfold payment_message.
  destruct (String.eqb_spec reminder_type "upcoming"); [contradiction|].
  destruct (String.eqb_spec reminder_type "due"); [contradiction|].
  destruct (String.eqb_spec reminder_type "overdue"); [contradiction|].
  reflexivity.
Qed.

(** C10: a reminder whose type is none of [upcoming], [due], [overdue] is not
    refused: for a payment with a bound address (read through a data gateway
    that answers) the generic text is pushed, and when the gateway accepts it
    the reply is a success that echoes the payment id and the reminder type
    as given.  The text names the customer and carries the amount: between
    the name and the closing words stands a text that reads back as the
    amount due, sign and digits, in groups of three. *)
Theorem payment_reminder_generic_fallback (payment_id : Z) (reminder_type : string)
    (w : World) (payment : Payment) (line_user_id : string) :
  reminder_type <> "upcoming" -> reminder_type <> "due" -> reminder_type <> "overdue" ->
  postgrest_answers w ->
  find_payment payment_id w = Some payment ->
  p_line_user_id payment = Some line_user_id ->
  line_user_id <> "" ->
  LINE_CHANNEL_ACCESS_TOKEN w <> "" ->
  line_api w (length (pushes w)) = Responded 200 ->
  returns (send_payment_reminder payment_id reminder_type) w
    (fun reply w' =>
       lr_success reply = true
       /\ lr_payment_id reply = Some payment_id
       /\ lr_reminder_type reply = Some reminder_type
       /\ lr_error reply = None
       /\ (exists amount_text,
             amount_text = format_amount (p_total_due payment)
             /\ read_amount amount_text = Some (p_total_due payment)
             /\ pushes w'
                = pushes w
                  ++ [ReqPush line_user_id
                        ("親愛的 " +:+ p_customer_name payment +:+ "，您有一筆 $"
                         +:+ amount_text +:+ " 的款項需要處理。")])
       /\ writes w' = writes w).
Proof.
  intros H1 H2 H3 Hup Hfind Haddr Hne Htoken Hapi.
  destruct (send_payment_reminder_run payment_id reminder_type w payment line_user_id
              Hup Hfind Haddr Hne) as (reply & Hrun & Hok & Hyes & _).
  assert (Hdelivered : delivered w (length (pushes w)) = true).
  { unfold delivered. rewrite Hapi.
    destruct (String.eqb_spec (LINE_CHANNEL_ACCESS_TOKEN w) ""); [contradiction|reflexivity]. }
  rewrite Hdelivered in Hok. destruct (Hyes Hok) as (Hid & Htype & Herr).
  exists reply. eexists. split; [exact Hrun|].
  destruct (String.eqb_spec (LINE_CHANNEL_ACCESS_TOKEN w) ""); [contradiction|].
  split; [exact Hok|]. split; [exact Hid|]. split; [exact Htype|]. split; [exact Herr|].
  split.
  - exists (format_amount (p_total_due payment)). split; [reflexivity|].
    split; [apply format_amount_reads_back|].
    trace_simpl. now rewrite (payment_message_generic _ _ H1 H2 H3).
  - trace_simpl. reflexivity.
Qed.

(** A reminder of type [final_notice] for payment 11, of 3000: the text that
    is pushed. *)
Lemma payment_reminder_generic_fallback_witness :
  returns (send_payment_reminder 11 "final_notice") world_three_overdue
    (fun reply w' =>
       lr_success reply = true
       /\ lr_payment_id reply = Some 11
       /\ lr_reminder_type reply = Some "final_notice"
       /\ lr_error reply = None
       /\ read_amount "3,000" = Some 3000
       /\ pushes w'
          = pushes world_three_overdue
            ++ [ReqPush "U-chen" "親愛的 Chen，您有一筆 $3,000 的款項需要處理。"]
       /\ writes w' = writes world_three_overdue).
Proof.
  destruct (payment_reminder_generic_fallback 11 "final_notice" world_three_overdue
              (overdue_payment 11 "Chen" "U-chen" 3000) "U-chen")
    as (reply & w' & Hrun & Hok & Hid & Htype & Herr & (amount_text & Htext & Hread & Hpush)
        & Hwrites);
    try discriminate; try exact world_three_overdue_answers; try (vm_compute; reflexivity).
  exists reply, w'. split; [exact Hrun|].
  split; [exact Hok|]. split; [exact Hid|]. split; [exact Htype|]. split; [exact Herr|].
  subst amount_text. split; [exact Hread|]. split; [exact Hpush | exact Hwrites].
Defined.

(** ** Bulk runs *)

Lemma bulk_params_candidates (branch_id : option Z) (urgency : string) (w : World) :
  List.filter
    (payment_matches
       {| pp_id := None;
          pp_branch_id := if_int branch_id;
          pp_urgency := if String.eqb urgency "all" then None else Some urgency |})
    (v_payments_due w)
  = due_candidates branch_id urgency w.
Proof.
  unfold due_candidates. apply List.filter_ext. intros p.
  unfold payment_matches, if_int, truthy_int. cbn [pp_id pp_branch_id pp_urgency andb].
  f_equal.
  - destruct branch_id as [b|]; [|reflexivity].
    destruct (b =? 0); reflexivity.
  - destruct (String.eqb urgency "all"); reflexivity.
Qed.

(** C7: a bulk run in dry-run mode pushes nothing, whatever the data gateway
    does, and when the gateway answers the read it writes nothing either and
    its [would_send] is the number of the candidates with a bound address. *)
Theorem dry_run_sends_nothing (branch_id : option Z) (urgency : string) (w : World) :
  pushes (send_bulk_payment_reminders branch_id urgency true w).2 = pushes w
  /\ (postgrest_answers w ->
      returns (send_bulk_payment_reminders branch_id urgency true) w
    (fun reply w' =>
       pushes w' = pushes w
       /\ writes w' = writes w
       /\ exists total_payments with_line_id total_amount,
            reply = DryRun total_payments with_line_id
                      (length (with_address (due_candidates branch_id urgency w)))
                      total_amount
            /\ total_payments = length (due_candidates branch_id urgency w)
            /\ with_line_id = length (with_address (due_candidates branch_id urgency w)))).
Proof.
  split.
  - unfold send_bulk_payment_reminders, reraise, try_except, raise,
      postgrest_get_payments, postgrest_request, bind, ask, ret.
    destruct (postgrest_fault w (length (data_requests w))); cbn [snd];
      trace_simpl; reflexivity.
  - intros Hup. unfold returns, send_bulk_payment_reminders. eexists _, _. split.
    + apply reraise_returned.
      erewrite bind_returned by (apply postgrest_get_payments_run; exact Hup).
      rewrite bulk_params_candidates. reflexivity.
    + trace_simpl. repeat split. eexists _, _, _. repeat split.
Qed.

Lemma dry_run_sends_nothing_witness :
  postgrest_answers world_three_overdue
  /\ returns (send_bulk_payment_reminders None "overdue" true) world_three_overdue
       (fun reply w' =>
          pushes w' = pushes world_three_overdue
          /\ writes w' = writes world_three_overdue
          /\ exists total_payments with_line_id total_amount,
               reply = DryRun total_payments with_line_id
                         (length (with_address (due_candidates None "overdue"
                                                  world_three_overdue)))
                         total_amount
               /\ total_payments = length (due_candidates None "overdue" world_three_overdue)
               /\ with_line_id
                  = length (with_address (due_candidates None "overdue" world_three_overdue))).
Proof.
  split; [exact world_three_overdue_answers|].
  exact (proj2 (dry_run_sends_nothing None "overdue" world_three_overdue)
           world_three_overdue_answers).
Defined.

Lemma find_payment_nodup (rows : list Payment) (p : Payment) (id : Z) :
  NoDup (map p_id rows) -> In p rows -> id = p_id p ->
  List.find (fun x => p_id x =? id) rows = Some p.
Proof.
  intros Hnodup Hin ->. induction rows as [|x rows IH]; [contradiction|].
  cbn [map] in Hnodup. apply NoDup_cons in Hnodup as [Hx Hrows].
  cbn [List.find]. destruct Hin as [->|Hin].
  - now rewrite Z.eqb_refl.
  - destruct (Z.eqb_spec (p_id x) (p_id p)) as [Heq|_].
    + exfalso. apply Hx. rewrite Heq. apply list_elem_of_In. now apply in_map.
    + now apply IH.
Qed.

Lemma delivered_same (w w0 : World) (k : nat) :
  LINE_CHANNEL_ACCESS_TOKEN w = LINE_CHANNEL_ACCESS_TOKEN w0 ->
  line_api w = line_api w0 ->
  delivered w k = delivered w0 k.
Proof. intros Htoken Hapi. unfold delivered. now rewrite Htoken, Hapi. Qed.

Lemma delivered_unconfigured (w : World) (k : nat) :
  LINE_CHANNEL_ACCESS_TOKEN w = "" -> delivered w k = false.
Proof. intros H. unfold delivered. now rewrite H. Qed.

Lemma dispatches_unconfigured (w : World) (candidates : list Payment) (k k' : nat) :
  LINE_CHANNEL_ACCESS_TOKEN w = "" ->
  dispatches w k candidates = dispatches w k' candidates.
Proof.
  intros H. revert k k'. induction candidates as [|p rest IH]; intros k k'; cbn; [reflexivity|].
  rewrite !(delivered_unconfigured w _ H). f_equal. apply IH.
Qed.

(** The loop of a live run: every candidate is dispatched, whatever became of
    the ones before it, and the three accumulators grow by the candidates
    that were reached, by those that were missed, and by one error for each
    of the latter. *)
Lemma bulk_loop_run (w0 : World) :
  NoDup (map p_id (v_payments_due w0)) ->
  forall (candidates : list Payment) (w : World) (k : nat)
         (sent_count failed_count : Z) (errors : list BulkError),
    (forall p, In p candidates -> In p (v_payments_due w0) /\ has_line p = true) ->
    postgrest_answers w ->
    v_payments_due w = v_payments_due w0 ->
    LINE_CHANNEL_ACCESS_TOKEN w = LINE_CHANNEL_ACCESS_TOKEN w0 ->
    line_api w = line_api w0 ->
    (LINE_CHANNEL_ACCESS_TOKEN w0 <> "" -> k = length (pushes w)) ->
    exists (more : list BulkError) (w' : World),
      bulk_loop candidates sent_count failed_count errors w
      = (Returned (sent_count + Z.of_nat (length (reached (dispatches w0 k candidates))),
                   failed_count + Z.of_nat (length (missed (dispatches w0 k candidates))),
                   errors ++ more), w')
      /\ map be_payment_id more = map p_id (missed (dispatches w0 k candidates))
      /\ pushes w'
         = pushes w ++ (if String.eqb (LINE_CHANNEL_ACCESS_TOKEN w0) "" then []
                        else map reminder_push candidates)
      /\ writes w' = writes w.
Proof.
  intros Hnodup candidates.
  induction candidates as [|p rest IH];
    intros w k sent_count failed_count errors Hcands Hup Hview Htoken Hapi Hk.
  - exists [], w. split; [|split; [|split]].
    + unfold reached, missed. cbn. now rewrite !Z.add_0_r, app_nil_r.
    + reflexivity.
    + destruct (String.eqb (LINE_CHANNEL_ACCESS_TOKEN w0) ""); cbn [map];
        now rewrite app_nil_r.
    + reflexivity.
  - destruct (Hcands p (or_introl eq_refl)) as [Hin Hline].
    destruct (has_line_address p Hline) as (line_user_id & Haddr & Hif).
    assert (Hne : line_user_id <> "").
    { intros ->. unfold has_line in Hline. rewrite Haddr in Hline. discriminate Hline. }
    assert (Hfind : find_payment (p_id p) w = Some p).
    { unfold find_payment. rewrite Hview. now apply find_payment_nodup. }
    destruct (send_payment_reminder_run (p_id p) (bulk_reminder_type p) w p line_user_id
                Hup Hfind Haddr Hne) as (reply & Hrun & Hok & _ & Hno).
    rewrite Htoken in Hrun.
    set (w1 := if String.eqb (LINE_CHANNEL_ACCESS_TOKEN w0) ""
               then log (ReqGet "v_payments_due") w
               else log (ReqPush line_user_id (payment_message (bulk_reminder_type p) p))
                        (log (ReqGet "v_payments_due") w)) in *.
    assert (Hup1 : postgrest_answers w1).
    { subst w1. destruct (String.eqb (LINE_CHANNEL_ACCESS_TOKEN w0) ""); exact Hup. }
    assert (Hview1 : v_payments_due w1 = v_payments_due w0).
    { subst w1. destruct (String.eqb (LINE_CHANNEL_ACCESS_TOKEN w0) ""); exact Hview. }
    assert (Htoken1 : LINE_CHANNEL_ACCESS_TOKEN w1 = LINE_CHANNEL_ACCESS_TOKEN w0).
    { subst w1. destruct (String.eqb (LINE_CHANNEL_ACCESS_TOKEN w0) ""); exact Htoken. }
    assert (Hapi1 : line_api w1 = line_api w0).
    { subst w1. destruct (String.eqb (LINE_CHANNEL_ACCESS_TOKEN w0) ""); exact Hapi. }
    assert (Hpushes1 :
      pushes w1 = pushes w ++ (if String.eqb (LINE_CHANNEL_ACCESS_TOKEN w0) "" then []
                               else [reminder_push p])).
    { subst w1. unfold reminder_push. rewrite Haddr. cbn [default].
      destruct (String.eqb (LINE_CHANNEL_ACCESS_TOKEN w0) ""); trace_simpl; reflexivity. }
    assert (Hwrites1 : writes w1 = writes w).
    { subst w1. destruct (String.eqb (LINE_CHANNEL_ACCESS_TOKEN w0) ""); trace_simpl;
        reflexivity. }
    assert (Hk1 : LINE_CHANNEL_ACCESS_TOKEN w0 <> "" -> S k = length (pushes w1)).
    { intros Hconf. rewrite Hpushes1.
      destruct (String.eqb_spec (LINE_CHANNEL_ACCESS_TOKEN w0) ""); [contradiction|].
      rewrite length_app. cbn. rewrite (Hk Hconf). lia. }
    assert (Hdelivered : lr_success reply = delivered w0 k).
    { rewrite Hok. rewrite (delivered_same w w0 _ Htoken Hapi).
      destruct (String.eqb_spec (LINE_CHANNEL_ACCESS_TOKEN w0) "") as [Hnone|Hconf].
      - now rewrite !(delivered_unconfigured w0 _ Hnone).
      - now rewrite (Hk Hconf). }
    assert (Hrest : forall q, In q rest -> In q (v_payments_due w0) /\ has_line q = true).
    { intros q Hq. apply Hcands. now right. }
    cbn [bulk_loop]. fold (bulk_reminder_type p).
    erewrite bind_returned by exact Hrun.
    cbn [dispatches]. unfold reached, missed. cbn [List.filter snd negb].
    rewrite Hdelivered. destruct (delivered w0 k) eqn:Hd; cbn [negb map length fst].
    + destruct (IH w1 (S k) (sent_count + 1) failed_count errors
                  Hrest Hup1 Hview1 Htoken1 Hapi1 Hk1) as (more & w' & Hloop & Hids & Hp & Hw).
      exists more, w'. split; [|split; [|split]].
      * rewrite Hloop. unfold reached, missed.
        match goal with
        | |- (Returned (?a, ?b, _), _) = (Returned (?a', ?b', _), _) =>
            replace a' with a by lia; replace b' with b by lia
        end.
        reflexivity.
      * exact Hids.
      * rewrite Hp, Hpushes1.
        destruct (String.eqb (LINE_CHANNEL_ACCESS_TOKEN w0) "");
          cbn [map]; rewrite <- ?app_assoc; reflexivity.
      * now rewrite Hw.
    + destruct (IH w1 (S k) sent_count (failed_count + 1)
                  (errors ++ [ {| be_payment_id := p_id p;
                                  be_customer := p_customer_name p;
                                  be_error := lr_error reply |} ])
                  Hrest Hup1 Hview1 Htoken1 Hapi1 Hk1) as (more & w' & Hloop & Hids & Hp & Hw).
      eexists (_ :: more), w'. split; [|split; [|split]].
      * rewrite Hloop. unfold reached, missed. rewrite <- app_assoc. cbn [app].
        match goal with
        | |- (Returned (?a, ?b, _), _) = (Returned (?a', ?b', _), _) =>
            replace a' with a by lia; replace b' with b by lia
        end.
        reflexivity.
      * cbn [map be_payment_id]. unfold missed in Hids. now rewrite Hids.
      * rewrite Hp, Hpushes1.
        destruct (String.eqb (LINE_CHANNEL_ACCESS_TOKEN w0) "");
          cbn [map]; rewrite <- ?app_assoc; reflexivity.
      * now rewrite Hw.
Qed.

Lemma dispatches_length (w : World) (k : nat) (candidates : list Payment) :
  (length (reached (dispatches w k candidates))
   + length (missed (dispatches w k candidates)))%nat
  = length candidates.
Proof.
  revert k. unfold reached, missed.
  induction candidates as [|p rest IH]; intros k; cbn [dispatches]; [reflexivity|].
  cbn [List.filter snd]. specialize (IH (S k)).
  destruct (delivered w k); cbn [negb map length]; lia.
Qed.

Lemma three_overdue_distinct : NoDup (map p_id (v_payments_due world_three_overdue)).
Proof. vm_compute. repeat constructor; rewrite ?elem_of_cons, ?elem_of_nil; intuition discriminate. Qed.

(** The scenario of the design document: a run over three overdue payments
    in which the second dispatch fails sends two reminders, counts one
    failure, and names the second payment, 12, in its error list. *)
Example bulk_run_second_dispatch_fails :
  (send_bulk_payment_reminders None "overdue" false world_three_overdue).1
  = Returned (Live 2 1 (Some [ {| be_payment_id := 12; be_customer := "Lin";
                                  be_error := Some "LINE API 錯誤: 500" |} ]))
  /\ map is_push (trace (send_bulk_payment_reminders None "overdue" false
                           world_three_overdue).2)
     = [false; false; true; false; true; false; true]
  /\ missed (dispatches world_three_overdue 0
               (with_address (due_candidates None "overdue" world_three_overdue)))
     = [overdue_payment 12 "Lin" "U-lin" 4500].
Proof. vm_compute. repeat split; reflexivity. Qed.

(** The same three payments in dry-run mode. *)
Example dry_run_three_overdue :
  send_bulk_payment_reminders None "overdue" true world_three_overdue
  = (Returned (DryRun 3 3 3 8700), log (ReqGet "v_payments_due") world_three_overdue).
Proof. vm_compute. reflexivity. Qed.



(** * Requests to a gateway that answers some of them *)

Lemma data_requests_log (r : request) (w : World) :
  data_requests (log r w) = data_requests w ++ (if is_data_request r then [r] else []).
Proof.
  unfold data_requests. simpl. rewrite List.filter_app. simpl.
  destruct (is_data_request r); reflexivity.
Qed.

Lemma answers_at_0 (w : World) :
  answers_at 0 w -> postgrest_fault w (length (data_requests w)) = None.
Proof. unfold answers_at. now rewrite Nat.add_0_r. Qed.

Lemma fails_at_0 (e : exn) (w : World) :
  fails_at 0 e w -> postgrest_fault w (length (data_requests w)) = Some e.
Proof. unfold fails_at. now rewrite Nat.add_0_r. Qed.

Lemma answers_at_of_answers (k : nat) (w : World) : postgrest_answers w -> answers_at k w.
Proof. intros H. apply H. Qed.

(** After one more request to the gateway, the [k+1]-th request from before
    is the [k]-th. *)
Lemma answers_at_log (r : request) (k : nat) (w : World) :
  is_data_request r = true -> answers_at (S k) w -> answers_at k (log r w).
Proof.
  unfold answers_at. intros Hr H. rewrite data_requests_log, Hr, length_app.
  cbn [length]. change (postgrest_fault (log r w)) with (postgrest_fault w).
  now replace (length (data_requests w) + 1 + k)%nat with (length (data_requests w) + S k)%nat
    by lia.
Qed.

Lemma fails_at_log (r : request) (k : nat) (e : exn) (w : World) :
  is_data_request r = true -> fails_at (S k) e w -> fails_at k e (log r w).
Proof.
  unfold fails_at. intros Hr H. rewrite data_requests_log, Hr, length_app.
  cbn [length]. change (postgrest_fault (log r w)) with (postgrest_fault w).
  now replace (length (data_requests w) + 1 + k)%nat with (length (data_requests w) + S k)%nat
    by lia.
Qed.

(** A push is no request to the data gateway. *)
Lemma answers_at_push (to text : string) (k : nat) (w : World) :
  answers_at k w -> answers_at k (log (ReqPush to text) w).
Proof.
  unfold answers_at. intros H. rewrite data_requests_log. cbn. now rewrite app_nil_r.
Qed.

Lemma fails_at_push (to text : string) (k : nat) (e : exn) (w : World) :
  fails_at k e w -> fails_at k e (log (ReqPush to text) w).
Proof.
  unfold fails_at. intros H. rewrite data_requests_log. cbn. now rewrite app_nil_r.
Qed.

Lemma postgrest_request_ok (r : request) (w : World) :
  answers_at 0 w -> postgrest_request r w = (Returned tt, log r w).
Proof. intros H. unfold postgrest_request. now rewrite (answers_at_0 _ H). Qed.

Lemma postgrest_request_down (r : request) (w : World) (e : exn) :
  fails_at 0 e w -> postgrest_request r w = (Raised e, log r w).
Proof. intros H. unfold postgrest_request. now rewrite (fails_at_0 _ _ H). Qed.

Lemma postgrest_get_quotes_ok (endpoint : string) (id : Z) (w : World) :
  answers_at 0 w ->
  postgrest_get_quotes endpoint id w
  = (Returned (List.filter (fun q => q_id q =? id) (quotes w)), log (ReqGet endpoint) w).
Proof.
  intros H. unfold postgrest_get_quotes.
  erewrite bind_returned by (apply postgrest_request_ok; exact H). reflexivity.
Qed.

Lemma postgrest_get_quotes_down (endpoint : string) (id : Z) (w : World) (e : exn) :
  fails_at 0 e w ->
  postgrest_get_quotes endpoint id w = (Raised e, log (ReqGet endpoint) w).
Proof.
  intros H. unfold postgrest_get_quotes.
  erewrite bind_raised by (apply postgrest_request_down; exact H). reflexivity.
Qed.

Lemma postgrest_post_quotes_down (data : Quote) (w : World) (e : exn) :
  fails_at 0 e w ->
  postgrest_post_quotes data w = (Raised e, log (ReqPost "quotes") w).
Proof.
  intros H. unfold postgrest_post_quotes.
  erewrite bind_raised by (apply postgrest_request_down; exact H). reflexivity.
Qed.

Lemma postgrest_post_contracts_ok (data : Contract) (w : World) :
  answers_at 0 w ->
  postgrest_post_contracts data w
  = (Returned (contract_row (next_contract_id w)
                 (contract_number_trigger w (next_contract_id w)) (customer_trigger w data) data),
     set_contracts
       (contracts w ++ [contract_row (next_contract_id w)
                          (contract_number_trigger w (next_contract_id w))
                          (customer_trigger w data) data])
       (next_contract_id w + 1) (log (ReqPost "contracts") w)).
Proof.
  intros H. unfold postgrest_post_contracts.
  erewrite bind_returned by (apply postgrest_request_ok; exact H). reflexivity.
Qed.

Lemma postgrest_patch_quotes_down (id : Z) (body : gmap string value) (w : World) (e : exn) :
  fails_at 0 e w ->
  postgrest_patch_quotes id body w = (Raised e, log (ReqPatch "quotes" id) w).
Proof.
  intros H. unfold postgrest_patch_quotes.
  erewrite bind_raised by (apply postgrest_request_down; exact H). reflexivity.
Qed.

Lemma postgrest_get_payments_ok (params : PaymentParams) (w : World) :
  answers_at 0 w ->
  postgrest_get_payments params w
  = (Returned (List.filter (payment_matches params) (v_payments_due w)),
     log (ReqGet "v_payments_due") w).
Proof.
  intros H. unfold postgrest_get_payments.
  erewrite bind_returned by (apply postgrest_request_ok; exact H). reflexivity.
Qed.

Lemma postgrest_get_payments_down (params : PaymentParams) (w : World) (e : exn) :
  fails_at 0 e w ->
  postgrest_get_payments params w = (Raised e, log (ReqGet "v_payments_due") w).
Proof.
  intros H. unfold postgrest_get_payments.
  erewrite bind_raised by (apply postgrest_request_down; exact H). reflexivity.
Qed.

Lemma postgrest_get_renewals_run (contract_id : Z) (w : World) :
  postgrest_answers w ->
  postgrest_get_renewals contract_id w
  = (Returned (List.filter (fun r => r_contract_id r =? contract_id) (v_renewal_reminders w)),
     log (ReqGet "v_renewal_reminders") w).
Proof.
  intros H. unfold postgrest_get_renewals.
  erewrite bind_returned by (apply postgrest_request_run; exact H). reflexivity.
Qed.

Lemma postgrest_get_renewals_down (contract_id : Z) (w : World) (e : exn) :
  fails_at 0 e w ->
  postgrest_get_renewals contract_id w = (Raised e, log (ReqGet "v_renewal_reminders") w).
Proof.
  intros H. unfold postgrest_get_renewals.
  erewrite bind_raised by (apply postgrest_request_down; exact H). reflexivity.
Qed.

Lemma gateway_down_fails (e : exn) (w : World) (k : nat) : fails_at k e (gateway_down e w).
Proof. reflexivity. Qed.

Lemma gateway_fails_once_answers (k j : nat) (e : exn) (w : World) :
  j <> (length (data_requests w) + k)%nat ->
  postgrest_fault (gateway_fails_once j e w) (length (data_requests w) + k) = None.
Proof.
  intros H. cbn. destruct (Nat.eqb_spec (length (data_requests w) + k) j); [|reflexivity].
  congruence.
Qed.

(** ** Lists *)

Lemma filter_negb_of_find_none {A : Type} (f : A -> bool) (l : list A) :
  List.find f l = None -> List.filter (fun x => negb (f x)) l = l.
Proof.
  induction l as [|x l IH]; simpl; [reflexivity|].
  destruct (f x); [discriminate|]. intros H. simpl. now rewrite IH.
Qed.


(** * The urgency label of a renewal notice *)

(** The reminder of a renewal that is in the view with an address: one read,
    and one push of the notice when the channel is configured, whatever the
    endpoint answers. *)
Lemma send_renewal_reminder_run (contract_id : Z) (w : World) (renewal : Renewal)
    (line_user_id : string) :
  postgrest_answers w ->
  find_renewal contract_id w = Some renewal ->
  r_line_user_id renewal = Some line_user_id ->
  line_user_id <> "" ->
  exists reply,
    send_renewal_reminder contract_id w
    = (Returned reply,
       if String.eqb (LINE_CHANNEL_ACCESS_TOKEN w) ""
       then log (ReqGet "v_renewal_reminders") w
       else log (ReqPush line_user_id (renewal_message renewal))
                (log (ReqGet "v_renewal_reminders") w)).
Proof.
  intros Hup Hfind Haddr Hne. unfold send_renewal_reminder.
  unfold find_renewal in Hfind. destruct (filter_of_find _ _ _ Hfind) as [rest Hrows].
  destruct (send_line_push_run line_user_id (renewal_message renewal)
              (log (ReqGet "v_renewal_reminders") w)) as (push & Hpush & _).
  change (LINE_CHANNEL_ACCESS_TOKEN (log (ReqGet "v_renewal_reminders") w))
    with (LINE_CHANNEL_ACCESS_TOKEN w) in Hpush.
  destruct (lr_success push) eqn:Hsuccess; eexists;
    apply reraise_returned;
    (erewrite bind_returned by (apply postgrest_get_renewals_run; exact Hup));
    rewrite Hrows, (if_str_some _ _ Haddr Hne);
    (erewrite bind_returned by exact Hpush); rewrite Hsuccess; reflexivity.
Qed.

(** The label by the range of the days that remain. *)
Lemma renewal_urgency_ranges (days_remaining : Z) :
  (days_remaining <= 7 -> renewal_urgency days_remaining = "⚠️ 緊急")
  /\ (7 < days_remaining <= 30 -> renewal_urgency days_remaining = "📢 重要")
  /\ (30 < days_remaining -> renewal_urgency days_remaining = "📋 提醒").
Proof.
  unfold renewal_urgency.
  destruct (Z.leb_spec days_remaining 7), (Z.leb_spec days_remaining 30);
    repeat split; intros; try lia; reflexivity.
Qed.

(** C8: the label of a renewal notice follows the thresholds on
    [days_remaining], 7 and 30 belonging to the lower tier.  The notice opens
    with the urgent label when at most 7 days remain and only then, with the
    important label when more than 7 and at most 30 days remain and only
    then, and with the informational label when more than 30 days remain and
    only then; 5, 20 and 45 days get the three labels in that order, and 7, 8,
    30 and 31 days show the boundaries.  That notice is the text the
    reminder pushes to the customer, for every renewal of the view with an
    address, whatever the endpoint answers. *)
Theorem renewal_tier_thresholds :
  (forall days_remaining : Z,
      (days_remaining <= 7 -> renewal_urgency days_remaining = "⚠️ 緊急")
      /\ (7 < days_remaining <= 30 -> renewal_urgency days_remaining = "📢 重要")
      /\ (30 < days_remaining -> renewal_urgency days_remaining = "📋 提醒"))
  /\ (forall renewal : Renewal,
        (String.prefix "⚠️ 緊急 續約通知" (renewal_message renewal) = true
         <-> r_days_remaining renewal <= 7)
        /\ (String.prefix "📢 重要 續約通知" (renewal_message renewal) = true
            <-> 7 < r_days_remaining renewal <= 30)
        /\ (String.prefix "📋 提醒 續約通知" (renewal_message renewal) = true
            <-> 30 < r_days_remaining renewal))
  /\ (renewal_urgency 5 = "⚠️ 緊急"
      /\ renewal_urgency 20 = "📢 重要"
      /\ renewal_urgency 45 = "📋 提醒")
  /\ (renewal_urgency 7 = "⚠️ 緊急"
      /\ renewal_urgency 8 = "📢 重要"
      /\ renewal_urgency 30 = "📢 重要"
      /\ renewal_urgency 31 = "📋 提醒")
  /\ (forall (contract_id : Z) (w : World) (renewal : Renewal) (line_user_id : string),
        postgrest_answers w ->
        find_renewal contract_id w = Some renewal ->
        r_line_user_id renewal = Some line_user_id ->
        line_user_id <> "" ->
        LINE_CHANNEL_ACCESS_TOKEN w <> "" ->
        pushes (send_renewal_reminder contract_id w).2
        = pushes w ++ [ReqPush line_user_id (renewal_message renewal)]).
Proof.
  split; [exact renewal_urgency_ranges|].
  split; [|split; [repeat split; reflexivity|split; [repeat split; reflexivity|]]].
  - intros renewal. unfold renewal_message, renewal_urgency.
    destruct (Z.leb_spec (r_days_remaining renewal) 7);
      [|destruct (Z.leb_spec (r_days_remaining renewal) 30)];
      cbn [String.prefix String.append];
      repeat split; intros; lia || discriminate || reflexivity.
  - intros contract_id w renewal line_user_id Hup Hfind Haddr Hne Htoken.
    destruct (send_renewal_reminder_run contract_id w renewal line_user_id
                Hup Hfind Haddr Hne) as (reply & ->).
    destruct (String.eqb_spec (LINE_CHANNEL_ACCESS_TOKEN w) ""); [contradiction|].
    cbn [snd]. trace_simpl. reflexivity.
Qed.

(** The reminder of contract 7, with 5 days left: the notice that is pushed
    is the urgent one, and neither of the others. *)
Lemma renewal_tier_thresholds_witness :
  pushes (send_renewal_reminder 7 world_renewals).2
  = pushes world_renewals ++ [ReqPush "U-chen" (renewal_message renewal_chen)]
  /\ String.prefix "⚠️ 緊急 續約通知" (renewal_message renewal_chen) = true
  /\ String.prefix "📢 重要 續約通知" (renewal_message renewal_chen) <> true
  /\ String.prefix "📋 提醒 續約通知" (renewal_message renewal_chen) <> true.
Proof.
  destruct renewal_tier_thresholds as (_ & Hnotice & _ & _ & Hpush).
  destruct (Hnotice renewal_chen) as (Hurgent & Himportant & Hinformational).
  split.
  - apply (Hpush 7 world_renewals renewal_chen "U-chen");
      try reflexivity; try discriminate.
    intros n. reflexivity.
  - split; [apply Hurgent; vm_compute; discriminate|].
    split; intros H.
    + apply Himportant in H. vm_compute in H. destruct H as [H _]. discriminate H.
    + apply Hinformational in H. vm_compute in H. discriminate H.
Defined.

(** The notices of the same contract with 20 and with 45 days left, as they
    are pushed. *)
Example renewal_notices_20_and_45 :
  pushes (send_renewal_reminder 7 (world_renewal_in 20)).2
  = [ReqPush "U-chen" "📢 重要 續約通知

親愛的 Chen 您好，

您在 大忠館 的合約將於 2024-01-06 到期，距今還有 20 天。

如需續約或有任何問題，歡迎隨時聯繫我們！

感謝您對 Hour Jungle 的支持 🙏"]
  /\ pushes (send_renewal_reminder 7 (world_renewal_in 45)).2
     = [ReqPush "U-chen" "📋 提醒 續約通知

親愛的 Chen 您好，

您在 大忠館 的合約將於 2024-01-06 到期，距今還有 45 天。

如需續約或有任何問題，歡迎隨時聯繫我們！

感謝您對 Hour Jungle 的支持 🙏"].
Proof. vm_compute. split; reflexivity. Qed.

(** * What an update of a quote can and cannot do *)

(** What a patch that went through did to a row, column by column. *)
Lemma patch_quote_inv (body : gmap string value) (q q' : Quote) :
  patch_quote body q = Some q' ->
  (q_id q' = q_id q
   /\ q_quote_number q' = q_quote_number q
   /\ q_branch_id q' = q_branch_id q
   /\ q_created_by q' = q_created_by q
   /\ q_items q' = col_json (body !! "items") (q_items q))
  /\ (col_int (body !! "subtotal") (q_subtotal q) = Some (q_subtotal q')
      /\ col_int (body !! "discount_amount") (q_discount_amount q)
         = Some (q_discount_amount q')
      /\ col_int (body !! "total_amount") (q_total_amount q) = Some (q_total_amount q')
      /\ col_str (body !! "status") (q_status q) = Some (q_status q'))
  /\ (col_str (body !! "sent_at") (q_sent_at q) = Some (q_sent_at q')
      /\ col_str (body !! "viewed_at") (q_viewed_at q) = Some (q_viewed_at q')
      /\ col_str (body !! "responded_at") (q_responded_at q) = Some (q_responded_at q')
      /\ col_int (body !! "converted_contract_id") (q_converted_contract_id q)
         = Some (q_converted_contract_id q')
      /\ col_str (body !! "converted_at") (q_converted_at q) = Some (q_converted_at q')).
Proof.
  unfold patch_quote. intros H.
  repeat match type of H with
         | mbind _ ?m = Some _ => destruct m eqn:?; cbn [mbind option_bind] in H;
                                  [|discriminate H]
         end.
  injection H as <-. cbn. repeat split; reflexivity.
Qed.




(** Membership in a list of literals, by evaluation. *)
Ltac in_list := apply (bool_decide_unpack _); vm_compute; exact I.




(** The rows a patch leaves, and the rows it returns. *)
Lemma patch_rows_inv (id : Z) (body : gmap string value) (rows rows' hit : list Quote) :
  patch_rows id body rows = Some (rows', hit) ->
  Forall2 (fun q q' => if q_id q =? id then patch_quote body q = Some q' else q' = q) rows rows'
  /\ Forall2 (fun q q' => patch_quote body q = Some q')
             (List.filter (fun q => q_id q =? id) rows) hit.
Proof.
  revert rows' hit. induction rows as [|q rows IH]; intros rows' hit H; simpl in H.
  - injection H as <- <-. split; constructor.
  - destruct (patch_rows id body rows) as [[rest' hit']|] eqn:Hrest; simpl in H;
      [|discriminate H].
    destruct (IH rest' hit' eq_refl) as [Hrows Hhit].
    simpl. destruct (q_id q =? id) eqn:Hq.
    + destruct (patch_quote body q) as [q'|] eqn:Hpatch; simpl in H; [|discriminate H].
      injection H as <- <-. split; constructor; try assumption. now rewrite Hq.
    + injection H as <- <-. split; [|assumption]. constructor; [|assumption]. now rewrite Hq.
Qed.

Lemma patch_rows_no_match (id : Z) (body : gmap string value) (rows : list Quote) :
  List.find (fun q => q_id q =? id) rows = None ->
  patch_rows id body rows = Some (rows, []).
Proof.
  induction rows as [|q rows IH]; simpl; [reflexivity|].
  destruct (q_id q =? id); [discriminate|]. intros H. rewrite (IH H). reflexivity.
Qed.



Lemma allowed_items : "items" ∈ allowed_fields.
Proof. in_list. Qed.


Lemma allowed_discount_amount : "discount_amount" ∈ allowed_fields.
Proof. in_list. Qed.


Lemma allowed_status : "status" ∈ allowed_fields.
Proof. in_list. Qed.


(** What the recomputation makes of a body with a list of items. *)
Lemma recompute_with_items (filtered : gmap string value) (items : list Item) :
  filtered !! "items" = Some (VItems items) ->
  recompute_amounts filtered
  = match int_minus (sum_amounts items)
            (default (VInt 0) (filtered !! "discount_amount")) with
    | Returned total_amount =>
        Returned (<["items" := VItems items]>
                    (<["total_amount" := total_amount]>
                       (<["subtotal" := VInt (sum_amounts items)]> filtered)))
    | Raised e => Raised e
    end.
Proof.
  intros Hitems. unfold recompute_amounts. rewrite Hitems.
  rewrite lookup_insert_ne by discriminate. reflexivity.
Qed.

Lemma recompute_without_items (filtered : gmap string value) :
  filtered !! "items" = None -> recompute_amounts filtered = Returned filtered.
Proof. intros H. unfold recompute_amounts. now rewrite H. Qed.

Lemma filtered_lookup_allowed (updates : gmap string value) (k : string) :
  k ∈ allowed_fields ->
  filter (fun kv : string * value => kv.1 ∈ allowed_fields) updates !! k = updates !! k.
Proof.
  intros Hk. destruct (updates !! k) as [v|] eqn:E.
  - apply map_lookup_filter_Some. split; [exact E | exact Hk].
  - apply map_lookup_filter_None. left. exact E.
Qed.

Lemma filtered_empty_iff (updates : gmap string value) :
  filter (fun kv : string * value => kv.1 ∈ allowed_fields) updates = ∅
  <-> forall k, k ∈ allowed_fields -> updates !! k = None.
Proof.
  rewrite map_empty. split.
  - intros H k Hk. rewrite <- (filtered_lookup_allowed updates k Hk). apply H.
  - intros H k. apply map_lookup_filter_None.
    destruct (decide (k ∈ allowed_fields)) as [Hk|Hk].
    + left. now apply H.
    + right. intros v _. exact Hk.
Qed.

(** X1: [update_quote] with no allowed field among the keys of [updates] (with
    no key at all, for one) raises [ValueError] before anything is sent, and
    that is the only way it raises a [ValueError]: every other failure is a
    [TypeError] of the recomputation or the [Exception] the tool wraps a
    failure of the gateway in. *)
Theorem update_quote_needs_an_allowed_field
    (quote_id : Z) (updates : gmap string value) (w : World) :
  ((forall k, k ∈ allowed_fields -> updates !! k = None) ->
   update_quote quote_id updates w = (Raised (ValueError "沒有有效的更新欄位"), w))
  /\ (forall msg w',
        update_quote quote_id updates w = (Raised (ValueError msg), w') ->
        forall k, k ∈ allowed_fields -> updates !! k = None).
Proof.
  unfold update_quote. split.
  - intros Hnone. apply filtered_empty_iff in Hnone.
    destruct (decide (filter (fun kv : string * value => kv.1 ∈ allowed_fields) updates = ∅));
      [reflexivity | contradiction].
  - intros msg w'.
    destruct (decide (filter (fun kv : string * value => kv.1 ∈ allowed_fields) updates = ∅))
      as [Hempty|Hsome].
    + intros _. now apply filtered_empty_iff.
    + destruct (recompute_amounts _) as [body|e] eqn:Hbody.
      * rewrite bind_lift_returned, reraise_run.
        destruct (bind _ _ w) as [[reply|e] w1]; discriminate.
      * rewrite bind_lift_raised. intros [= -> <-]. exfalso.
        unfold recompute_amounts in Hbody.
        destruct (_ !! "items") as [[| | | |items]|]; try discriminate Hbody.
        destruct (default _ _); discriminate Hbody.
Qed.

(** An update that names the id and the lifecycle marks of the quote, and no
    allowed field. *)
Lemma update_quote_needs_an_allowed_field_witness :
  update_quote 1 (<["id" := VInt 9]> {[ "converted_contract_id" := VInt 4 ]}) world_Q1_draft
  = (Raised (ValueError "沒有有效的更新欄位"), world_Q1_draft).
Proof.
  apply (proj1 (update_quote_needs_an_allowed_field 1 _ world_Q1_draft)).
  intros k Hk. unfold allowed_fields in Hk.
  repeat (apply elem_of_cons in Hk as [->|Hk]; [vm_compute; reflexivity|]).
  now apply elem_of_nil in Hk.
Defined.


(** X3: [status] is one of the allowed fields, and [update_quote] checks no
    value: it sets the status of a stored quote to any string at all, one of
    the seven statuses or not, and stamps none of the timestamps that
    [update_quote_status] sets with a status. *)
Theorem update_quote_sets_any_status
    (quote_id : Z) (status : string) (w : World) (quote : Quote) :
  postgrest_answers w ->
  find_quote quote_id w = Some quote ->
  returns (update_quote quote_id {[ "status" := VStr status ]}) w
    (fun reply w' =>
       qr_success reply = true
       /\ qr_quote reply = Some (with_status status quote)
       /\ find_quote quote_id w' = Some (with_status status quote)
       /\ quotes w' = rows_updated quote_id (with_status status) (quotes w)
       /\ writes w' = writes w ++ [ReqPatch "quotes" quote_id]).
Proof.
  intros Hup Hfind. unfold returns, update_quote.
  assert (Hfiltered : filter (fun kv : string * value => kv.1 ∈ allowed_fields)
                             ({[ "status" := VStr status ]} : gmap string value)
                      = {[ "status" := VStr status ]}) by (vm_compute; reflexivity).
  rewrite Hfiltered.
  destruct (decide (({[ "status" := VStr status ]} : gmap string value) = ∅)) as [Hempty|_].
  { exfalso. apply (f_equal (fun m : gmap string value => m !! "status")) in Hempty.
    vm_compute in Hempty. discriminate Hempty. }
  rewrite recompute_without_items by (vm_compute; reflexivity).
  rewrite bind_lift_returned.
  pose proof (postgrest_patch_quotes_run quote_id {[ "status" := VStr status ]}
                (with_status status) w Hup) as Hpatch.
  specialize (Hpatch ltac:(intros q; vm_compute; reflexivity)).
  pose proof Hfind as Hfind'. unfold find_quote in Hfind'.
  destruct (filter_of_find _ _ _ Hfind') as [rest Hrows].
  rewrite Hrows in Hpatch. cbn [map] in Hpatch.
  eexists _, _. split.
  - apply reraise_returned. erewrite bind_returned by exact Hpatch. reflexivity.
  - cbn [qr_success qr_quote]. split; [reflexivity|]. split; [reflexivity|]. split; [|split].
    + unfold find_quote. cbn [quotes set_quotes].
      rewrite find_rows_updated by reflexivity. rewrite Hfind'. reflexivity.
    + reflexivity.
    + trace_simpl. reflexivity.
Qed.

(** [Q1] gets a status that is none of the seven, which the status tool
    refuses. *)
Lemma update_quote_sets_any_status_witness :
  ("archived" ∉ valid_statuses)
  /\ returns (update_quote 1 {[ "status" := VStr "archived" ]}) world_Q1_draft
       (fun reply w' =>
          qr_success reply = true
          /\ qr_quote reply = Some (with_status "archived" quote_Q1)
          /\ find_quote 1 w' = Some (with_status "archived" quote_Q1)
          /\ quotes w' = rows_updated 1 (with_status "archived") (quotes world_Q1_draft)
          /\ writes w' = writes world_Q1_draft ++ [ReqPatch "quotes" 1]).
Proof.
  split.
  - rewrite valid_status_cases. intros H. repeat destruct H as [H|H]; discriminate H.
  - exact (update_quote_sets_any_status 1 "archived" world_Q1_draft quote_Q1
             world_Q1_draft_answers eq_refl).
Defined.

(** X4: An update of a quote that is not in the store (through a gateway that
    answers) sends its patch, changes no row, and replies that the quote was
    not found. *)
Theorem update_quote_unknown_id
    (quote_id : Z) (updates body : gmap string value) (w : World) :
  postgrest_answers w ->
  find_quote quote_id w = None ->
  (exists k, k ∈ allowed_fields /\ is_Some (updates !! k)) ->
  recompute_amounts (filter (fun kv : string * value => kv.1 ∈ allowed_fields) updates)
  = Returned body ->
  update_quote quote_id updates w
  = (Returned quote_not_found, log (ReqPatch "quotes" quote_id) w).
Proof.
  intros Hup Hfind (k & Hk & Hsome) Hbody. unfold update_quote.
  destruct (decide (filter (fun kv : string * value => kv.1 ∈ allowed_fields) updates = ∅))
    as [Hempty|_].
  { exfalso. rewrite filtered_empty_iff in Hempty. rewrite (Hempty k Hk) in Hsome.
    now destruct Hsome. }
  rewrite Hbody, bind_lift_returned.
  apply reraise_returned. unfold postgrest_patch_quotes.
  unfold bind at 1.
  erewrite bind_returned by (apply postgrest_request_run; exact Hup).
  cbn [log quotes]. unfold find_quote in Hfind.
  rewrite (patch_rows_no_match quote_id body (quotes w) Hfind). reflexivity.
Qed.

Lemma update_quote_unknown_id_witness :
  update_quote 5 {[ "plan_name" := VStr "annual" ]} world_Q1_draft
  = (Returned quote_not_found, log (ReqPatch "quotes" 5) world_Q1_draft).
Proof.
  apply (update_quote_unknown_id 5 {[ "plan_name" := VStr "annual" ]}
           {[ "plan_name" := VStr "annual" ]} world_Q1_draft world_Q1_draft_answers).
  - reflexivity.
  - exists "plan_name". split; [in_list | vm_compute; eauto].
  - vm_compute. reflexivity.
Defined.

(** X5: The recomputation of the amounts is outside the [try] of [update_quote]:
    an update that carries a list of items and a discount that is no number
    ([None], a string) raises the [TypeError] of the subtraction as it is,
    not wrapped in the [Exception] of the tool, and nothing is sent. *)
Theorem update_quote_items_with_bad_discount
    (quote_id : Z) (updates : gmap string value) (items : list Item) (discount : value)
    (w : World) :
  updates !! "items" = Some (VItems items) ->
  updates !! "discount_amount" = Some discount ->
  is_number discount = false ->
  exists msg, update_quote quote_id updates w = (Raised (TypeError msg), w).
Proof.
  intros Hitems Hdiscount Hbad. unfold update_quote.
  destruct (decide (filter (fun kv : string * value => kv.1 ∈ allowed_fields) updates = ∅))
    as [Hempty|_].
  { exfalso. rewrite filtered_empty_iff in Hempty.
    rewrite (Hempty "items" allowed_items) in Hitems. discriminate Hitems. }
  rewrite (recompute_with_items _ items)
    by (rewrite filtered_lookup_allowed by exact allowed_items; exact Hitems).
  rewrite filtered_lookup_allowed by exact allowed_discount_amount.
  rewrite Hdiscount. cbn [from_option id].
  destruct discount; try discriminate Hbad; cbn [int_minus];
    rewrite bind_lift_raised; eauto.
Qed.

Lemma update_quote_items_with_bad_discount_witness :
  exists msg,
    update_quote 1 (<["discount_amount" := VNone]> {[ "items" := VItems [item_1000] ]})
                 world_Q1_draft
    = (Raised (TypeError msg), world_Q1_draft).
Proof.
  apply (update_quote_items_with_bad_discount 1 _ [item_1000] VNone world_Q1_draft);
    reflexivity.
Defined.

(** X6: An update that carries a list of items recomputes [subtotal] and
    [total_amount] from the items and from the discount of the update (0
    when it has none), whatever [subtotal] and [total_amount] the caller put
    in the update: these two are overwritten.  The row that comes back has
    the items, the sum of their amounts as subtotal, and that sum minus the
    discount as total. *)
Theorem update_quote_items_override_amounts
    (quote_id : Z) (updates : gmap string value) (items : list Item) (discount : option Z)
    (w w' : World) (reply : QuoteReply) :
  updates !! "items" = Some (VItems items) ->
  updates !! "discount_amount" = VInt <$> discount ->
  update_quote quote_id updates w = (Returned reply, w') ->
  qr_success reply = true ->
  exists quote,
    qr_quote reply = Some quote
    /\ q_id quote = quote_id
    /\ q_items quote = VItems items
    /\ q_subtotal quote = Some (amounts_total items)
    /\ q_total_amount quote = Some (amounts_total items - default 0 discount)
    /\ (forall d, discount = Some d -> q_discount_amount quote = Some d).
Proof.
  intros Hitems Hdiscount Hrun Hok. unfold update_quote in Hrun.
  destruct (decide (filter (fun kv : string * value => kv.1 ∈ allowed_fields) updates = ∅))
    as [Hempty|_]; [discriminate Hrun|].
  rewrite (recompute_with_items _ items) in Hrun
    by (rewrite filtered_lookup_allowed by exact allowed_items; exact Hitems).
  rewrite filtered_lookup_allowed in Hrun by exact allowed_discount_amount.
  rewrite Hdiscount in Hrun.
  assert (Hminus : int_minus (sum_amounts items) (default (VInt 0) (VInt <$> discount))
                   = Returned (VInt (sum_amounts items - default 0 discount))).
  { destruct discount; reflexivity. }
  rewrite Hminus, bind_lift_returned in Hrun.
  apply reraise_inv in Hrun.
  set (filtered := filter (fun kv : string * value => kv.1 ∈ allowed_fields) updates) in *.
  set (body := <["items" := VItems items]>
                 (<["total_amount" := VInt (sum_amounts items - default 0 discount)]>
                    (<["subtotal" := VInt (sum_amounts items)]> filtered))) in *.
  unfold bind at 1 in Hrun. unfold postgrest_patch_quotes, bind, postgrest_request in Hrun.
  destruct (postgrest_fault w (length (data_requests w))); [discriminate Hrun|].
  cbn [log quotes] in Hrun.
  destruct (patch_rows quote_id body (quotes w)) as [[rows hit]|] eqn:Hrows;
    [|discriminate Hrun].
  destruct (patch_rows_inv _ _ _ _ _ Hrows) as [_ Hhit].
  destruct hit as [|quote hit]; cbn in Hrun; injection Hrun as <- <-;
    [discriminate Hok|].
  inversion Hhit as [|q0 ? rest0 ? Hpatch _ Hfilter]; subst.
  assert (Hq0 : q_id q0 = quote_id).
  { assert (Hin : In q0 (List.filter (fun q => q_id q =? quote_id) (quotes w)))
      by (rewrite <- Hfilter; now left).
    apply List.filter_In in Hin as [_ Hin]. now apply Z.eqb_eq in Hin. }
  destruct (patch_quote_inv body q0 quote Hpatch)
    as ((Hid & _ & _ & _ & Hjson) & (Hsub & Hdisc & Htotal & _) & _).
  assert (Hb_items : body !! "items" = Some (VItems items))
    by (subst body; apply lookup_insert_eq).
  assert (Hb_total : body !! "total_amount"
                     = Some (VInt (sum_amounts items - default 0 discount))).
  { subst body. rewrite lookup_insert_ne by discriminate. apply lookup_insert_eq. }
  assert (Hb_sub : body !! "subtotal" = Some (VInt (sum_amounts items))).
  { subst body. rewrite !lookup_insert_ne by discriminate. apply lookup_insert_eq. }
  assert (Hb_disc : body !! "discount_amount" = VInt <$> discount).
  { subst body. rewrite !lookup_insert_ne by discriminate. subst filtered.
    rewrite filtered_lookup_allowed by exact allowed_discount_amount. exact Hdiscount. }
  rewrite Hb_items in Hjson. rewrite Hb_sub in Hsub. rewrite Hb_total in Htotal.
  rewrite Hb_disc in Hdisc. cbn in Hjson, Hsub, Htotal.
  injection Hsub as Hsub. injection Htotal as Htotal.
  exists quote. cbn [qr_quote]. rewrite <- sum_amounts_total.
  repeat split; try congruence.
  intros d ->. cbn in Hdisc. congruence.
Qed.

(** The caller sends two items with a subtotal and a total of 1: the row
    gets the amounts of the items. *)
Lemma update_quote_items_override_amounts_witness :
  exists reply w',
    update_quote 1 update_with_wrong_totals world_Q1_draft = (Returned reply, w')
    /\ qr_success reply = true
    /\ exists quote,
         qr_quote reply = Some quote
         /\ q_id quote = 1
         /\ q_items quote = VItems [item_1000; item_1000]
         /\ q_subtotal quote = Some (amounts_total [item_1000; item_1000])
         /\ q_total_amount quote
            = Some (amounts_total [item_1000; item_1000] - default 0 (Some 250))
         /\ (forall d, Some 250 = Some d -> q_discount_amount quote = Some d).
Proof.
  eexists _, _. split; [vm_compute; reflexivity|]. split; [reflexivity|].
  eapply (update_quote_items_override_amounts 1 update_with_wrong_totals
            [item_1000; item_1000] (Some 250) world_Q1_draft);
    [vm_compute; reflexivity | vm_compute; reflexivity | vm_compute; reflexivity
    | reflexivity].
Defined.

Example update_with_wrong_totals_amounts :
  amounts_total [item_1000; item_1000] = 2000
  /\ (option_map q_total_amount
        (find_quote 1 (update_quote 1 update_with_wrong_totals world_Q1_draft).2))
     = Some (Some 1750).
Proof. vm_compute. split; reflexivity. Qed.

(** * Creating a quote, and reading or deleting it afterwards *)

(** One run of [create_quote] through a gateway that answers. *)
Lemma create_quote_run (a : CreateQuoteArgs) (w : World) :
  postgrest_answers w ->
  1 <= today w + cq_valid_days a <= MAXORDINAL ->
  exists message quote,
    create_quote a w
    = (Returned {| qr_success := true; qr_message := message;
                   qr_updated_fields := None; qr_quote := Some quote |},
       world_with_new_quote quote w)
    /\ q_id quote = next_quote_id w
    /\ q_status quote = Some "draft"
    /\ q_valid_from quote = Some (isoformat (today w))
    /\ q_valid_until quote = Some (isoformat (today w + cq_valid_days a))
    /\ lifecycle_blank quote.
Proof.
  intros Hup Hrange. unfold create_quote.
  rewrite bind_ask. unfold add_days.
  replace ((1 <=? today w + cq_valid_days a) && (today w + cq_valid_days a <=? MAXORDINAL))
    with true by (symmetry; apply andb_true_intro; split; apply Z.leb_le; lia).
  rewrite bind_lift_returned.
  eexists _, _. split.
  - apply reraise_returned.
    erewrite bind_returned by (apply postgrest_post_quotes_run; exact Hup). reflexivity.
  - unfold lifecycle_blank. repeat split; reflexivity.
Qed.

(** X7: [create_quote] (through a gateway that answers, and with a validity
    that ends on a day of the calendar) stores one more row and changes no
    other: the new quote has the next id of the store, is a [draft], is valid
    from today until [valid_days] days later (a negative [valid_days] is not
    refused), and none of its lifecycle marks is set.  One create is sent
    and no contract is touched. *)
Theorem create_quote_stores_fresh_draft (a : CreateQuoteArgs) (w : World) :
  postgrest_answers w ->
  1 <= today w + cq_valid_days a <= MAXORDINAL ->
  returns (create_quote a) w
    (fun reply w' =>
       exists quote,
         qr_success reply = true
         /\ qr_quote reply = Some quote
         /\ quotes w' = quotes w ++ [quote]
         /\ q_id quote = next_quote_id w
         /\ next_quote_id w' = next_quote_id w + 1
         /\ q_status quote = Some "draft"
         /\ q_valid_from quote = Some (isoformat (today w))
         /\ q_valid_until quote = Some (isoformat (today w + cq_valid_days a))
         /\ lifecycle_blank quote
         /\ writes w' = writes w ++ [ReqPost "quotes"]
         /\ contracts w' = contracts w).
Proof.
  intros Hup Hrange.
  destruct (create_quote_run a w Hup Hrange)
    as (message & quote & Hrun & Hid & Hstatus & Hfrom & Huntil & Hblank).
  eexists _, _. split; [exact Hrun|]. exists quote.
  unfold world_with_new_quote. trace_simpl. cbn [qr_success qr_quote].
  repeat split; try assumption; try reflexivity; apply Hblank.
Qed.

(** A quote created on 1 January 2024 with a validity of -5 days. *)
Lemma create_quote_stores_fresh_draft_witness :
  postgrest_answers blank_world
  /\ returns (create_quote (with_valid_days (-5) Q1_args)) blank_world
       (fun reply w' =>
          exists quote,
            qr_success reply = true
            /\ qr_quote reply = Some quote
            /\ quotes w' = quotes blank_world ++ [quote]
            /\ q_id quote = next_quote_id blank_world
            /\ next_quote_id w' = next_quote_id blank_world + 1
            /\ q_status quote = Some "draft"
            /\ q_valid_from quote = Some (isoformat (today blank_world))
            /\ q_valid_until quote
               = Some (isoformat (today blank_world
                                  + cq_valid_days (with_valid_days (-5) Q1_args)))
            /\ lifecycle_blank quote
            /\ writes w' = writes blank_world ++ [ReqPost "quotes"]
            /\ contracts w' = contracts blank_world).
Proof.
  split; [exact blank_world_answers|].
  apply (create_quote_stores_fresh_draft (with_valid_days (-5) Q1_args) blank_world
           blank_world_answers).
  vm_compute. split; discriminate.
Defined.

Example create_quote_already_expired :
  isoformat (today blank_world) = "2024-01-01"
  /\ isoformat (today blank_world + cq_valid_days (with_valid_days (-5) Q1_args))
     = "2023-12-27".
Proof. vm_compute. split; reflexivity. Qed.

(** X8: The end of the validity is computed outside the [try] of
    [create_quote]: when [valid_days] days from today is no day of the
    calendar (years 1 to 9999), the [OverflowError] of the date arithmetic
    comes out as it is, not wrapped in the [Exception] of the tool, and
    nothing is sent. *)
Theorem create_quote_validity_out_of_range (a : CreateQuoteArgs) (w : World) :
  ~ (1 <= today w + cq_valid_days a <= MAXORDINAL) ->
  exists msg, create_quote a w = (Raised (OverflowError msg), w).
Proof.
  intros Hrange. unfold create_quote. rewrite bind_ask. unfold add_days.
  replace ((1 <=? today w + cq_valid_days a) && (today w + cq_valid_days a <=? MAXORDINAL))
    with false.
  - rewrite bind_lift_raised. eauto.
  - symmetry. apply andb_false_iff.
    destruct (Z.leb_spec 1 (today w + cq_valid_days a)); [|now left].
    right. apply Z.leb_gt. lia.
Qed.

Lemma create_quote_validity_out_of_range_witness :
  exists msg,
    create_quote (with_valid_days 3000000 Q1_args) blank_world
    = (Raised (OverflowError msg), blank_world).
Proof.
  apply (create_quote_validity_out_of_range (with_valid_days 3000000 Q1_args) blank_world).
  vm_compute. intros [_ H]. apply H. reflexivity.
Defined.

Lemma postgrest_answers_new_quote (quote : Quote) (w : World) :
  postgrest_answers w -> postgrest_answers (world_with_new_quote quote w).
Proof. intros H. exact H. Qed.

Lemma rows_of_new_quote (quote : Quote) (w : World) :
  q_id quote = next_quote_id w ->
  find_quote (next_quote_id w) w = None ->
  List.filter (fun q => q_id q =? next_quote_id w) (quotes (world_with_new_quote quote w))
  = [quote].
Proof.
  intros Hid Hfresh. cbn [world_with_new_quote set_quotes quotes].
  rewrite List.filter_app. unfold find_quote in Hfresh.
  rewrite (filter_of_find_none _ _ Hfresh). cbn. now rewrite Hid, Z.eqb_refl.
Qed.

(** X9: Create, then delete: a quote that was just created (its id is new to the
    store) is a draft, so [delete_quote] removes it, and the table of quotes
    is what it was before the creation.  The id is not given again: the next
    id of the store stays one further. *)
Theorem create_then_delete_restores_quotes (a : CreateQuoteArgs) (w : World) :
  postgrest_answers w ->
  1 <= today w + cq_valid_days a <= MAXORDINAL ->
  find_quote (next_quote_id w) w = None ->
  exists reply w1,
    create_quote a w = (Returned reply, w1)
    /\ returns (delete_quote (next_quote_id w)) w1
         (fun reply2 w2 =>
            qr_success reply2 = true
            /\ quotes w2 = quotes w
            /\ contracts w2 = contracts w
            /\ next_quote_id w2 = next_quote_id w + 1
            /\ writes w2 = writes w ++ [ReqPost "quotes"; ReqDelete "quotes" (next_quote_id w)]).
Proof.
  intros Hup Hrange Hfresh.
  destruct (create_quote_run a w Hup Hrange)
    as (message & quote & Hrun & Hid & Hstatus & _).
  eexists _, _. split; [exact Hrun|].
  pose proof (postgrest_answers_new_quote quote w Hup) as Hup1.
  unfold returns, delete_quote. eexists _, _. split.
  - apply reraise_returned.
    erewrite bind_returned by (apply postgrest_get_quotes_run; exact Hup1).
    rewrite (rows_of_new_quote quote w Hid Hfresh).
    rewrite bool_decide_eq_true_2 by exact Hstatus. cbn [negb].
    erewrite bind_returned by (apply postgrest_delete_quotes_run; exact Hup1).
    reflexivity.
  - cbn [qr_success]. split; [reflexivity|]. split; [|split; [|split]].
    + cbn [quotes set_quotes log world_with_new_quote].
      rewrite List.filter_app. cbn [List.filter].
      rewrite Hid, Z.eqb_refl. cbn [negb]. rewrite app_nil_r.
      apply filter_negb_of_find_none. exact Hfresh.
    + reflexivity.
    + reflexivity.
    + unfold world_with_new_quote. trace_simpl. now rewrite <- app_assoc.
Qed.

Lemma create_then_delete_restores_quotes_witness :
  postgrest_answers blank_world
  /\ exists reply w1,
       create_quote Q1_args blank_world = (Returned reply, w1)
       /\ returns (delete_quote (next_quote_id blank_world)) w1
            (fun reply2 w2 =>
               qr_success reply2 = true
               /\ quotes w2 = quotes blank_world
               /\ contracts w2 = contracts blank_world
               /\ next_quote_id w2 = next_quote_id blank_world + 1
               /\ writes w2
                  = writes blank_world
                    ++ [ReqPost "quotes"; ReqDelete "quotes" (next_quote_id blank_world)]).
Proof.
  split; [exact blank_world_answers|].
  apply (create_then_delete_restores_quotes Q1_args blank_world blank_world_answers).
  - vm_compute. split; discriminate.
  - reflexivity.
Defined.

(** What [get_quote] reads through a gateway that answers: the first row with
    the id, if there is one, with the flag the view computes for it. *)
Lemma get_quote_run (is_expired : Quote -> bool) (quote_id : Z) (w : World) :
  postgrest_answers w ->
  get_quote is_expired quote_id w
  = (Returned match find_quote quote_id w with
              | Some quote =>
                  {| ql_found := true; ql_message := None;
                     ql_quote := Some {| qv_quote := quote;
                                         qv_is_expired := is_expired quote |} |}
              | None =>
                  {| ql_found := false; ql_message := Some "找不到報價單"; ql_quote := None |}
              end,
     log (ReqGet "v_quotes") w).
Proof.
  intros Hup. unfold get_quote. apply reraise_returned.
  erewrite bind_returned by (apply postgrest_get_quotes_run; exact Hup).
  unfold find_quote. rewrite <- find_head_filter.
  destruct (List.filter _ _); reflexivity.
Qed.

(** X10: Create, then read: [get_quote] with the id of a quote that was just
    created (an id new to the store) finds it.  What it returns is the row
    of the view, not the row of the table the creation returned: the columns
    of the table are in it with the values the creation returned, and beside
    them stands the flag [is_expired] as the view computes it for that row.
    Reading writes nothing. *)
Theorem create_then_get_quote (is_expired : Quote -> bool) (a : CreateQuoteArgs) (w : World) :
  postgrest_answers w ->
  1 <= today w + cq_valid_days a <= MAXORDINAL ->
  find_quote (next_quote_id w) w = None ->
  exists reply w1 quote,
    create_quote a w = (Returned reply, w1)
    /\ qr_quote reply = Some quote
    /\ returns (get_quote is_expired (q_id quote)) w1
         (fun found w2 =>
            ql_found found = true
            /\ ql_message found = None
            /\ qv_quote <$> ql_quote found = Some quote
            /\ qv_is_expired <$> ql_quote found = Some (is_expired quote)
            /\ quotes w2 = quotes w1
            /\ writes w2 = writes w1).
Proof.
  intros Hup Hrange Hfresh.
  destruct (create_quote_run a w Hup Hrange)
    as (message & quote & Hrun & Hid & _).
  eexists _, _, quote. split; [exact Hrun|]. split; [reflexivity|].
  pose proof (postgrest_answers_new_quote quote w Hup) as Hup1.
  eexists _, _. split; [apply get_quote_run; exact Hup1|].
  assert (Hfind : find_quote (q_id quote) (world_with_new_quote quote w) = Some quote).
  { unfold find_quote. rewrite <- find_head_filter, Hid.
    now rewrite (rows_of_new_quote quote w Hid Hfresh). }
  rewrite Hfind. trace_simpl. repeat split; reflexivity.
Qed.

(** The first quote of an empty store, read back through a view that flags
    every row as expired. *)
Lemma create_then_get_quote_witness :
  postgrest_answers blank_world
  /\ exists reply w1 quote,
       create_quote Q1_args blank_world = (Returned reply, w1)
       /\ qr_quote reply = Some quote
       /\ returns (get_quote (fun _ => true) (q_id quote)) w1
            (fun found w2 =>
               ql_found found = true
               /\ ql_message found = None
               /\ qv_quote <$> ql_quote found = Some quote
               /\ qv_is_expired <$> ql_quote found = Some true
               /\ quotes w2 = quotes w1
               /\ writes w2 = writes w1).
Proof.
  split; [exact blank_world_answers|].
  apply (create_then_get_quote (fun _ => true) Q1_args blank_world blank_world_answers).
  - vm_compute. split; discriminate.
  - reflexivity.
Defined.

(** A quote that is not in the store is reported as not found. *)
Example get_quote_missing :
  get_quote (fun _ => false) 9 world_Q1_draft
  = (Returned {| ql_found := false; ql_message := Some "找不到報價單"; ql_quote := None |},
     log (ReqGet "v_quotes") world_Q1_draft).
Proof. vm_compute. reflexivity. Qed.

(** * The lifecycle of a quote: status updates and conversion together *)

(** One status update of a stored quote through a gateway that answers. *)
Lemma update_quote_status_run (quote_id : Z) (status : string) (notes : option string)
    (w : World) (quote : Quote) :
  postgrest_answers w ->
  status ∈ valid_statuses ->
  find_quote quote_id w = Some quote ->
  update_quote_status quote_id status notes w
  = (Returned {| qr_success := true;
                 qr_message := "報價單狀態已更新為 " +:+ status;
                 qr_updated_fields := None;
                 qr_quote := Some (stamped status notes (now_isoformat w) quote) |},
     set_quotes (rows_updated quote_id (stamped status notes (now_isoformat w)) (quotes w))
                (next_quote_id w) (log (ReqPatch "quotes" quote_id) w)).
Proof.
  intros Hup Hstatus Hfind. unfold update_quote_status.
  rewrite bool_decide_eq_true_2 by exact Hstatus. cbn [negb]. rewrite bind_ask.
  apply reraise_returned.
  erewrite bind_returned
    by (apply postgrest_patch_quotes_run with (f := stamped status notes (now_isoformat w));
        [exact Hup | intros q; apply patch_quote_stamped]).
  unfold find_quote in Hfind. destruct (filter_of_find _ _ _ Hfind) as [rest ->].
  reflexivity.
Qed.

Lemma find_quote_after_update (quote_id : Z) (f : Quote -> Quote) (w w0 : World)
    (quote : Quote) (n : Z) :
  (forall q, q_id (f q) = q_id q) ->
  find_quote quote_id w = Some quote ->
  find_quote quote_id (set_quotes (rows_updated quote_id f (quotes w)) n w0) = Some (f quote).
Proof.
  intros Hid Hfind. unfold find_quote in *. cbn [quotes set_quotes].
  rewrite find_rows_updated by exact Hid. now rewrite Hfind.
Qed.

Section LifecycleFacts.

Variable fromisoformat : string -> option Z.

(** X11: Status update, then conversion: after a status update to any of the
    statuses but [accepted], the conversion of the quote is refused with the
    message that names that status, whatever the caller passes, and it writes
    nothing: no contract is created and no row is changed. *)
Theorem conversion_refused_after_other_status
    (quote_id : Z) (status : string) (notes : option string) (a : ConvertArgs)
    (w : World) (quote : Quote) :
  postgrest_answers w ->
  find_quote quote_id w = Some quote ->
  status ∈ valid_statuses ->
  status <> "accepted" ->
  exists reply1 w1,
    update_quote_status quote_id status notes w = (Returned reply1, w1)
    /\ qr_success reply1 = true
    /\ exists w2,
         convert_quote_to_contract fromisoformat quote_id a w1
         = (Returned (ConvertFailure (msg_not_accepted (Some status))), w2)
         /\ writes w2 = writes w1
         /\ quotes w2 = quotes w1
         /\ contracts w2 = contracts w.
Proof.
  intros Hup Hfind Hstatus Hother.
  eexists _, _. split; [exact (update_quote_status_run _ _ notes _ _ Hup Hstatus Hfind)|].
  split; [reflexivity|].
  set (w1 := set_quotes _ _ _).
  assert (Hup1 : postgrest_answers w1) by exact Hup.
  assert (Hfind1 : find_quote quote_id w1
                   = Some (stamped status notes (now_isoformat w) quote)).
  { subst w1. now apply find_quote_after_update. }
  eexists. split.
  - apply (convert_run_of_outcome fromisoformat _ _ _ _ _ Hup1).
    refine (OutcomeNotAccepted fromisoformat quote_id a w1 _ Hfind1 _).
    cbn. congruence.
  - trace_simpl. repeat split; reflexivity.
Qed.

(** X12: Accept, then convert: once a stored quote that was not converted yet is
    accepted, a conversion for which the caller gives the end date and the
    monthly rent succeeds.  The start date is then not read at all (any
    string goes into the contract), one contract is created in status
    [pending_sign] with the given end date and rent, and the quote ends up
    [converted], linked to the id of the new contract, with the timestamp of
    its acceptance kept. *)
Theorem accept_then_convert
    (quote_id : Z) (notes : option string) (a : ConvertArgs)
    (end_date : string) (monthly_rent : Z) (w : World) (quote : Quote) :
  postgrest_answers w ->
  find_quote quote_id w = Some quote ->
  truthy_int (q_converted_contract_id quote) = false ->
  end_date <> "" ->
  exists reply1 w1,
    update_quote_status quote_id "accepted" notes w = (Returned reply1, w1)
    /\ exists message summary quote_number w2 contract quote2,
         convert_quote_to_contract fromisoformat quote_id
           (with_terms end_date monthly_rent a) w1
         = (Returned (ConvertSuccess message summary quote_number), w2)
         /\ cs_id summary = next_contract_id w
         /\ cs_end_date summary = end_date
         /\ cs_monthly_rent summary = Some monthly_rent
         /\ contracts w2 = contracts w ++ [contract]
         /\ c_id contract = next_contract_id w
         /\ c_status contract = "pending_sign"
         /\ c_end_date contract = end_date
         /\ c_monthly_rent contract = Some monthly_rent
         /\ find_quote quote_id w2 = Some quote2
         /\ q_status quote2 = Some "converted"
         /\ q_converted_contract_id quote2 = Some (next_contract_id w)
         /\ q_responded_at quote2 = Some (now_isoformat w).
Proof.
  intros Hup Hfind Hunset Hend.
  assert (Hin : "accepted" ∈ valid_statuses) by (apply valid_status_cases; tauto).
  eexists _, _. split; [exact (update_quote_status_run _ _ notes _ _ Hup Hin Hfind)|].
  set (w1 := set_quotes _ _ _).
  set (accepted := stamped "accepted" notes (now_isoformat w) quote).
  assert (Hup1 : postgrest_answers w1) by exact Hup.
  assert (Hfind1 : find_quote quote_id w1 = Some accepted).
  { subst w1 accepted. now apply find_quote_after_update. }
  assert (Hable : convertible accepted) by (split; [reflexivity | exact Hunset]).
  set (a' := with_terms end_date monthly_rent a).
  assert (Hderived_end : derived_end_date fromisoformat a' accepted w1 = Some end_date).
  { unfold derived_end_date. cbn [a' with_terms cv_end_date truthy_str].
    destruct (String.eqb_spec end_date ""); [contradiction | reflexivity]. }
  assert (Hderived_rent : derived_monthly_rent a' accepted = Some (Some monthly_rent))
    by reflexivity.
  pose proof (convert_run_of_outcome fromisoformat quote_id a' w1 _ _ Hup1
                (OutcomeConverted fromisoformat quote_id a' w1 accepted end_date
                   (Some monthly_rent) Hfind1 Hable Hderived_end Hderived_rent)) as Hrun.
  eexists _, _, _, _, _, _. split; [exact Hrun|].
  cbn [cs_id cs_end_date cs_monthly_rent].
  split; [reflexivity|]. split; [reflexivity|]. split; [reflexivity|].
  split; [reflexivity|]. split; [reflexivity|]. split; [reflexivity|].
  split; [reflexivity|]. split; [reflexivity|]. split.
  - unfold converted_world. apply find_quote_after_update; [reflexivity | exact Hfind1].
  - repeat split; reflexivity.
Qed.

(** X13: Nothing compensates a conversion that fails half way.  When the gateway
    answers the read and the creation of the contract and fails on the patch
    of the quote, the tool raises its [Exception], the contract stays in the
    store, and the quote is as it was: accepted and not converted, so that
    nothing refuses a second conversion of it. *)
Theorem convert_patch_failure_is_not_compensated
    (quote_id : Z) (a : ConvertArgs) (w : World) (quote : Quote)
    (contract_end : string) (monthly_rent : option Z) (e : exn) :
  answers_at 0 w -> answers_at 1 w -> fails_at 2 e w ->
  find_quote quote_id w = Some quote ->
  convertible quote ->
  derived_end_date fromisoformat a quote w = Some contract_end ->
  derived_monthly_rent a quote = Some monthly_rent ->
  exists w',
    convert_quote_to_contract fromisoformat quote_id a w
    = (Raised (Exception_ ("報價單轉換失敗" +:+ ": " +:+ exn_message e)), w')
    /\ contracts w'
       = contracts w ++ [new_contract (contract_data_of a quote w contract_end monthly_rent) w]
    /\ next_contract_id w' = next_contract_id w + 1
    /\ quotes w' = quotes w
    /\ find_quote quote_id w' = Some quote.
Proof.
  intros H0 H1 H2 Hfind [Hacc Hunset] Hderived_end Hderived_rent.
  unfold convert_quote_to_contract.
  eexists. split.
  - apply reraise_raised.
    erewrite bind_returned by (apply postgrest_get_quotes_ok; exact H0).
    pose proof Hfind as Hfind'. unfold find_quote in Hfind'.
    destruct (filter_of_find _ _ _ Hfind') as [rest ->].
    rewrite bool_decide_eq_true_2 by exact Hacc. cbn [negb]. rewrite Hunset.
    rewrite bind_ask. change (today (log (ReqGet "v_quotes") w)) with (today w).
    rewrite or_else_or_str.
    change (match cv_start_date a with
            | Some s => if String.eqb s "" then
                          or_else (q_proposed_start_date quote) (isoformat (today w))
                        else s
            | None => or_else (q_proposed_start_date quote) (isoformat (today w))
            end) with (contract_start_of a quote w).
    assert (Hend :
      (if negb (truthy_str (cv_end_date a))
       then lift (derive_end_date fromisoformat (contract_start_of a quote w)
                    (q_contract_months quote))
       else ret (default "" (cv_end_date a))) = lift (Returned contract_end)).
    { destruct (truthy_str (cv_end_date a)) eqn:Hsupplied; cbn [negb].
      - unfold derived_end_date in Hderived_end. rewrite Hsupplied in Hderived_end.
        rewrite Hderived_end. reflexivity.
      - pose proof (derive_end_date_spec fromisoformat a quote w Hsupplied) as Hspec.
        rewrite Hderived_end in Hspec. now rewrite Hspec. }
    rewrite Hend, bind_lift_returned.
    assert (Hrent :
      match cv_monthly_rent a with
      | Some rent => ret (Some rent)
      | None => lift (derive_monthly_rent (q_total_amount quote) (q_contract_months quote))
      end = lift (Returned monthly_rent)).
    { destruct (cv_monthly_rent a) as [rent|] eqn:Hsupplied.
      - unfold derived_monthly_rent in Hderived_rent. rewrite Hsupplied in Hderived_rent.
        injection Hderived_rent as <-. reflexivity.
      - pose proof (derive_monthly_rent_spec a quote Hsupplied) as Hspec.
        rewrite Hderived_rent in Hspec. now rewrite Hspec. }
    rewrite Hrent, bind_lift_returned.
    erewrite bind_returned
      by (apply postgrest_post_contracts_ok; apply answers_at_log; [reflexivity | exact H1]).
    rewrite bind_ask.
    erewrite bind_raised; [reflexivity|].
    apply postgrest_patch_quotes_down.
    apply (fails_at_log (ReqPost "contracts") 0 e); [reflexivity|].
    apply (fails_at_log (ReqGet "v_quotes") 1 e); [reflexivity | exact H2].
  - repeat split; try reflexivity. exact Hfind.
Qed.

End LifecycleFacts.

(** The three status values next to [accepted] that a user may try first. *)
Lemma conversion_refused_after_other_status_witness :
  postgrest_answers world_Q1_draft
  /\ ("sent" ∈ valid_statuses)
  /\ exists reply1 w1,
       update_quote_status 1 "sent" None world_Q1_draft = (Returned reply1, w1)
       /\ qr_success reply1 = true
       /\ exists w2,
            convert_quote_to_contract parse_iso_date 1 no_overrides w1
            = (Returned (ConvertFailure (msg_not_accepted (Some "sent"))), w2)
            /\ writes w2 = writes w1
            /\ quotes w2 = quotes w1
            /\ contracts w2 = contracts world_Q1_draft.
Proof.
  assert (Hin : "sent" ∈ valid_statuses) by (apply valid_status_cases; tauto).
  split; [exact world_Q1_draft_answers|]. split; [exact Hin|].
  apply (conversion_refused_after_other_status parse_iso_date 1 "sent" None no_overrides
           world_Q1_draft quote_Q1 world_Q1_draft_answers eq_refl Hin).
  discriminate.
Defined.

(** [Q1] is accepted and converted with a start date that is no date. *)
Lemma accept_then_convert_witness :
  postgrest_answers world_Q1_draft
  /\ exists reply1 w1,
       update_quote_status 1 "accepted" None world_Q1_draft = (Returned reply1, w1)
       /\ exists message summary quote_number w2 contract quote2,
            convert_quote_to_contract parse_iso_date 1
              (with_terms "2024-12-31" 80 unreadable_start) w1
            = (Returned (ConvertSuccess message summary quote_number), w2)
            /\ cs_id summary = next_contract_id world_Q1_draft
            /\ cs_end_date summary = "2024-12-31"
            /\ cs_monthly_rent summary = Some 80
            /\ contracts w2 = contracts world_Q1_draft ++ [contract]
            /\ c_id contract = next_contract_id world_Q1_draft
            /\ c_status contract = "pending_sign"
            /\ c_end_date contract = "2024-12-31"
            /\ c_monthly_rent contract = Some 80
            /\ find_quote 1 w2 = Some quote2
            /\ q_status quote2 = Some "converted"
            /\ q_converted_contract_id quote2 = Some (next_contract_id world_Q1_draft)
            /\ q_responded_at quote2 = Some (now_isoformat world_Q1_draft).
Proof.
  split; [exact world_Q1_draft_answers|].
  apply (accept_then_convert parse_iso_date 1 None unreadable_start "2024-12-31" 80
           world_Q1_draft quote_Q1 world_Q1_draft_answers eq_refl eq_refl).
  discriminate.
Defined.

(** The start date that went into the contract of that conversion. *)
Example accept_then_convert_start_date :
  map c_start_date
      (contracts (convert_quote_to_contract parse_iso_date 1
                    (with_terms "2024-12-31" 80 unreadable_start) world_Q1_accepted).2)
  = ["next month"].
Proof. vm_compute. reflexivity. Qed.

(** The gateway fails on the fifth request the store of [Q1] sees, the patch
    of the conversion. *)
Lemma convert_patch_failure_is_not_compensated_witness :
  let w := gateway_fails_once 4 (Exception_ "Server error '503'") world_Q1_accepted in
  exists w',
    convert_quote_to_contract parse_iso_date 1 no_overrides w
    = (Raised (Exception_ ("報價單轉換失敗" +:+ ": "
                           +:+ exn_message (Exception_ "Server error '503'"))), w')
    /\ contracts w'
       = contracts w
         ++ [new_contract (contract_data_of no_overrides quote_Q1_accepted w
                             "2024-12-26" (Some 75)) w]
    /\ next_contract_id w' = next_contract_id w + 1
    /\ quotes w' = quotes w
    /\ find_quote 1 w' = Some quote_Q1_accepted.
Proof.
  apply (convert_patch_failure_is_not_compensated parse_iso_date 1 no_overrides
           (gateway_fails_once 4 (Exception_ "Server error '503'") world_Q1_accepted)
           quote_Q1_accepted "2024-12-26" (Some 75) (Exception_ "Server error '503'"));
    try (vm_compute; reflexivity).
  split; vm_compute; reflexivity.
Defined.

(** * Reminders and messages: refusals, deliveries, failures of the gateway *)

Lemma send_line_push_unconfigured (line_user_id text : string) (w : World) :
  LINE_CHANNEL_ACCESS_TOKEN w = "" ->
  send_line_push line_user_id text w = (Returned (line_failure "LINE Bot 未設定"), w).
Proof. intros H. unfold send_line_push. now rewrite H. Qed.

Lemma send_line_push_delivered (line_user_id text : string) (w : World) :
  LINE_CHANNEL_ACCESS_TOKEN w <> "" ->
  line_api w (length (pushes w)) = Responded 200 ->
  send_line_push line_user_id text w = (Returned line_ok, log (ReqPush line_user_id text) w).
Proof.
  intros Htoken Hapi. unfold send_line_push. rewrite Hapi.
  destruct (String.eqb_spec (LINE_CHANNEL_ACCESS_TOKEN w) ""); [contradiction | reflexivity].
Qed.

Lemma if_str_none (o : option string) : truthy_str o = false -> if_str o = None.
Proof. intros H. unfold if_str. now rewrite H. Qed.

Lemma if_str_truthy (o : option string) (s : string) :
  if_str o = Some s -> o = Some s /\ s <> "".
Proof.
  unfold if_str, truthy_str. destruct o as [t|]; [|discriminate].
  destruct (String.eqb_spec t ""); [discriminate|]. intros [= <-]. now split.
Qed.

(** ** The reminder of one payment *)

(** X14: A payment reminder for a payment that is not in the view, or whose
    customer has no LINE address ([None] or the empty string), is refused
    with a reply that says so, whatever the reminder type; nothing is pushed
    and nothing is written. *)
Theorem payment_reminder_refused_without_push
    (payment_id : Z) (reminder_type : string) (w : World) :
  postgrest_answers w ->
  match find_payment payment_id w with
  | Some payment => truthy_str (p_line_user_id payment) = false
  | None => True
  end ->
  send_payment_reminder payment_id reminder_type w
  = (Returned (line_failure
                 match find_payment payment_id w with
                 | Some payment => "客戶 " +:+ p_customer_name payment +:+ " 沒有綁定 LINE"
                 | None => "找不到付款記錄"
                 end),
     log (ReqGet "v_payments_due") w).
Proof.
  intros Hup Hcase. unfold send_payment_reminder. apply reraise_returned.
  erewrite bind_returned by (apply postgrest_get_payments_run; exact Hup).
  rewrite filter_payments_by_id.
  destruct (find_payment payment_id w) as [payment|] eqn:Hfind; unfold find_payment in Hfind.
  - destruct (filter_of_find _ _ _ Hfind) as [rest ->].
    rewrite (if_str_none _ Hcase). reflexivity.
  - rewrite (filter_of_find_none _ _ Hfind). reflexivity.
Qed.

Lemma payment_reminder_refused_without_push_witness :
  send_payment_reminder 99 "due" world_three_overdue
  = (Returned (line_failure "找不到付款記錄"), log (ReqGet "v_payments_due") world_three_overdue).
Proof.
  exact (payment_reminder_refused_without_push 99 "due" world_three_overdue
           world_three_overdue_answers I).
Defined.

(** The reminder of a payment that is in the view with an address, when the
    gateway answers the read (whatever it does later). *)
Lemma send_payment_reminder_ok (payment_id : Z) (reminder_type : string) (w : World)
    (payment : Payment) (line_user_id : string) :
  answers_at 0 w ->
  find_payment payment_id w = Some payment ->
  p_line_user_id payment = Some line_user_id ->
  line_user_id <> "" ->
  exists reply,
    send_payment_reminder payment_id reminder_type w
    = (Returned reply,
       if String.eqb (LINE_CHANNEL_ACCESS_TOKEN w) "" then log (ReqGet "v_payments_due") w
       else log (ReqPush line_user_id (payment_message reminder_type payment))
                (log (ReqGet "v_payments_due") w)).
Proof.
  intros Hup Hfind Haddr Hne. unfold send_payment_reminder.
  destruct (filter_of_find _ _ _ Hfind) as [rest Hrows].
  destruct (send_line_push_run line_user_id (payment_message reminder_type payment)
              (log (ReqGet "v_payments_due") w)) as (push & Hpush & _).
  change (LINE_CHANNEL_ACCESS_TOKEN (log (ReqGet "v_payments_due") w))
    with (LINE_CHANNEL_ACCESS_TOKEN w) in Hpush.
  destruct (lr_success push) eqn:Hsuccess; eexists;
    apply reraise_returned;
    (erewrite bind_returned by (apply postgrest_get_payments_ok; exact Hup));
    rewrite filter_payments_by_id, Hrows, (if_str_some _ _ Haddr Hne);
    (erewrite bind_returned by exact Hpush); rewrite Hsuccess; reflexivity.
Qed.

(** ** The reminder of a renewal *)

(** X15: A renewal reminder for a contract that is in the renewal view with a
    LINE address, sent through a channel that is configured and an endpoint
    that answers 200: the notice of the renewal is pushed to that address,
    and the reply is a success that carries the contract id as given and the
    days that remain as the view has them.  Nothing is written. *)
Theorem renewal_reminder_delivered
    (contract_id : Z) (w : World) (renewal : Renewal) (line_user_id : string) :
  postgrest_answers w ->
  find_renewal contract_id w = Some renewal ->
  r_line_user_id renewal = Some line_user_id ->
  line_user_id <> "" ->
  LINE_CHANNEL_ACCESS_TOKEN w <> "" ->
  line_api w (length (pushes w)) = Responded 200 ->
  send_renewal_reminder contract_id w
  = (Returned (renewal_sent contract_id renewal),
     log (ReqPush line_user_id (renewal_message renewal))
         (log (ReqGet "v_renewal_reminders") w)).
Proof.
  intros Hup Hfind Haddr Hne Htoken Hapi. unfold send_renewal_reminder.
  apply reraise_returned.
  erewrite bind_returned by (apply postgrest_get_renewals_run; exact Hup).
  unfold find_renewal in Hfind. destruct (filter_of_find _ _ _ Hfind) as [rest ->].
  rewrite (if_str_some _ _ Haddr Hne).
  erewrite bind_returned.
  2: { apply send_line_push_delivered; [exact Htoken|].
       rewrite pushes_log. cbn [is_push]. rewrite app_nil_r. exact Hapi. }
  reflexivity.
Qed.

Lemma renewal_reminder_delivered_witness :
  send_renewal_reminder 7 world_renewals
  = (Returned (renewal_sent 7 renewal_chen),
     log (ReqPush "U-chen" (renewal_message renewal_chen))
         (log (ReqGet "v_renewal_reminders") world_renewals)).
Proof.
  apply (renewal_reminder_delivered 7 world_renewals renewal_chen "U-chen");
    try reflexivity; try discriminate.
  intros n. reflexivity.
Defined.

(** The notice of that reminder: five days remain, so it is an urgent one. *)
Example renewal_chen_notice :
  lr_days_remaining (renewal_sent 7 renewal_chen) = Some 5
  /\ renewal_urgency (r_days_remaining renewal_chen) = "⚠️ 緊急"
  /\ String.prefix "⚠️ 緊急 續約通知" (renewal_message renewal_chen) = true.
Proof. vm_compute. repeat split; reflexivity. Qed.

(** X16: A renewal reminder pushes nothing and fails with a reply that says why,
    without the contract id, in three cases: the contract is not in the
    renewal view, its customer has no LINE address, or the channel has no
    token.  In none of them anything is written. *)
Theorem renewal_reminder_refused_without_push (contract_id : Z) (w : World) :
  postgrest_answers w ->
  match find_renewal contract_id w with
  | Some renewal =>
      truthy_str (r_line_user_id renewal) = false \/ LINE_CHANNEL_ACCESS_TOKEN w = ""
  | None => True
  end ->
  send_renewal_reminder contract_id w
  = (Returned (line_failure
                 match find_renewal contract_id w with
                 | Some renewal =>
                     if truthy_str (r_line_user_id renewal) then "LINE Bot 未設定"
                     else "客戶 " +:+ r_customer_name renewal +:+ " 沒有綁定 LINE"
                 | None => "找不到合約或合約不在續約提醒範圍內"
                 end),
     log (ReqGet "v_renewal_reminders") w).
Proof.
  intros Hup Hcase. unfold send_renewal_reminder. apply reraise_returned.
  erewrite bind_returned by (apply postgrest_get_renewals_run; exact Hup).
  destruct (find_renewal contract_id w) as [renewal|] eqn:Hfind; unfold find_renewal in Hfind.
  - destruct (filter_of_find _ _ _ Hfind) as [rest ->].
    destruct (truthy_str (r_line_user_id renewal)) eqn:Haddr.
    + destruct Hcase as [Hcase|Htoken]; [discriminate Hcase|].
      unfold if_str. rewrite Haddr.
      destruct (r_line_user_id renewal) as [line_user_id|]; [|discriminate Haddr].
      erewrite bind_returned by (apply send_line_push_unconfigured; exact Htoken).
      reflexivity.
    + rewrite (if_str_none _ Haddr). reflexivity.
  - rewrite (filter_of_find_none _ _ Hfind). reflexivity.
Qed.

Lemma renewal_reminder_refused_without_push_witness :
  send_renewal_reminder 8 world_renewals
  = (Returned (line_failure
                 match find_renewal 8 world_renewals with
                 | Some renewal =>
                     if truthy_str (r_line_user_id renewal) then "LINE Bot 未設定"
                     else "客戶 " +:+ r_customer_name renewal +:+ " 沒有綁定 LINE"
                 | None => "找不到合約或合約不在續約提醒範圍內"
                 end),
     log (ReqGet "v_renewal_reminders") world_renewals).
Proof.
  apply (renewal_reminder_refused_without_push 8 world_renewals).
  - intros n. reflexivity.
  - left. reflexivity.
Defined.

Example renewal_reminder_refusals :
  (send_renewal_reminder 8 world_renewals).1
  = Returned (line_failure "客戶 Lin 沒有綁定 LINE")
  /\ (send_renewal_reminder 9 world_renewals).1
     = Returned (line_failure "找不到合約或合約不在續約提醒範圍內")
  /\ (send_renewal_reminder 7 (without_channel world_renewals)).1
     = Returned (line_failure "LINE Bot 未設定").
Proof. vm_compute. repeat split; reflexivity. Qed.

(** ** A plain message to a customer *)

Section PlainMessageFacts.

Variable customers : list Customer.

Lemma postgrest_get_customers_run (customer_id : Z) (w : World) :
  postgrest_answers w ->
  postgrest_get_customers customers customer_id w
  = (Returned (List.filter (fun c => cu_id c =? customer_id) customers),
     log (ReqGet "customers") w).
Proof.
  intros H. unfold postgrest_get_customers.
  erewrite bind_returned by (apply postgrest_request_run; exact H). reflexivity.
Qed.

(** X17: [send_line_message] through a gateway that answers never raises and
    never writes.  It pushes at most once: to the address of the customer,
    with the text exactly as the caller gave it, when the customer exists,
    has an address and the channel is configured; its reply is then a
    success exactly when the endpoint delivered the push.  In every other
    case nothing is pushed and the reply is a failure that says why. *)
Theorem send_line_message_pushes_the_text
    (customer_id : Z) (message : string) (w : World) :
  postgrest_answers w ->
  returns (send_line_message customers customer_id message) w
    (fun reply w' =>
       writes w' = writes w
       /\ match find_customer customer_id customers with
          | None => reply = line_failure "找不到客戶" /\ pushes w' = pushes w
          | Some customer =>
              match if_str (cu_line_user_id customer) with
              | None =>
                  reply = line_failure ("客戶 " +:+ cu_name customer +:+ " 沒有綁定 LINE")
                  /\ pushes w' = pushes w
              | Some line_user_id =>
                  if String.eqb (LINE_CHANNEL_ACCESS_TOKEN w) "" then
                    reply = line_failure "LINE Bot 未設定" /\ pushes w' = pushes w
                  else
                    pushes w' = pushes w ++ [ReqPush line_user_id message]
                    /\ lr_success reply = delivered w (length (pushes w))
                    /\ (lr_success reply = true -> reply = message_sent customer)
                    /\ (lr_success reply = false -> exists error, reply = line_failure error)
              end
          end).
Proof.
  intros Hup. unfold returns, send_line_message.
  destruct (find_customer customer_id customers) as [customer|] eqn:Hfind;
    unfold find_customer in Hfind.
  2: { eexists _, _. split.
       - apply reraise_returned.
         erewrite bind_returned by (apply postgrest_get_customers_run; exact Hup).
         rewrite (filter_of_find_none _ _ Hfind). reflexivity.
       - trace_simpl. repeat split; reflexivity. }
  destruct (filter_of_find _ _ _ Hfind) as [rest Hrows].
  destruct (if_str (cu_line_user_id customer)) as [line_user_id|] eqn:Haddr.
  2: { eexists _, _. split.
       - apply reraise_returned.
         erewrite bind_returned by (apply postgrest_get_customers_run; exact Hup).
         rewrite Hrows, Haddr. reflexivity.
       - trace_simpl. repeat split; reflexivity. }
  destruct (send_line_push_run line_user_id message (log (ReqGet "customers") w))
    as (push & Hpush & Hok & Hyes & Hno).
  rewrite pushes_log in Hok. cbn [is_push] in Hok. rewrite app_nil_r in Hok.
  change (LINE_CHANNEL_ACCESS_TOKEN (log (ReqGet "customers") w))
    with (LINE_CHANNEL_ACCESS_TOKEN w) in Hpush.
  change (delivered (log (ReqGet "customers") w)) with (delivered w) in Hok.
  destruct (lr_success push) eqn:Hsuccess.
  - eexists _, _. split.
    + apply reraise_returned.
      erewrite bind_returned by (apply postgrest_get_customers_run; exact Hup).
      rewrite Hrows, Haddr. erewrite bind_returned by exact Hpush.
      rewrite Hsuccess. reflexivity.
    + destruct (String.eqb_spec (LINE_CHANNEL_ACCESS_TOKEN w) "") as [Hnone|Hconf].
      * exfalso. rewrite (delivered_unconfigured w _ Hnone) in Hok. discriminate Hok.
      * trace_simpl. cbn [lr_success].
        repeat split; try reflexivity; try assumption; try discriminate.
  - eexists _, _. split.
    + apply reraise_returned.
      erewrite bind_returned by (apply postgrest_get_customers_run; exact Hup).
      rewrite Hrows, Haddr. erewrite bind_returned by exact Hpush.
      rewrite Hsuccess. reflexivity.
    + destruct (String.eqb_spec (LINE_CHANNEL_ACCESS_TOKEN w) "") as [Hnone|Hconf].
      * trace_simpl. split; [reflexivity|]. split; [|reflexivity].
        pose proof (send_line_push_unconfigured line_user_id message
                      (log (ReqGet "customers") w) Hnone) as Hpush'.
        rewrite Hpush in Hpush'. now injection Hpush' as ->.
      * trace_simpl. rewrite Hsuccess.
        split; [reflexivity|]. split; [reflexivity|]. split; [exact Hok|].
        split; [discriminate|]. intros _. now apply Hno.
Qed.

End PlainMessageFacts.

Lemma send_line_message_pushes_the_text_witness :
  postgrest_answers blank_world
  /\ returns (send_line_message customers_two 3 "您好") blank_world
       (fun reply w' =>
          writes w' = writes blank_world
          /\ match find_customer 3 customers_two with
             | None => reply = line_failure "找不到客戶" /\ pushes w' = pushes blank_world
             | Some customer =>
                 match if_str (cu_line_user_id customer) with
                 | None =>
                     reply = line_failure ("客戶 " +:+ cu_name customer +:+ " 沒有綁定 LINE")
                     /\ pushes w' = pushes blank_world
                 | Some line_user_id =>
                     if String.eqb (LINE_CHANNEL_ACCESS_TOKEN blank_world) "" then
                       reply = line_failure "LINE Bot 未設定" /\ pushes w' = pushes blank_world
                     else
                       pushes w' = pushes blank_world ++ [ReqPush line_user_id "您好"]
                       /\ lr_success reply = delivered blank_world (length (pushes blank_world))
                       /\ (lr_success reply = true -> reply = message_sent customer)
                       /\ (lr_success reply = false ->
                           exists error, reply = line_failure error)
                 end
             end).
Proof.
  split; [exact blank_world_answers|].
  exact (send_line_message_pushes_the_text customers_two 3 "您好" blank_world
           blank_world_answers).
Defined.

Example send_line_message_runs :
  send_line_message customers_two 3 "您好" blank_world
  = (Returned {| lr_success := true; lr_message := Some "已發送訊息給 Chen";
                 lr_error := None; lr_payment_id := None; lr_reminder_type := None;
                 lr_contract_id := None; lr_days_remaining := None |},
     log (ReqPush "U-chen" "您好") (log (ReqGet "customers") blank_world))
  /\ (send_line_message customers_two 4 "您好" blank_world).1
     = Returned (line_failure "客戶 Lin 沒有綁定 LINE")
  /\ (send_line_message customers_two 5 "您好" blank_world).1
     = Returned (line_failure "找不到客戶").
Proof. vm_compute. repeat split; reflexivity. Qed.

(** * Bulk runs: a channel that is not configured, a gateway that fails *)

Lemma dispatches_unconfigured_all_missed (w : World) (k : nat) (candidates : list Payment) :
  LINE_CHANNEL_ACCESS_TOKEN w = "" ->
  reached (dispatches w k candidates) = []
  /\ missed (dispatches w k candidates) = candidates.
Proof.
  intros Htoken. revert k. unfold reached, missed.
  induction candidates as [|p rest IH]; intros k; cbn [dispatches]; [now split|].
  cbn [List.filter snd]. rewrite (delivered_unconfigured w k Htoken). cbn [negb map fst].
  destruct (IH (S k)) as [Hreached Hmissed]. split; [exact Hreached | now rewrite Hmissed].
Qed.

(** X18: A live bulk run over a channel that has no token (through a gateway that
    answers, over a view with distinct payment ids) sends nothing and does
    not raise: it reads every candidate again, counts every candidate with
    an address as failed, and names them all in its error list, in order.
    The dry run of the same call announces the same number as
    [would_send]. *)
Theorem bulk_run_without_channel (branch_id : option Z) (urgency : string) (w : World) :
  postgrest_answers w ->
  NoDup (map p_id (v_payments_due w)) ->
  LINE_CHANNEL_ACCESS_TOKEN w = "" ->
  let candidates := with_address (due_candidates branch_id urgency w) in
  returns (send_bulk_payment_reminders branch_id urgency false) w
    (fun reply w' =>
       exists errors,
         reply = Live 0 (Z.of_nat (length candidates)) errors
         /\ map be_payment_id (default [] errors) = map p_id candidates
         /\ pushes w' = pushes w
         /\ writes w' = writes w)
  /\ returns (send_bulk_payment_reminders branch_id urgency true) w
       (fun reply w' =>
          exists total_payments total_amount,
            reply = DryRun total_payments (length candidates) (length candidates) total_amount).
Proof.
  intros Hup Hnodup Htoken candidates. split.
  - unfold returns, send_bulk_payment_reminders.
    assert (Hcands : forall p, In p candidates ->
                               In p (v_payments_due w) /\ has_line p = true).
    { intros p Hp. subst candidates. unfold with_address in Hp.
      apply List.filter_In in Hp as [Hp Hline]. split; [|exact Hline].
      unfold due_candidates in Hp. now apply List.filter_In in Hp as [Hp _]. }
    destruct (bulk_loop_run w Hnodup candidates (log (ReqGet "v_payments_due") w)
                0%nat 0 0 [] Hcands Hup eq_refl eq_refl eq_refl)
      as (more & w' & Hloop & Hids & Hpushes & Hwrites).
    { intros Hconf. contradiction. }
    destruct (dispatches_unconfigured_all_missed w 0 candidates Htoken) as [Hreached Hmissed].
    rewrite Hreached, Hmissed in Hloop. rewrite Hmissed in Hids.
    rewrite Htoken in Hpushes. cbn [String.eqb] in Hpushes.
    rewrite pushes_log in Hpushes. cbn [is_push] in Hpushes. rewrite !app_nil_r in Hpushes.
    rewrite writes_log in Hwrites. cbn [is_write] in Hwrites. rewrite app_nil_r in Hwrites.
    eexists _, w'. split.
    + apply reraise_returned.
      erewrite bind_returned by (apply postgrest_get_payments_run; exact Hup).
      rewrite bulk_params_candidates.
      fold (with_address (due_candidates branch_id urgency w)). fold candidates.
      erewrite bind_returned by exact Hloop. reflexivity.
    + exists (match more with [] => None | _ :: _ => Some more end).
      split; [reflexivity|]. split; [|split; assumption].
      rewrite <- Hids. now destruct more.
  - unfold returns, send_bulk_payment_reminders. eexists _, _. split.
    + apply reraise_returned.
      erewrite bind_returned by (apply postgrest_get_payments_run; exact Hup).
      rewrite bulk_params_candidates. reflexivity.
    + eexists _, _. reflexivity.
Qed.

Lemma without_channel_answers (w : World) :
  postgrest_answers w -> postgrest_answers (without_channel w).
Proof. intros H. exact H. Qed.

Lemma bulk_run_without_channel_witness :
  let w := without_channel world_three_overdue in
  let candidates := with_address (due_candidates None "overdue" w) in
  returns (send_bulk_payment_reminders None "overdue" false) w
    (fun reply w' =>
       exists errors,
         reply = Live 0 (Z.of_nat (length candidates)) errors
         /\ map be_payment_id (default [] errors) = map p_id candidates
         /\ pushes w' = pushes w
         /\ writes w' = writes w)
  /\ returns (send_bulk_payment_reminders None "overdue" true) w
       (fun reply w' =>
          exists total_payments total_amount,
            reply = DryRun total_payments (length candidates) (length candidates) total_amount).
Proof.
  exact (bulk_run_without_channel None "overdue" (without_channel world_three_overdue)
           (without_channel_answers _ world_three_overdue_answers)
           three_overdue_distinct eq_refl).
Defined.

Example bulk_run_without_channel_counts :
  (send_bulk_payment_reminders None "overdue" false (without_channel world_three_overdue)).1
  = Returned (Live 0 3
                (Some [ {| be_payment_id := 11; be_customer := "Chen";
                           be_error := Some "LINE Bot 未設定" |};
                        {| be_payment_id := 12; be_customer := "Lin";
                           be_error := Some "LINE Bot 未設定" |};
                        {| be_payment_id := 13; be_customer := "Wang";
                           be_error := Some "LINE Bot 未設定" |} ])).
Proof. vm_compute. reflexivity. Qed.

(** The loop of a live run when the gateway answers the reads for the
    candidates [pre] and fails on the read for the next one. *)
Lemma bulk_loop_aborts (w0 : World) (e : exn) :
  NoDup (map p_id (v_payments_due w0)) ->
  forall (pre : list Payment) (p : Payment) (post : list Payment) (w : World)
         (sent_count failed_count : Z) (errors : list BulkError),
    (forall q, In q (pre ++ p :: post) -> In q (v_payments_due w0) /\ has_line q = true) ->
    v_payments_due w = v_payments_due w0 ->
    (forall i, (i < length pre)%nat -> answers_at i w) ->
    fails_at (length pre) e w ->
    exists w',
      bulk_loop (pre ++ p :: post) sent_count failed_count errors w
      = (Raised (Exception_ ("發送繳費提醒失敗" +:+ ": " +:+ exn_message e)), w')
      /\ pushes w'
         = pushes w ++ (if String.eqb (LINE_CHANNEL_ACCESS_TOKEN w) "" then []
                        else map reminder_push pre)
      /\ writes w' = writes w.
Proof.
  intros Hnodup pre.
  induction pre as [|q pre IH];
    intros p post w sent_count failed_count errors Hcands Hview Hanswers Hfails.
  - cbn [app bulk_loop length] in *. eexists. split.
    + erewrite bind_raised; [reflexivity|].
      apply send_payment_reminder_raises. now apply fails_at_0.
    + trace_simpl. destruct (String.eqb _ _); cbn [map]; rewrite app_nil_r; now split.
  - destruct (Hcands q (or_introl eq_refl)) as [Hin Hline].
    destruct (has_line_address q Hline) as (line_user_id & Haddr & Hif).
    assert (Hne : line_user_id <> "").
    { intros ->. unfold has_line in Hline. rewrite Haddr in Hline. discriminate Hline. }
    assert (Hfind : find_payment (p_id q) w = Some q).
    { unfold find_payment. rewrite Hview. now apply find_payment_nodup. }
    destruct (send_payment_reminder_ok (p_id q) (bulk_reminder_type q) w q line_user_id
                (Hanswers 0%nat ltac:(cbn; lia)) Hfind Haddr Hne) as (reply & Hrun).
    set (w1 := if String.eqb (LINE_CHANNEL_ACCESS_TOKEN w) ""
               then log (ReqGet "v_payments_due") w
               else log (ReqPush line_user_id (payment_message (bulk_reminder_type q) q))
                        (log (ReqGet "v_payments_due") w)) in *.
    assert (Hview1 : v_payments_due w1 = v_payments_due w0).
    { subst w1. destruct (String.eqb (LINE_CHANNEL_ACCESS_TOKEN w) ""); exact Hview. }
    assert (Htoken1 : LINE_CHANNEL_ACCESS_TOKEN w1 = LINE_CHANNEL_ACCESS_TOKEN w).
    { subst w1. destruct (String.eqb (LINE_CHANNEL_ACCESS_TOKEN w) ""); reflexivity. }
    assert (Hanswers1 : forall i, (i < length pre)%nat -> answers_at i w1).
    { intros i Hi. subst w1.
      destruct (String.eqb (LINE_CHANNEL_ACCESS_TOKEN w) "");
        [|apply answers_at_push];
        (apply answers_at_log; [reflexivity | apply Hanswers; cbn; lia]). }
    assert (Hfails1 : fails_at (length pre) e w1).
    { subst w1.
      destruct (String.eqb (LINE_CHANNEL_ACCESS_TOKEN w) "");
        [|apply fails_at_push]; (apply fails_at_log; [reflexivity | exact Hfails]). }
    assert (Hpushes1 :
      pushes w1 = pushes w ++ (if String.eqb (LINE_CHANNEL_ACCESS_TOKEN w) "" then []
                               else [reminder_push q])).
    { subst w1. unfold reminder_push. rewrite Haddr. cbn [from_option id].
      destruct (String.eqb (LINE_CHANNEL_ACCESS_TOKEN w) ""); trace_simpl; reflexivity. }
    assert (Hwrites1 : writes w1 = writes w).
    { subst w1. destruct (String.eqb (LINE_CHANNEL_ACCESS_TOKEN w) ""); trace_simpl;
        reflexivity. }
    assert (Hrest : forall x, In x (pre ++ p :: post) ->
                              In x (v_payments_due w0) /\ has_line x = true).
    { intros x Hx. apply Hcands. now right. }
    cbn [app bulk_loop]. fold (bulk_reminder_type q).
    erewrite bind_returned by exact Hrun.
    destruct (lr_success reply).
    + destruct (IH p post w1 (sent_count + 1) failed_count errors
                  Hrest Hview1 Hanswers1 Hfails1) as (w' & Hloop & Hp & Hw).
      exists w'. split; [exact Hloop|]. split; [|now rewrite Hw].
      rewrite Hp, Hpushes1, Htoken1.
      destruct (String.eqb (LINE_CHANNEL_ACCESS_TOKEN w) "");
        cbn [map]; rewrite <- ?app_assoc; reflexivity.
    + destruct (IH p post w1 sent_count (failed_count + 1)
                  (errors ++ [ {| be_payment_id := p_id q;
                                  be_customer := p_customer_name q;
                                  be_error := lr_error reply |} ])
                  Hrest Hview1 Hanswers1 Hfails1) as (w' & Hloop & Hp & Hw).
      exists w'. split; [exact Hloop|]. split; [|now rewrite Hw].
      rewrite Hp, Hpushes1, Htoken1.
      destruct (String.eqb (LINE_CHANNEL_ACCESS_TOKEN w) "");
        cbn [map]; rewrite <- ?app_assoc; reflexivity.
Qed.

(** X19: A live bulk run isolates the failures of its dispatches, not those of
    the data gateway: when the gateway fails on the read for one candidate,
    the run ends there in an [Exception].  The reminders for the candidates
    before it were pushed and stay pushed, the candidates after it get none,
    and the caller gets no counts and no error list.  (The rows of the view
    have distinct ids.) *)
Theorem bulk_run_loses_its_counts
    (branch_id : option Z) (urgency : string) (w : World)
    (pre : list Payment) (p : Payment) (post : list Payment) (e : exn) :
  NoDup (map p_id (v_payments_due w)) ->
  with_address (due_candidates branch_id urgency w) = pre ++ p :: post ->
  (forall i, (i <= length pre)%nat -> answers_at i w) ->
  fails_at (S (length pre)) e w ->
  exists w',
    send_bulk_payment_reminders branch_id urgency false w
    = (Raised (Exception_ ("批次發送失敗" +:+ ": "
                           +:+ ("發送繳費提醒失敗" +:+ ": " +:+ exn_message e))), w')
    /\ pushes w'
       = pushes w ++ (if String.eqb (LINE_CHANNEL_ACCESS_TOKEN w) "" then []
                      else map reminder_push pre)
    /\ writes w' = writes w.
Proof.
  intros Hnodup Hsplit Hanswers Hfails.
  assert (Hcands : forall q, In q (pre ++ p :: post) ->
                             In q (v_payments_due w) /\ has_line q = true).
  { intros q Hq. rewrite <- Hsplit in Hq. unfold with_address in Hq.
    apply List.filter_In in Hq as [Hq Hline]. split; [|exact Hline].
    unfold due_candidates in Hq. now apply List.filter_In in Hq as [Hq _]. }
  destruct (bulk_loop_aborts w e Hnodup pre p post (log (ReqGet "v_payments_due") w)
              0 0 [] Hcands eq_refl) as (w' & Hloop & Hpushes & Hwrites).
  { intros i Hi. apply answers_at_log; [reflexivity|]. apply Hanswers. lia. }
  { apply fails_at_log; [reflexivity | exact Hfails]. }
  exists w'. split.
  - unfold send_bulk_payment_reminders.
    apply (reraise_raised "批次發送失敗" _ w w'
             (Exception_ ("發送繳費提醒失敗" +:+ ": " +:+ exn_message e))).
    erewrite bind_returned
      by (apply postgrest_get_payments_ok; apply Hanswers; lia).
    rewrite bulk_params_candidates.
    fold (with_address (due_candidates branch_id urgency w)). rewrite Hsplit.
    erewrite bind_raised by exact Hloop. reflexivity.
  - rewrite Hpushes, Hwrites. trace_simpl. now split.
Qed.

(** Three overdue payments; the gateway fails on the third request, the read
    for the second payment. *)
Lemma bulk_run_loses_its_counts_witness :
  let e := Exception_ "Server error '503'" in
  let w := gateway_fails_once 2 e world_three_overdue in
  exists w',
    send_bulk_payment_reminders None "overdue" false w
    = (Raised (Exception_ ("批次發送失敗" +:+ ": "
                           +:+ ("發送繳費提醒失敗" +:+ ": " +:+ exn_message e))), w')
    /\ pushes w'
       = pushes w ++ (if String.eqb (LINE_CHANNEL_ACCESS_TOKEN w) "" then []
                      else map reminder_push [overdue_payment 11 "Chen" "U-chen" 3000])
    /\ writes w' = writes w.
Proof.
  apply (bulk_run_loses_its_counts None "overdue"
           (gateway_fails_once 2 (Exception_ "Server error '503'") world_three_overdue)
           [overdue_payment 11 "Chen" "U-chen" 3000]
           (overdue_payment 12 "Lin" "U-lin" 4500)
           [overdue_payment 13 "Wang" "U-wang" 1200]
           (Exception_ "Server error '503'")).
  - exact three_overdue_distinct.
  - vm_compute. reflexivity.
  - intros i Hi. destruct i as [|[|i]]; [reflexivity | reflexivity | cbn in Hi; lia].
  - reflexivity.
Defined.

(** * Bulk runs: what a live run isolates, and what it does not *)

(** The reminder of a payment that is in the view with an address, when the
    gateway answers the read: one read, one push when the channel is
    configured, and a reply that tells whether the push was delivered. *)
Lemma send_payment_reminder_answered (payment_id : Z) (reminder_type : string) (w : World)
    (payment : Payment) (line_user_id : string) :
  answers_at 0 w ->
  find_payment payment_id w = Some payment ->
  p_line_user_id payment = Some line_user_id ->
  line_user_id <> "" ->
  exists reply,
    send_payment_reminder payment_id reminder_type w
    = (Returned reply,
       if String.eqb (LINE_CHANNEL_ACCESS_TOKEN w) "" then log (ReqGet "v_payments_due") w
       else log (ReqPush line_user_id (payment_message reminder_type payment))
                (log (ReqGet "v_payments_due") w))
    /\ lr_success reply = delivered w (length (pushes w)).
Proof.
  intros Hup Hfind Haddr Hne. unfold send_payment_reminder.
  destruct (filter_of_find _ _ _ Hfind) as [rest Hrows].
  destruct (send_line_push_run line_user_id (payment_message reminder_type payment)
              (log (ReqGet "v_payments_due") w)) as (push & Hpush & Hok & _).
  rewrite pushes_log in Hok. cbn [is_push] in Hok. rewrite app_nil_r in Hok.
  change (LINE_CHANNEL_ACCESS_TOKEN (log (ReqGet "v_payments_due") w))
    with (LINE_CHANNEL_ACCESS_TOKEN w) in Hpush.
  change (delivered (log (ReqGet "v_payments_due") w)) with (delivered w) in Hok.
  destruct (lr_success push) eqn:Hsuccess.
  - eexists. split.
    + apply reraise_returned.
      erewrite bind_returned by (apply postgrest_get_payments_ok; exact Hup).
      rewrite filter_payments_by_id, Hrows, (if_str_some _ _ Haddr Hne).
      erewrite bind_returned by exact Hpush. rewrite Hsuccess. reflexivity.
    + exact Hok.
  - exists push. split.
    + apply reraise_returned.
      erewrite bind_returned by (apply postgrest_get_payments_ok; exact Hup).
      rewrite filter_payments_by_id, Hrows, (if_str_some _ _ Haddr Hne).
      erewrite bind_returned by exact Hpush. rewrite Hsuccess. reflexivity.
    + rewrite Hsuccess. exact Hok.
Qed.

(** The loop of a live run when the gateway answers the read for each of the
    candidates: every candidate is dispatched, whatever became of the ones
    before it. *)
Lemma bulk_loop_counts (w0 : World) :
  NoDup (map p_id (v_payments_due w0)) ->
  forall (candidates : list Payment) (w : World) (k : nat)
         (sent_count failed_count : Z) (errors : list BulkError),
    (forall p, In p candidates -> In p (v_payments_due w0) /\ has_line p = true) ->
    (forall i, (i < length candidates)%nat -> answers_at i w) ->
    v_payments_due w = v_payments_due w0 ->
    LINE_CHANNEL_ACCESS_TOKEN w = LINE_CHANNEL_ACCESS_TOKEN w0 ->
    line_api w = line_api w0 ->
    (LINE_CHANNEL_ACCESS_TOKEN w0 <> "" -> k = length (pushes w)) ->
    exists (more : list BulkError) (w' : World),
      bulk_loop candidates sent_count failed_count errors w
      = (Returned (sent_count + Z.of_nat (length (reached (dispatches w0 k candidates))),
                   failed_count + Z.of_nat (length (missed (dispatches w0 k candidates))),
                   errors ++ more), w')
      /\ map be_payment_id more = map p_id (missed (dispatches w0 k candidates))
      /\ pushes w'
         = pushes w ++ (if String.eqb (LINE_CHANNEL_ACCESS_TOKEN w0) "" then []
                        else map reminder_push candidates)
      /\ writes w' = writes w.
Proof.
  intros Hnodup candidates.
  induction candidates as [|p rest IH];
    intros w k sent_count failed_count errors Hcands Hup Hview Htoken Hapi Hk.
  - exists [], w. split; [|split; [|split]].
    + unfold reached, missed. cbn. now rewrite !Z.add_0_r, app_nil_r.
    + reflexivity.
    + destruct (String.eqb (LINE_CHANNEL_ACCESS_TOKEN w0) ""); cbn [map];
        now rewrite app_nil_r.
    + reflexivity.
  - destruct (Hcands p (or_introl eq_refl)) as [Hin Hline].
    destruct (has_line_address p Hline) as (line_user_id & Haddr & Hif).
    assert (Hne : line_user_id <> "").
    { intros ->. unfold has_line in Hline. rewrite Haddr in Hline. discriminate Hline. }
    assert (Hfind : find_payment (p_id p) w = Some p).
    { unfold find_payment. rewrite Hview. now apply find_payment_nodup. }
    destruct (send_payment_reminder_answered (p_id p) (bulk_reminder_type p) w p line_user_id
                (Hup 0%nat ltac:(cbn; lia)) Hfind Haddr Hne) as (reply & Hrun & Hok).
    rewrite Htoken in Hrun.
    set (w1 := if String.eqb (LINE_CHANNEL_ACCESS_TOKEN w0) ""
               then log (ReqGet "v_payments_due") w
               else log (ReqPush line_user_id (payment_message (bulk_reminder_type p) p))
                        (log (ReqGet "v_payments_due") w)) in *.
    assert (Hup1 : forall i, (i < length rest)%nat -> answers_at i w1).
    { intros i Hi. subst w1.
      destruct (String.eqb (LINE_CHANNEL_ACCESS_TOKEN w0) "");
        [|apply answers_at_push];
        (apply answers_at_log; [reflexivity | apply Hup; cbn; lia]). }
    assert (Hview1 : v_payments_due w1 = v_payments_due w0).
    { subst w1. destruct (String.eqb (LINE_CHANNEL_ACCESS_TOKEN w0) ""); exact Hview. }
    assert (Htoken1 : LINE_CHANNEL_ACCESS_TOKEN w1 = LINE_CHANNEL_ACCESS_TOKEN w0).
    { subst w1. destruct (String.eqb (LINE_CHANNEL_ACCESS_TOKEN w0) ""); exact Htoken. }
    assert (Hapi1 : line_api w1 = line_api w0).
    { subst w1. destruct (String.eqb (LINE_CHANNEL_ACCESS_TOKEN w0) ""); exact Hapi. }
    assert (Hpushes1 :
      pushes w1 = pushes w ++ (if String.eqb (LINE_CHANNEL_ACCESS_TOKEN w0) "" then []
                               else [reminder_push p])).
    { subst w1. unfold reminder_push. rewrite Haddr. cbn [from_option id].
      destruct (String.eqb (LINE_CHANNEL_ACCESS_TOKEN w0) ""); trace_simpl; reflexivity. }
    assert (Hwrites1 : writes w1 = writes w).
    { subst w1. destruct (String.eqb (LINE_CHANNEL_ACCESS_TOKEN w0) ""); trace_simpl;
        reflexivity. }
    assert (Hk1 : LINE_CHANNEL_ACCESS_TOKEN w0 <> "" -> S k = length (pushes w1)).
    { intros Hconf. rewrite Hpushes1.
      destruct (String.eqb_spec (LINE_CHANNEL_ACCESS_TOKEN w0) ""); [contradiction|].
      rewrite length_app. cbn. rewrite (Hk Hconf). lia. }
    assert (Hdelivered : lr_success reply = delivered w0 k).
    { rewrite Hok. rewrite (delivered_same w w0 _ Htoken Hapi).
      destruct (String.eqb_spec (LINE_CHANNEL_ACCESS_TOKEN w0) "") as [Hnone|Hconf].
      - now rewrite !(delivered_unconfigured w0 _ Hnone).
      - now rewrite (Hk Hconf). }
    assert (Hrest : forall q, In q rest -> In q (v_payments_due w0) /\ has_line q = true).
    { intros q Hq. apply Hcands. now right. }
    cbn [bulk_loop]. fold (bulk_reminder_type p).
    erewrite bind_returned by exact Hrun.
    cbn [dispatches]. unfold reached, missed. cbn [List.filter snd negb].
    rewrite Hdelivered. destruct (delivered w0 k) eqn:Hd; cbn [negb map length fst].
    + destruct (IH w1 (S k) (sent_count + 1) failed_count errors
                  Hrest Hup1 Hview1 Htoken1 Hapi1 Hk1) as (more & w' & Hloop & Hids & Hp & Hw).
      exists more, w'. split; [|split; [|split]].
      * rewrite Hloop. unfold reached, missed.
        match goal with
        | |- (Returned (?a, ?b, _), _) = (Returned (?a', ?b', _), _) =>
            replace a' with a by lia; replace b' with b by lia
        end.
        reflexivity.
      * exact Hids.
      * rewrite Hp, Hpushes1.
        destruct (String.eqb (LINE_CHANNEL_ACCESS_TOKEN w0) "");
          cbn [map]; rewrite <- ?app_assoc; reflexivity.
      * now rewrite Hw.
    + destruct (IH w1 (S k) sent_count (failed_count + 1)
                  (errors ++ [ {| be_payment_id := p_id p;
                                  be_customer := p_customer_name p;
                                  be_error := lr_error reply |} ])
                  Hrest Hup1 Hview1 Htoken1 Hapi1 Hk1) as (more & w' & Hloop & Hids & Hp & Hw).
      eexists (_ :: more), w'. split; [|split; [|split]].
      * rewrite Hloop. unfold reached, missed. rewrite <- app_assoc. cbn [app].
        match goal with
        | |- (Returned (?a, ?b, _), _) = (Returned (?a', ?b', _), _) =>
            replace a' with a by lia; replace b' with b by lia
        end.
        reflexivity.
      * cbn [map be_payment_id]. unfold missed in Hids. now rewrite Hids.
      * rewrite Hp, Hpushes1.
        destruct (String.eqb (LINE_CHANNEL_ACCESS_TOKEN w0) "");
          cbn [map]; rewrite <- ?app_assoc; reflexivity.
      * now rewrite Hw.
Qed.

Lemma candidates_in_view (branch_id : option Z) (urgency : string) (w : World) (p : Payment) :
  In p (with_address (due_candidates branch_id urgency w)) ->
  In p (v_payments_due w) /\ has_line p = true.
Proof.
  intros Hp. unfold with_address in Hp.
  apply List.filter_In in Hp as [Hp Hline]. split; [|exact Hline].
  unfold due_candidates in Hp. now apply List.filter_In in Hp as [Hp _].
Qed.

(** C5, as the code has it: a live bulk run isolates the dispatches that
    fail, not the reminders that raise.  The run first reads the candidates,
    then, for each candidate with an address, reads the payment again and
    pushes the reminder.

    When the data gateway answers the read for every candidate, every
    candidate is dispatched, whether the dispatches before it failed or not:
    [sent_count] is the number of the dispatches that succeeded,
    [failed_count] the number of those that failed (no token, a status that
    is not 200, an exception of the client), the two add up to the number of
    the candidates, and the error list names the payments whose dispatch
    failed, those and no others, in the order of the run.

    When the gateway fails on the read for candidate number [k] (counted from
    0), the reminder of that candidate raises, nothing in the loop catches
    it, and the batch is aborted: the run raises an [Exception], the
    candidates before number [k] have their reminders pushed, the candidate
    number [k] and all after it get none, and no counts are reported.

    (The rows of the view have distinct ids, and the first read of the run
    is answered.) *)
Theorem bulk_reminders_isolate_dispatch_failures (branch_id : option Z) (urgency : string)
    (w : World) :
  NoDup (map p_id (v_payments_due w)) ->
  answers_at 0 w ->
  ((forall i, (i < length (with_address (due_candidates branch_id urgency w)))%nat ->
              answers_at (S i) w) ->
   returns (send_bulk_payment_reminders branch_id urgency false) w
     (fun reply w' =>
        let candidates := with_address (due_candidates branch_id urgency w) in
        let outcome := dispatches w (length (pushes w)) candidates in
        exists errors,
          reply = Live (Z.of_nat (length (reached outcome)))
                       (Z.of_nat (length (missed outcome))) errors
          /\ map be_payment_id (default [] errors) = map p_id (missed outcome)
          /\ (errors = None <-> missed outcome = [])
          /\ (length (reached outcome) + length (missed outcome))%nat = length candidates
          /\ (LINE_CHANNEL_ACCESS_TOKEN w <> "" ->
              pushes w' = pushes w ++ map reminder_push candidates)
          /\ writes w' = writes w))
  /\ (forall (k : nat) (e : exn),
        (k < length (with_address (due_candidates branch_id urgency w)))%nat ->
        (forall i, (i < k)%nat -> answers_at (S i) w) ->
        fails_at (S k) e w ->
        exists w',
          send_bulk_payment_reminders branch_id urgency false w
          = (Raised (Exception_ ("批次發送失敗" +:+ ": "
                                 +:+ ("發送繳費提醒失敗" +:+ ": " +:+ exn_message e))), w')
          /\ pushes w'
             = pushes w
               ++ (if String.eqb (LINE_CHANNEL_ACCESS_TOKEN w) "" then []
                   else map reminder_push
                          (take k (with_address (due_candidates branch_id urgency w))))
          /\ writes w' = writes w).
Proof.
  intros Hnodup Hfirst.
  set (candidates := with_address (due_candidates branch_id urgency w)).
  assert (Hcands : forall p, In p candidates -> In p (v_payments_due w) /\ has_line p = true).
  { intros p Hp. now apply (candidates_in_view branch_id urgency). }
  split.
  - intros Hup. unfold returns, send_bulk_payment_reminders.
    destruct (bulk_loop_counts w Hnodup candidates (log (ReqGet "v_payments_due") w)
                (length (pushes w)) 0 0 [] Hcands) as (more & w' & Hloop & Hids & Hpushes & Hwrites);
      try reflexivity.
    { intros i Hi. apply answers_at_log; [reflexivity | now apply Hup]. }
    { intros _. trace_simpl. reflexivity. }
    rewrite pushes_log in Hpushes. cbn [is_push] in Hpushes. rewrite app_nil_r in Hpushes.
    rewrite writes_log in Hwrites. cbn [is_write] in Hwrites. rewrite app_nil_r in Hwrites.
    eexists _, w'. split.
    + apply reraise_returned.
      erewrite bind_returned by (apply postgrest_get_payments_ok; exact Hfirst).
      rewrite bulk_params_candidates. fold (with_address (due_candidates branch_id urgency w)).
      fold candidates. erewrite bind_returned by exact Hloop. reflexivity.
    + cbn zeta. rewrite !Z.add_0_l, app_nil_l.
      exists (match more with [] => None | _ :: _ => Some more end).
      split; [reflexivity|]. split; [|split; [|split; [|split]]].
      * rewrite <- Hids. now destruct more.
      * split.
        -- intros Hnone. destruct more; [|discriminate Hnone].
           cbn in Hids. symmetry in Hids. now apply map_eq_nil in Hids.
        -- intros Hnone. rewrite Hnone in Hids. cbn in Hids. apply map_eq_nil in Hids.
           now rewrite Hids.
      * apply dispatches_length.
      * intros Hconf. rewrite Hpushes.
        destruct (String.eqb_spec (LINE_CHANNEL_ACCESS_TOKEN w) ""); [contradiction|reflexivity].
      * exact Hwrites.
  - intros k e Hk Hanswers Hfails.
    destruct (nth_error candidates k) as [p|] eqn:Hp;
      [|apply nth_error_None in Hp; lia].
    apply nth_error_split in Hp as (pre & post & Hsplit & Hlen).
    assert (Htake : take k candidates = pre).
    { rewrite Hsplit, <- Hlen. rewrite take_app_length. reflexivity. }
    rewrite Hsplit in Hcands.
    destruct (bulk_loop_aborts w e Hnodup pre p post (log (ReqGet "v_payments_due") w)
                0 0 [] Hcands eq_refl) as (w' & Hloop & Hpushes & Hwrites).
    { intros i Hi. apply answers_at_log; [reflexivity|]. apply Hanswers. lia. }
    { apply fails_at_log; [reflexivity|]. now rewrite Hlen. }
    exists w'. split.
    + unfold send_bulk_payment_reminders.
      apply (reraise_raised "批次發送失敗" _ w w'
               (Exception_ ("發送繳費提醒失敗" +:+ ": " +:+ exn_message e))).
      erewrite bind_returned by (apply postgrest_get_payments_ok; exact Hfirst).
      rewrite bulk_params_candidates.
      fold (with_address (due_candidates branch_id urgency w)). fold candidates.
      rewrite Hsplit. erewrite bind_raised by exact Hloop. reflexivity.
    + rewrite Htake, Hpushes, Hwrites. trace_simpl. now split.
Qed.

(** Three overdue payments, the endpoint refusing the second push.  Through a
    gateway that answers, all three are dispatched: two reminders are sent,
    one fails, and the error list names payment 12.  Through a gateway that
    fails on the read for the second payment, the run raises after the first
    reminder. *)
Lemma bulk_reminders_isolate_dispatch_failures_witness :
  returns (send_bulk_payment_reminders None "overdue" false) world_three_overdue
    (fun reply w' =>
       exists errors,
         reply = Live 2 1 errors
         /\ map be_payment_id (default [] errors) = [12]
         /\ pushes w'
            = map reminder_push [overdue_payment 11 "Chen" "U-chen" 3000;
                                 overdue_payment 12 "Lin" "U-lin" 4500;
                                 overdue_payment 13 "Wang" "U-wang" 1200]
         /\ writes w' = [])
  /\ exists w',
       send_bulk_payment_reminders None "overdue" false
         (gateway_fails_once 2 (Exception_ "Server error '503'") world_three_overdue)
       = (Raised (Exception_ "批次發送失敗: 發送繳費提醒失敗: Server error '503'"), w')
       /\ pushes w' = [reminder_push (overdue_payment 11 "Chen" "U-chen" 3000)]
       /\ writes w' = [].
Proof.
  split.
  - destruct (proj1 (bulk_reminders_isolate_dispatch_failures None "overdue"
                       world_three_overdue three_overdue_distinct
                       (world_three_overdue_answers _))
                (fun i _ => world_three_overdue_answers _))
      as (reply & w' & Hrun & errors & Hreply & Hids & _ & _ & Hpushes & Hwrites).
    exists reply, w'. split; [exact Hrun|]. exists errors.
    split; [exact Hreply|]. split; [exact Hids|]. split; [|exact Hwrites].
    apply Hpushes. discriminate.
  - apply (proj2 (bulk_reminders_isolate_dispatch_failures None "overdue"
                    (gateway_fails_once 2 (Exception_ "Server error '503'")
                       world_three_overdue)
                    three_overdue_distinct eq_refl)
             1%nat (Exception_ "Server error '503'")).
    + vm_compute. lia.
    + intros i Hi. destruct i as [|i]; [reflexivity | lia].
    + reflexivity.
Defined.

(** The batch is aborted by the failure of one item.  Three overdue payments,
    each with an address, are the candidates of a live run; the data gateway
    fails on the third request of the run, the read for the second payment.
    The reminder of that payment raises, the run ends in an exception and
    returns no counts, the first payment has its reminder, and the third
    payment is never attempted: the run makes no request for it. *)
Lemma bulk_reminders_claim_counterexample :
  map p_id (with_address
              (due_candidates None "overdue"
                 (gateway_fails_once 2 (Exception_ "Server error '503'") world_three_overdue)))
  = [11; 12; 13]
  /\ (send_bulk_payment_reminders None "overdue" false
        (gateway_fails_once 2 (Exception_ "Server error '503'") world_three_overdue)).1
     = Raised (Exception_ "批次發送失敗: 發送繳費提醒失敗: Server error '503'")
  /\ (forall reply,
        (send_bulk_payment_reminders None "overdue" false
           (gateway_fails_once 2 (Exception_ "Server error '503'") world_three_overdue)).1
        <> Returned reply)
  /\ trace (send_bulk_payment_reminders None "overdue" false
              (gateway_fails_once 2 (Exception_ "Server error '503'") world_three_overdue)).2
     = [ReqGet "v_payments_due";
        ReqGet "v_payments_due";
        reminder_push (overdue_payment 11 "Chen" "U-chen" 3000);
        ReqGet "v_payments_due"].
Proof.
  split; [vm_compute; reflexivity|]. split; [vm_compute; reflexivity|].
  split; [intros reply; vm_compute; discriminate|].
  vm_compute. reflexivity.
Qed.

(** * The MCP endpoint *)

(** X20: [mcp_call_tool] never raises, not even for a name that is not in the
    catalog, for which [call_tool] raises its 404: it returns [isError] with
    the text of the error.  For a name in the catalog it runs the handler as
    [call_tool] does (the world afterwards is the same) and its [isError] is
    the negation of the [success] of [call_tool]: the text is [str(result)]
    for a value, and [Error: ] followed by [str(e)] for an exception. *)
Theorem mcp_call_tool_never_raises {Params Result : Type}
    (str_result : Result -> string) (MCP_TOOLS : gmap string (@Tool Params Result))
    (tool_name : string) (args : Params) (w : World) :
  exists reply w',
    mcp_call_tool str_result MCP_TOOLS tool_name args w = (Returned reply, w')
    /\ match MCP_TOOLS !! tool_name with
       | None =>
           w' = w
           /\ reply = {| mcp_text := "Error: Tool '" +:+ tool_name +:+ "' not found";
                         isError := true |}
           /\ call_tool MCP_TOOLS tool_name args w
              = (Raised (HTTPException 404 ("Tool '" +:+ tool_name +:+ "' not found")), w)
       | Some tool =>
           w' = (handler tool args w).2
           /\ reply = match (handler tool args w).1 with
                      | Returned value => {| mcp_text := str_result value; isError := false |}
                      | Raised e =>
                          {| mcp_text := "Error: " +:+ exn_message e; isError := true |}
                      end
           /\ exists envelope,
                call_tool MCP_TOOLS tool_name args w = (Returned envelope, w')
                /\ env_success envelope = negb (isError reply)
       end.
Proof.
  unfold mcp_call_tool, call_tool.
  destruct (MCP_TOOLS !! tool_name) as [tool|].
  - unfold try_except, bind, ret.
    destruct (handler tool args w) as [[value|e] w1]; cbn [fst snd];
      eexists _, _; (split; [reflexivity|]); repeat split; eexists; split; reflexivity.
  - eexists _, _. split; [reflexivity|]. repeat split.
Qed.

(** The status tool called over the MCP endpoint with a status it refuses,
    a tool that does not exist, and a status update that goes through. *)
Example mcp_call_tool_runs :
  mcp_call_tool qr_message status_tools "quote_update_status" (1, "archived") world_Q1_draft
  = (Returned {| mcp_text := "Error: 無效的狀態，允許: draft, sent, viewed, accepted, rejected, expired, converted";
                 isError := true |}, world_Q1_draft)
  /\ mcp_call_tool qr_message status_tools "quote_archive" (1, "archived") world_Q1_draft
     = (Returned {| mcp_text := "Error: Tool 'quote_archive' not found"; isError := true |},
        world_Q1_draft)
  /\ (mcp_call_tool qr_message status_tools "quote_update_status" (1, "sent") world_Q1_draft).1
     = Returned {| mcp_text := "報價單狀態已更新為 sent"; isError := false |}.
Proof. vm_compute. repeat split; reflexivity. Qed.

(** * Listing quotes and payments *)

Lemma fmap_add_0 (o : option Z) : (fun n => n + 0) <$> o = o.
Proof. destruct o as [n|]; cbn; [f_equal; lia | reflexivity]. Qed.

Lemma stats_add1_lookup (key : string) (stats : gmap string Z) (k : string) :
  is_Some (stats !! key) ->
  stats_add1 key stats !! k
  = (fun n => n + (if String.eqb k key then 1 else 0)) <$> stats !! k.
Proof.
  intros [n Hn]. unfold stats_add1. rewrite Hn. cbn [from_option id].
  destruct (String.eqb_spec k key) as [->|Hne].
  - rewrite lookup_insert_eq, Hn. reflexivity.
  - rewrite lookup_insert_ne by congruence. symmetry. apply fmap_add_0.
Qed.

Lemma has_status_some (k s : string) (q : Quote) :
  q_status q = Some s -> has_status k q = String.eqb k s.
Proof.
  intros H. unfold has_status. rewrite H. destruct (String.eqb_spec k s) as [->|Hne].
  - apply bool_decide_eq_true_2. reflexivity.
  - apply bool_decide_eq_false_2. congruence.
Qed.

Lemma closed_status_list (q : Quote) :
  bool_decide (q_status q ∈ [Some "accepted"; Some "converted"; Some "rejected"])
  = closed_status q.
Proof.
  unfold closed_status, has_status.
  destruct (decide (q_status q = Some "accepted")) as [->|H1]; [vm_compute; reflexivity|].
  destruct (decide (q_status q = Some "converted")) as [->|H2]; [vm_compute; reflexivity|].
  destruct (decide (q_status q = Some "rejected")) as [->|H3]; [vm_compute; reflexivity|].
  rewrite (bool_decide_eq_false_2 (q_status q = Some "accepted")) by assumption.
  rewrite (bool_decide_eq_false_2 (q_status q = Some "converted")) by assumption.
  rewrite (bool_decide_eq_false_2 (q_status q = Some "rejected")) by assumption.
  apply bool_decide_eq_false_2. intros Hin.
  repeat (apply elem_of_cons in Hin as [Hin|Hin]; [contradiction|]).
  now apply elem_of_nil in Hin.
Qed.

Lemma count_rows_cons {A : Type} (f : A -> bool) (x : A) (rows : list A) :
  count_rows f (x :: rows) = (if f x then 1 else 0) + count_rows f rows.
Proof.
  unfold count_rows. cbn [List.filter]. destruct (f x); cbn [length]; lia.
Qed.

Lemma count_rows_bounds {A : Type} (f : A -> bool) (rows : list A) :
  0 <= count_rows f rows <= Z.of_nat (length rows).
Proof.
  induction rows as [|x rows IH]; [unfold count_rows; cbn; lia|].
  rewrite count_rows_cons. cbn [length]. destruct (f x); lia.
Qed.

Section ListingFacts.

Variable is_expired : Quote -> bool.
Variable created_at_desc : list Quote -> list Quote.

(** The first step of the loop body: the counter of the status of the row. *)
Lemma count_status_lookup (stats : gmap string Z) (q : Quote) (k : string) :
  match q_status q with
  | Some status =>
      if bool_decide (is_Some (stats !! status)) then stats_add1 status stats else stats
  | None => stats
  end !! k
  = (fun n => n + (if has_status k q then 1 else 0)) <$> stats !! k.
Proof.
  destruct (q_status q) as [s|] eqn:Hs.
  - rewrite (has_status_some k s q Hs).
    destruct (decide (is_Some (stats !! s))) as [Hin|Hout].
    + rewrite bool_decide_eq_true_2 by exact Hin. now apply stats_add1_lookup.
    + rewrite bool_decide_eq_false_2 by exact Hout.
      destruct (String.eqb_spec k s) as [->|Hne].
      * destruct (stats !! s) eqn:E; [exfalso; apply Hout; eauto | reflexivity].
      * symmetry. apply fmap_add_0.
  - unfold has_status. rewrite Hs.
    rewrite bool_decide_eq_false_2 by discriminate. symmetry. apply fmap_add_0.
Qed.

Lemma count_quote_lookup (stats : gmap string Z) (q : Quote) (k : string) :
  is_Some (stats !! "expired") ->
  count_quote is_expired stats q !! k = (fun n => n + tally is_expired k q) <$> stats !! k.
Proof.
  intros Hexp. unfold count_quote. cbv zeta. rewrite closed_status_list.
  change (is_expired q && negb (closed_status q)) with (open_and_expired is_expired q).
  pose proof (count_status_lookup stats q) as Hstep.
  set (stats1 := match q_status q with
                 | Some status =>
                     if bool_decide (is_Some (stats !! status))
                     then stats_add1 status stats else stats
                 | None => stats
                 end) in *.
  unfold tally.
  destruct (open_and_expired is_expired q) eqn:Hflag.
  - rewrite stats_add1_lookup by (rewrite Hstep; apply fmap_is_Some; exact Hexp).
    rewrite Hstep, andb_true_r.
    destruct (stats !! k) as [n|]; cbn; [f_equal; lia | reflexivity].
  - rewrite Hstep, andb_false_r.
    destruct (stats !! k) as [n|]; cbn; [f_equal; lia | reflexivity].
Qed.

Lemma quote_stats_lookup (rows : list Quote) :
  forall (stats : gmap string Z) (k : string),
    is_Some (stats !! "expired") ->
    foldl (count_quote is_expired) stats rows !! k
    = (fun n => n + tally_rows is_expired k rows) <$> stats !! k.
Proof.
  induction rows as [|q rows IH]; intros stats k Hexp; unfold tally_rows;
    cbn [foldl map fold_right].
  - symmetry. apply fmap_add_0.
  - rewrite IH
      by (rewrite count_quote_lookup by exact Hexp; apply fmap_is_Some; exact Hexp).
    rewrite count_quote_lookup by exact Hexp. unfold tally_rows.
    destruct (stats !! k) as [n|]; cbn; [f_equal; lia | reflexivity].
Qed.

Lemma tally_rows_status (k : string) (rows : list Quote) :
  k <> "expired" -> tally_rows is_expired k rows = count_rows (has_status k) rows.
Proof.
  intros Hk. unfold tally_rows.
  induction rows as [|q rows IH]; [reflexivity|].
  cbn [map fold_right]. rewrite IH, count_rows_cons. unfold tally.
  destruct (String.eqb_spec k "expired"); [contradiction|]. cbn [andb]. lia.
Qed.

Lemma tally_rows_expired (rows : list Quote) :
  tally_rows is_expired "expired" rows
  = count_rows (has_status "expired") rows + count_rows (open_and_expired is_expired) rows.
Proof.
  unfold tally_rows.
  induction rows as [|q rows IH]; [reflexivity|].
  cbn [map fold_right]. rewrite IH, !count_rows_cons. unfold tally.
  cbn [String.eqb Ascii.eqb Bool.eqb andb].
  destruct (has_status "expired" q), (open_and_expired is_expired q); lia.
Qed.

Lemma postgrest_list_quotes_run (branch_id : option Z) (status : option string)
    (customer_id : option Z) (limit : Z) (w : World) :
  postgrest_answers w ->
  postgrest_list_quotes created_at_desc branch_id status customer_id limit w
  = (Returned (take (Z.to_nat limit)
                 (created_at_desc
                    (List.filter (quote_listed branch_id status customer_id) (quotes w)))),
     log (ReqGet "v_quotes") w).
Proof.
  intros H. unfold postgrest_list_quotes.
  erewrite bind_returned by (apply postgrest_request_run; exact H). reflexivity.
Qed.

(** X21: The statistics of [list_quotes] (through a gateway that answers, with a
    limit that is not negative) are taken over the rows it returns, at most
    [limit] of them.  [draft], [sent]
    and [accepted] count the rows of that status; [expired] counts the rows
    of status [expired] and, once more, every row the view flags as expired
    while its status is none of [accepted], [converted], [rejected].  So a
    row of status [viewed], [rejected] or [converted] is in [count] and under
    no status, and a flagged draft is counted twice: the statistics need not
    add up to [count].  There are no other keys, and nothing is written. *)
Theorem list_quotes_statistics (branch_id : option Z) (status : option string)
    (customer_id : option Z) (limit : Z) (w : World) :
  postgrest_answers w ->
  0 <= limit ->
  returns (list_quotes is_expired created_at_desc branch_id status customer_id limit) w
    (fun reply w' =>
       let rows := lq_quotes reply in
       rows = take (Z.to_nat limit)
                (created_at_desc
                   (List.filter (quote_listed branch_id status customer_id) (quotes w)))
       /\ lq_count reply = length rows
       /\ (lq_count reply <= Z.to_nat limit)%nat
       /\ lq_stats reply !! "draft" = Some (count_rows (has_status "draft") rows)
       /\ lq_stats reply !! "sent" = Some (count_rows (has_status "sent") rows)
       /\ lq_stats reply !! "accepted" = Some (count_rows (has_status "accepted") rows)
       /\ lq_stats reply !! "expired"
          = Some (count_rows (has_status "expired") rows
                  + count_rows (open_and_expired is_expired) rows)
       /\ (forall k, initial_stats !! k = None -> lq_stats reply !! k = None)
       /\ writes w' = writes w
       /\ quotes w' = quotes w).
Proof.
  intros Hup _. unfold returns, list_quotes. eexists _, _. split.
  - apply reraise_returned.
    erewrite bind_returned by (apply postgrest_list_quotes_run; exact Hup). reflexivity.
  - cbn [lq_quotes lq_count lq_stats].
    assert (Hexp : is_Some (initial_stats !! "expired")) by (vm_compute; eauto).
    split; [reflexivity|]. split; [reflexivity|]. split.
    { rewrite length_take. lia. }
    rewrite !quote_stats_lookup by exact Hexp.
    rewrite !tally_rows_status by discriminate. rewrite tally_rows_expired.
    split; [reflexivity|]. split; [reflexivity|]. split; [reflexivity|].
    split; [reflexivity|]. split.
    + intros k Hk. rewrite quote_stats_lookup by exact Hexp. now rewrite Hk.
    + trace_simpl. split; reflexivity.
Qed.

End ListingFacts.

(** [Q1], a draft, listed while the view flags it as expired. *)
Lemma list_quotes_statistics_witness :
  postgrest_answers world_Q1_draft
  /\ returns (list_quotes (fun _ => true) (fun rows => rows) None None None 50) world_Q1_draft
       (fun reply w' =>
          let rows := lq_quotes reply in
          rows = take (Z.to_nat 50)
                   (List.filter (quote_listed None None None) (quotes world_Q1_draft))
          /\ lq_count reply = length rows
          /\ (lq_count reply <= Z.to_nat 50)%nat
          /\ lq_stats reply !! "draft" = Some (count_rows (has_status "draft") rows)
          /\ lq_stats reply !! "sent" = Some (count_rows (has_status "sent") rows)
          /\ lq_stats reply !! "accepted" = Some (count_rows (has_status "accepted") rows)
          /\ lq_stats reply !! "expired"
             = Some (count_rows (has_status "expired") rows
                     + count_rows (open_and_expired (fun _ => true)) rows)
          /\ (forall k, initial_stats !! k = None -> lq_stats reply !! k = None)
          /\ writes w' = writes world_Q1_draft
          /\ quotes w' = quotes world_Q1_draft).
Proof.
  split; [exact world_Q1_draft_answers|].
  apply (list_quotes_statistics (fun _ => true) (fun rows => rows) None None None 50
           world_Q1_draft world_Q1_draft_answers).
  lia.
Defined.

(** One row, counted as a draft and as expired. *)
Example list_quotes_counts_twice :
  exists reply w',
    list_quotes (fun _ => true) (fun rows => rows) None None None 50 world_Q1_draft
    = (Returned reply, w')
    /\ lq_count reply = 1%nat
    /\ lq_stats reply !! "draft" = Some 1
    /\ lq_stats reply !! "expired" = Some 1.
Proof. eexists _, _. split; [vm_compute; reflexivity|]. vm_compute. repeat split. Qed.

(** ** The payments that are due *)

Lemma total_due_from (payments : list Payment) (acc : Z) :
  foldl (fun acc p => acc + p_total_due p) acc payments = acc + total_due payments.
Proof.
  revert acc. unfold total_due.
  induction payments as [|p payments IH]; intros acc; cbn [foldl map fold_right]; [lia|].
  rewrite IH. lia.
Qed.

Lemma overdue_count_from (payments : list Payment) (acc : Z) :
  foldl (fun acc p => if is_overdue p then acc + 1 else acc) acc payments
  = acc + count_rows is_overdue payments.
Proof.
  revert acc.
  induction payments as [|p payments IH]; intros acc; cbn [foldl].
  - unfold count_rows. cbn. lia.
  - rewrite IH, count_rows_cons. destruct (is_overdue p); lia.
Qed.

Lemma overdue_amount_from (payments : list Payment) (acc : Z) :
  foldl (fun acc p => if is_overdue p then acc + p_total_due p else acc) acc payments
  = acc + total_due (List.filter is_overdue payments).
Proof.
  revert acc. unfold total_due.
  induction payments as [|p payments IH]; intros acc; cbn [foldl List.filter]; [cbn; lia|].
  rewrite IH. destruct (is_overdue p); cbn [map fold_right]; lia.
Qed.

Lemma total_due_overdue_bounds (payments : list Payment) :
  (forall p, In p payments -> 0 <= p_total_due p) ->
  0 <= total_due (List.filter is_overdue payments) <= total_due payments.
Proof.
  unfold total_due. induction payments as [|p payments IH]; intros Hpos; [cbn; lia|].
  pose proof (Hpos p (or_introl eq_refl)) as Hp.
  assert (Hrest : forall x, In x payments -> 0 <= p_total_due x)
    by (intros x Hx; apply Hpos; now right).
  specialize (IH Hrest). cbn [List.filter].
  destruct (is_overdue p); cbn [map fold_right]; lia.
Qed.

Lemma postgrest_get_payments_limit_run (params : PaymentParams) (limit : Z) (w : World) :
  postgrest_answers w ->
  postgrest_get_payments_limit params limit w
  = (Returned (take (Z.to_nat limit)
                 (List.filter (payment_matches params) (v_payments_due w))),
     log (ReqGet "v_payments_due") w).
Proof.
  intros H. unfold postgrest_get_payments_limit.
  erewrite bind_returned by (apply postgrest_request_run; exact H). reflexivity.
Qed.

Lemma list_params_candidates (branch_id : option Z) (urgency : option string) (w : World) :
  List.filter
    (payment_matches
       {| pp_id := None;
          pp_branch_id := if_int branch_id;
          pp_urgency :=
            match if_str urgency with
            | Some u => if String.eqb u "all" then None else Some u
            | None => None
            end |})
    (v_payments_due w)
  = listed_payments branch_id urgency w.
Proof.
  unfold listed_payments, due_candidates. apply List.filter_ext. intros p.
  unfold payment_matches, if_int, truthy_int. cbn [pp_id pp_branch_id pp_urgency andb].
  f_equal.
  - destruct branch_id as [b|]; [|reflexivity].
    destruct (b =? 0); reflexivity.
  - unfold if_str, truthy_str, or_else. destruct urgency as [u|]; [|reflexivity].
    destruct (String.eqb u ""); cbn [negb]; [reflexivity|].
    destruct (String.eqb u "all"); reflexivity.
Qed.

(** One run of [list_payments_due] through a gateway that answers. *)
Lemma list_payments_due_run (branch_id : option Z) (urgency : option string) (limit : Z)
    (w : World) :
  postgrest_answers w ->
  let rows := take (Z.to_nat limit) (listed_payments branch_id urgency w) in
  list_payments_due branch_id urgency limit w
  = (Returned {| pd_count := length rows;
                 pd_total_amount := total_due rows;
                 pd_overdue_count := count_rows is_overdue rows;
                 pd_overdue_amount := total_due (List.filter is_overdue rows);
                 pd_payments := rows |},
     log (ReqGet "v_payments_due") w).
Proof.
  intros Hup rows. unfold list_payments_due. apply reraise_returned.
  erewrite bind_returned by (apply postgrest_get_payments_limit_run; exact Hup).
  rewrite list_params_candidates. fold rows.
  rewrite total_due_from, overdue_count_from, overdue_amount_from, !Z.add_0_l.
  reflexivity.
Qed.

(** X22: The figures of [list_payments_due] (through a gateway that answers,
    with a limit that is not negative) are taken over the rows it returns: the payments of the branch and of the
    urgency (no urgency, an empty one and [all] mean every urgency), at most
    [limit] of them.  [total_amount] is the sum of what they owe,
    [overdue_count] and [overdue_amount] count and sum the rows whose payment
    status is [overdue]; so the overdue count is at most [count], and when no
    amount is negative the overdue amount is at most the total.  Nothing is
    written or pushed. *)
Theorem list_payments_due_statistics (branch_id : option Z) (urgency : option string)
    (limit : Z) (w : World) :
  postgrest_answers w ->
  0 <= limit ->
  returns (list_payments_due branch_id urgency limit) w
    (fun reply w' =>
       let rows := pd_payments reply in
       rows = take (Z.to_nat limit) (listed_payments branch_id urgency w)
       /\ pd_count reply = length rows
       /\ (pd_count reply <= Z.to_nat limit)%nat
       /\ pd_total_amount reply = total_due rows
       /\ pd_overdue_count reply = count_rows is_overdue rows
       /\ pd_overdue_amount reply = total_due (List.filter is_overdue rows)
       /\ 0 <= pd_overdue_count reply <= Z.of_nat (pd_count reply)
       /\ ((forall p, In p rows -> 0 <= p_total_due p) ->
           0 <= pd_overdue_amount reply <= pd_total_amount reply)
       /\ writes w' = writes w
       /\ pushes w' = pushes w).
Proof.
  intros Hup _. eexists _, _. split; [exact (list_payments_due_run _ _ _ _ Hup)|].
  cbn [pd_payments pd_count pd_total_amount pd_overdue_count pd_overdue_amount].
  split; [reflexivity|]. split; [reflexivity|]. split; [rewrite length_take; lia|].
  split; [reflexivity|]. split; [reflexivity|]. split; [reflexivity|].
  split; [apply count_rows_bounds|]. split; [apply total_due_overdue_bounds|].
  trace_simpl. split; reflexivity.
Qed.

Lemma list_payments_due_statistics_witness :
  postgrest_answers world_three_overdue
  /\ returns (list_payments_due None (Some "overdue") 2) world_three_overdue
       (fun reply w' =>
          let rows := pd_payments reply in
          rows = take (Z.to_nat 2) (listed_payments None (Some "overdue") world_three_overdue)
          /\ pd_count reply = length rows
          /\ (pd_count reply <= Z.to_nat 2)%nat
          /\ pd_total_amount reply = total_due rows
          /\ pd_overdue_count reply = count_rows is_overdue rows
          /\ pd_overdue_amount reply = total_due (List.filter is_overdue rows)
          /\ 0 <= pd_overdue_count reply <= Z.of_nat (pd_count reply)
          /\ ((forall p, In p rows -> 0 <= p_total_due p) ->
              0 <= pd_overdue_amount reply <= pd_total_amount reply)
          /\ writes w' = writes world_three_overdue
          /\ pushes w' = pushes world_three_overdue).
Proof.
  split; [exact world_three_overdue_answers|].
  apply (list_payments_due_statistics None (Some "overdue") 2 world_three_overdue
           world_three_overdue_answers).
  lia.
Defined.

Example list_payments_due_two_of_three :
  (list_payments_due None (Some "overdue") 2 world_three_overdue).1
  = Returned {| pd_count := 2; pd_total_amount := 7500; pd_overdue_count := 2;
                pd_overdue_amount := 7500;
                pd_payments := [ overdue_payment 11 "Chen" "U-chen" 3000;
                                 overdue_payment 12 "Lin" "U-lin" 4500 ] |}.
Proof. vm_compute. reflexivity. Qed.

(** X23: List, then dry run: for an urgency that is given (not the empty string)
    and a limit that does not cut the view, the payments [list_payments_due]
    lists are the payments a dry run of the bulk reminders counts: its
    [total_payments] is the [count] of the list, and its [would_send] and
    [total_amount] are the number and the sum of the listed payments that
    have a LINE address. *)
Theorem list_payments_due_agrees_with_dry_run (branch_id : option Z) (urgency : string)
    (limit : Z) (w : World) :
  postgrest_answers w ->
  urgency <> "" ->
  0 <= limit ->
  (length (v_payments_due w) <= Z.to_nat limit)%nat ->
  exists listing w1 w2,
    list_payments_due branch_id (Some urgency) limit w = (Returned listing, w1)
    /\ send_bulk_payment_reminders branch_id urgency true w1
       = (Returned (DryRun (pd_count listing)
                           (length (with_address (pd_payments listing)))
                           (length (with_address (pd_payments listing)))
                           (total_due (with_address (pd_payments listing)))), w2)
    /\ pd_payments listing = due_candidates branch_id urgency w.
Proof.
  intros Hup Hurgency _ Hlimit.
  assert (Hlisted : listed_payments branch_id (Some urgency) w
                    = due_candidates branch_id urgency w).
  { unfold listed_payments, or_else.
    destruct (String.eqb_spec urgency ""); [contradiction | reflexivity]. }
  assert (Htake : take (Z.to_nat limit) (listed_payments branch_id (Some urgency) w)
                  = due_candidates branch_id urgency w).
  { rewrite Hlisted. apply take_ge. unfold due_candidates.
    pose proof (List.filter_length_le
                  (fun p =>
                     match branch_id with
                     | Some b => (b =? 0) || bool_decide (p_branch_id p = Some b)
                     | None => true
                     end
                     && (String.eqb urgency "all" || bool_decide (p_urgency p = Some urgency)))
                  (v_payments_due w)) as Hle.
    lia. }
  eexists _, _, _. split; [exact (list_payments_due_run _ _ _ _ Hup)|].
  cbn [pd_count pd_payments]. rewrite Htake. split; [|reflexivity].
  unfold send_bulk_payment_reminders. apply reraise_returned.
  erewrite bind_returned by (apply postgrest_get_payments_run; exact Hup).
  change (v_payments_due (log (ReqGet "v_payments_due") w)) with (v_payments_due w).
  rewrite bulk_params_candidates.
  fold (with_address (due_candidates branch_id urgency w)).
  rewrite total_due_from, Z.add_0_l. reflexivity.
Qed.

Lemma list_payments_due_agrees_with_dry_run_witness :
  postgrest_answers world_three_overdue
  /\ exists listing w1 w2,
       list_payments_due None (Some "overdue") 20 world_three_overdue = (Returned listing, w1)
       /\ send_bulk_payment_reminders None "overdue" true w1
          = (Returned (DryRun (pd_count listing)
                              (length (with_address (pd_payments listing)))
                              (length (with_address (pd_payments listing)))
                              (total_due (with_address (pd_payments listing)))), w2)
       /\ pd_payments listing = due_candidates None "overdue" world_three_overdue.
Proof.
  split; [exact world_three_overdue_answers|].
  apply (list_payments_due_agrees_with_dry_run None "overdue" 20 world_three_overdue
           world_three_overdue_answers).
  - discriminate.
  - lia.
  - vm_compute. repeat constructor.
Defined.

(** * A gateway that fails on the first request of a tool *)

Ltac failing H :=
  apply reraise_raised; erewrite bind_raised; [reflexivity|];
  first [ apply postgrest_get_quotes_down
        | apply postgrest_post_quotes_down
        | apply postgrest_patch_quotes_down
        | apply postgrest_get_payments_down
        | apply postgrest_get_renewals_down
        | erewrite bind_raised; [reflexivity | apply postgrest_request_down] ];
  exact H.

Ltac unchanged := trace_simpl; repeat split; reflexivity.

(** X24: Every tool reports a failure of the data gateway on its first request in
    the same way: it raises [Exception], whatever the client raised, with a
    message made of the prefix of the tool, a colon, and the text of the
    failure; no row of the store is changed and nothing is pushed.  (For
    [create_quote] the validity has to end on a day of the calendar, for
    [update_quote] the update has to pass the filter and the recomputation,
    for [update_quote_status] the status has to be a known one: these checks
    come before the request.) *)
Theorem gateway_failure_is_reported (w : World) (e : exn) :
  fails_at 0 e w ->
  (forall a,
      1 <= today w + cq_valid_days a <= MAXORDINAL ->
      reports "建立報價單失敗" e (create_quote a) w)
  /\ (forall quote_id updates body,
        (exists k, k ∈ allowed_fields /\ is_Some (updates !! k)) ->
        recompute_amounts (filter (fun kv : string * value => kv.1 ∈ allowed_fields) updates)
        = Returned body ->
        reports "更新報價單失敗" e (update_quote quote_id updates) w)
  /\ (forall quote_id status notes,
        status ∈ valid_statuses ->
        reports "更新報價單狀態失敗" e (update_quote_status quote_id status notes) w)
  /\ (forall quote_id, reports "刪除報價單失敗" e (delete_quote quote_id) w)
  /\ (forall is_expired quote_id,
        reports "取得報價單失敗" e (get_quote is_expired quote_id) w)
  /\ (forall is_expired created_at_desc branch_id status customer_id limit,
        reports "取得報價單列表失敗" e
          (list_quotes is_expired created_at_desc branch_id status customer_id limit) w)
  /\ (forall fromisoformat quote_id a,
        reports "報價單轉換失敗" e (convert_quote_to_contract fromisoformat quote_id a) w)
  /\ (forall customers customer_id message,
        reports "發送訊息失敗" e (send_line_message customers customer_id message) w)
  /\ (forall payment_id reminder_type,
        reports "發送繳費提醒失敗" e (send_payment_reminder payment_id reminder_type) w)
  /\ (forall contract_id, reports "發送續約提醒失敗" e (send_renewal_reminder contract_id) w)
  /\ (forall branch_id urgency dry_run,
        reports "批次發送失敗" e (send_bulk_payment_reminders branch_id urgency dry_run) w)
  /\ (forall branch_id urgency limit,
        reports "取得應收款失敗" e (list_payments_due branch_id urgency limit) w).
Proof.
  intros H.
  split; [|split; [|split; [|split; [|split; [|split; [|split; [|split; [|split;
    [|split; [|split]]]]]]]]]].
  - intros a Hrange. unfold reports. eexists. split.
    1: { unfold create_quote. rewrite bind_ask. unfold add_days.
         replace ((1 <=? today w + cq_valid_days a)
                  && (today w + cq_valid_days a <=? MAXORDINAL))
           with true by (symmetry; apply andb_true_intro; split; apply Z.leb_le; lia).
         rewrite bind_lift_returned. failing H. }
    unchanged.
  - intros quote_id updates body (k & Hk & Hsome) Hbody.
    unfold reports. eexists. split.
    1: { unfold update_quote.
         destruct (decide (filter (fun kv : string * value => kv.1 ∈ allowed_fields)
                                  updates = ∅)) as [Hempty|_].
         { exfalso. rewrite filtered_empty_iff in Hempty. rewrite (Hempty k Hk) in Hsome.
           now destruct Hsome. }
         rewrite Hbody, bind_lift_returned. failing H. }
    unchanged.
  - intros quote_id status notes Hstatus.
    unfold reports. eexists. split.
    1: { unfold update_quote_status.
         rewrite bool_decide_eq_true_2 by exact Hstatus. cbn [negb]. rewrite bind_ask.
         failing H. }
    unchanged.
  - intros quote_id. unfold reports. eexists. split.
    1: { unfold delete_quote. failing H. }
    unchanged.
  - intros is_expired quote_id. unfold reports. eexists. split.
    1: { unfold get_quote. failing H. }
    unchanged.
  - intros is_expired created_at_desc branch_id status customer_id limit.
    unfold reports. eexists. split.
    1: { unfold list_quotes, postgrest_list_quotes. failing H. }
    unchanged.
  - intros fromisoformat quote_id a. unfold reports. eexists. split.
    1: { unfold convert_quote_to_contract. failing H. }
    unchanged.
  - intros customers customer_id message. unfold reports. eexists. split.
    1: { unfold send_line_message, postgrest_get_customers. failing H. }
    unchanged.
  - intros payment_id reminder_type. unfold reports. eexists. split.
    1: { unfold send_payment_reminder. failing H. }
    unchanged.
  - intros contract_id. unfold reports. eexists. split.
    1: { unfold send_renewal_reminder. failing H. }
    unchanged.
  - intros branch_id urgency dry_run. unfold reports. eexists. split.
    1: { unfold send_bulk_payment_reminders. failing H. }
    unchanged.
  - intros branch_id urgency limit. unfold reports. eexists. split.
    1: { unfold list_payments_due, postgrest_get_payments_limit. failing H. }
    unchanged.
Qed.

(** The store of [Q1] behind a gateway that is down: deleting, converting
    and reminding all end in the [Exception] of the tool. *)
Lemma gateway_failure_is_reported_witness :
  let e := Exception_ "All connection attempts failed" in
  let w := gateway_down e world_Q1_draft in
  reports "刪除報價單失敗" e (delete_quote 1) w
  /\ reports "報價單轉換失敗" e (convert_quote_to_contract parse_iso_date 1 no_overrides) w
  /\ reports "批次發送失敗" e (send_bulk_payment_reminders None "overdue" false) w.
Proof.
  destruct (gateway_failure_is_reported
              (gateway_down (Exception_ "All connection attempts failed") world_Q1_draft)
              (Exception_ "All connection attempts failed")
              (gateway_down_fails _ _ 0%nat))
    as (_ & _ & _ & Hdelete & _ & _ & Hconvert & _ & _ & _ & Hbulk & _).
  split; [exact (Hdelete 1)|]. split; [exact (Hconvert parse_iso_date 1 no_overrides)|].
  exact (Hbulk None "overdue" false).
Defined.

Example gateway_down_delete_message :
  (delete_quote 1 (gateway_down (Exception_ "All connection attempts failed") world_Q1_draft)).1
  = Raised (Exception_ "刪除報價單失敗: All connection attempts failed").
Proof. vm_compute. reflexivity. Qed.

(** * Quotes that are not there, and quotes that are put back to draft *)

Lemma rows_updated_no_match (id : Z) (f : Quote -> Quote) (rows : list Quote) :
  List.find (fun q => q_id q =? id) rows = None -> rows_updated id f rows = rows.
Proof.
  unfold rows_updated. induction rows as [|q rows IH]; cbn [map List.find]; [reflexivity|].
  destruct (q_id q =? id); [discriminate|]. intros H. now rewrite (IH H).
Qed.

(** X25: No tool of the quotes raises for an id that is not in the store (the
    gateway answering): reading, deleting, converting and updating the status
    all reply that the quote was not found, and the rows stay as they were.
    Reading, deleting and converting stop after their read; the status update
    has no read, so its patch is sent all the same. *)
Theorem missing_quote_is_reported (fromisoformat : string -> option Z)
    (is_expired : Quote -> bool) (quote_id : Z) (w : World) :
  postgrest_answers w ->
  find_quote quote_id w = None ->
  get_quote is_expired quote_id w
  = (Returned {| ql_found := false; ql_message := Some "找不到報價單"; ql_quote := None |},
     log (ReqGet "v_quotes") w)
  /\ delete_quote quote_id w = (Returned quote_not_found, log (ReqGet "quotes") w)
  /\ (forall a,
        convert_quote_to_contract fromisoformat quote_id a w
        = (Returned (ConvertFailure msg_quote_not_found), log (ReqGet "v_quotes") w))
  /\ (forall status notes,
        status ∈ valid_statuses ->
        update_quote_status quote_id status notes w
        = (Returned quote_not_found, log (ReqPatch "quotes" quote_id) w)).
Proof.
  intros Hup Hfind. pose proof Hfind as Hrows. unfold find_quote in Hrows.
  split; [|split; [|split]].
  - rewrite (get_quote_run is_expired quote_id w Hup), Hfind. reflexivity.
  - unfold delete_quote. apply reraise_returned.
    erewrite bind_returned by (apply postgrest_get_quotes_run; exact Hup).
    rewrite (filter_of_find_none _ _ Hrows). reflexivity.
  - intros a. unfold convert_quote_to_contract. apply reraise_returned.
    erewrite bind_returned by (apply postgrest_get_quotes_run; exact Hup).
    rewrite (filter_of_find_none _ _ Hrows). reflexivity.
  - intros status notes Hstatus. unfold update_quote_status.
    rewrite bool_decide_eq_true_2 by exact Hstatus. cbn [negb]. rewrite bind_ask.
    apply reraise_returned.
    erewrite bind_returned
      by (apply postgrest_patch_quotes_run with (f := stamped status notes (now_isoformat w));
          [exact Hup | intros q; apply patch_quote_stamped]).
    rewrite (filter_of_find_none _ _ Hrows), (rows_updated_no_match _ _ _ Hrows).
    reflexivity.
Qed.

Lemma missing_quote_is_reported_witness :
  get_quote (fun _ => false) 9 world_Q1_draft
  = (Returned {| ql_found := false; ql_message := Some "找不到報價單"; ql_quote := None |},
     log (ReqGet "v_quotes") world_Q1_draft)
  /\ delete_quote 9 world_Q1_draft
     = (Returned quote_not_found, log (ReqGet "quotes") world_Q1_draft)
  /\ (forall a,
        convert_quote_to_contract parse_iso_date 9 a world_Q1_draft
        = (Returned (ConvertFailure msg_quote_not_found),
           log (ReqGet "v_quotes") world_Q1_draft))
  /\ (forall status notes,
        status ∈ valid_statuses ->
        update_quote_status 9 status notes world_Q1_draft
        = (Returned quote_not_found, log (ReqPatch "quotes" 9) world_Q1_draft)).
Proof.
  exact (missing_quote_is_reported parse_iso_date (fun _ => false) 9 world_Q1_draft
           world_Q1_draft_answers eq_refl).
Defined.

(** X26: The guard of [delete_quote] is only as strong as the status tool: the
    status update accepts [draft] whatever the current status, so any stored
    quote, a converted one too, can be put back to [draft] and then deleted.
    The contracts are not touched: a contract made from the quote stays in
    the store after its quote is gone. *)
Theorem any_quote_can_be_reset_and_deleted
    (quote_id : Z) (notes : option string) (w : World) (quote : Quote) :
  postgrest_answers w ->
  find_quote quote_id w = Some quote ->
  exists reply1 w1,
    update_quote_status quote_id "draft" notes w = (Returned reply1, w1)
    /\ returns (delete_quote quote_id) w1
         (fun reply2 w2 =>
            qr_success reply2 = true
            /\ find_quote quote_id w2 = None
            /\ contracts w2 = contracts w).
Proof.
  intros Hup Hfind.
  assert (Hin : "draft" ∈ valid_statuses) by (apply valid_status_cases; tauto).
  eexists _, _. split; [exact (update_quote_status_run _ _ notes _ _ Hup Hin Hfind)|].
  set (w1 := set_quotes _ _ _).
  assert (Hup1 : postgrest_answers w1) by exact Hup.
  assert (Hfind1 : find_quote quote_id w1
                   = Some (stamped "draft" notes (now_isoformat w) quote)).
  { subst w1. now apply find_quote_after_update. }
  pose proof Hfind1 as Hrows. unfold find_quote in Hrows.
  destruct (filter_of_find _ _ _ Hrows) as [rest Hfilter].
  unfold returns, delete_quote. eexists _, _. split.
  - apply reraise_returned.
    erewrite bind_returned by (apply postgrest_get_quotes_run; exact Hup1).
    rewrite Hfilter. cbn [q_status stamped with_lifecycle].
    rewrite bool_decide_eq_true_2 by reflexivity. cbn [negb].
    erewrite bind_returned by (apply postgrest_delete_quotes_run; exact Hup1).
    reflexivity.
  - cbn [qr_success]. split; [reflexivity|]. split; [|reflexivity].
    unfold find_quote. cbn [quotes set_quotes]. apply find_after_delete.
Qed.

(** [Q1] after its conversion: put back to draft and deleted, while contract
    1 stays. *)
Lemma any_quote_can_be_reset_and_deleted_witness :
  postgrest_answers world_Q1_converted
  /\ exists reply1 w1,
       update_quote_status 1 "draft" None world_Q1_converted = (Returned reply1, w1)
       /\ returns (delete_quote 1) w1
            (fun reply2 w2 =>
               qr_success reply2 = true
               /\ find_quote 1 w2 = None
               /\ contracts w2 = contracts world_Q1_converted).
Proof.
  assert (Hup : postgrest_answers world_Q1_converted)
    by (intros n; vm_compute; reflexivity).
  split; [exact Hup|].
  apply (any_quote_can_be_reset_and_deleted 1 None world_Q1_converted
           (converted 1 "2024-01-01T09:00:00" quote_Q1_accepted) Hup).
  vm_compute. reflexivity.
Defined.

Example converted_quote_reset_and_deleted :
  let w1 := (update_quote_status 1 "draft" None world_Q1_converted).2 in
  let w2 := (delete_quote 1 w1).2 in
  map q_status (quotes world_Q1_converted) = [Some "converted"]
  /\ quotes w2 = []
  /\ map c_id (contracts w2) = [1].
Proof. vm_compute. repeat split; reflexivity. Qed.

(** * Tools that only read the store *)

Lemma same_store_refl (w : World) : same_store w w.
Proof. unfold same_store. repeat split; reflexivity. Qed.

Lemma same_store_trans (w1 w2 w3 : World) :
  same_store w1 w2 -> same_store w2 w3 -> same_store w1 w3.
Proof.
  unfold same_store. intros (H1 & H2 & H3 & H4 & H5) (K1 & K2 & K3 & K4 & K5).
  repeat split; congruence.
Qed.

Lemma same_store_log (r : request) (w : World) :
  is_write r = false -> same_store w (log r w).
Proof.
  intros Hr. unfold same_store. rewrite writes_log, Hr, app_nil_r.
  repeat split; reflexivity.
Qed.

Lemma readonly_ret {A : Type} (a : A) : readonly (ret a).
Proof. intros w. apply same_store_refl. Qed.

Lemma readonly_raise {A : Type} (e : exn) : readonly (@raise A e).
Proof. intros w. apply same_store_refl. Qed.

Lemma readonly_lift {A : Type} (r : result A) : readonly (lift r).
Proof. intros w. apply same_store_refl. Qed.

Lemma readonly_ask {A : Type} (f : World -> A) : readonly (ask f).
Proof. intros w. apply same_store_refl. Qed.

Lemma readonly_bind {A B : Type} (m : M A) (k : A -> M B) :
  readonly m -> (forall a, readonly (k a)) -> readonly (bind m k).
Proof.
  intros Hm Hk w. unfold bind. specialize (Hm w).
  destruct (m w) as [[a|e] w1]; cbn [snd] in *; [|exact Hm].
  exact (same_store_trans _ _ _ Hm (Hk a w1)).
Qed.

Lemma readonly_try_except {A : Type} (m : M A) (h : exn -> M A) :
  readonly m -> (forall e, readonly (h e)) -> readonly (try_except m h).
Proof.
  intros Hm Hh w. unfold try_except. specialize (Hm w).
  destruct (m w) as [[a|e] w1]; cbn [snd] in *; [exact Hm|].
  exact (same_store_trans _ _ _ Hm (Hh e w1)).
Qed.

Lemma readonly_reraise {A : Type} (prefix : string) (m : M A) :
  readonly m -> readonly (reraise prefix m).
Proof. intros Hm. apply readonly_try_except; [exact Hm|]. intros e. apply readonly_raise. Qed.

Lemma readonly_get (endpoint : string) : readonly (postgrest_request (ReqGet endpoint)).
Proof.
  intros w. unfold postgrest_request.
  destruct (postgrest_fault w (length (data_requests w))); cbn [snd];
    now apply same_store_log.
Qed.

Lemma readonly_send_line_push (line_user_id text : string) :
  readonly (send_line_push line_user_id text).
Proof.
  intros w. unfold send_line_push.
  destruct (String.eqb (LINE_CHANNEL_ACCESS_TOKEN w) ""); [apply same_store_refl|].
  destruct (line_api w (length (pushes w))) as [status_code|e];
    [destruct (status_code =? 200)|]; cbn [snd]; now apply same_store_log.
Qed.

Lemma readonly_send_payment_reminder (payment_id : Z) (reminder_type : string) :
  readonly (send_payment_reminder payment_id reminder_type).
Proof.
  unfold send_payment_reminder, postgrest_get_payments.
  apply readonly_reraise, readonly_bind.
  - apply readonly_bind; [apply readonly_get | intros; apply readonly_ask].
  - intros [|payment rest]; [apply readonly_ret|].
    destruct (if_str (p_line_user_id payment)); [|apply readonly_ret].
    apply readonly_bind; [apply readonly_send_line_push|].
    intros reply. destruct (lr_success reply); apply readonly_ret.
Qed.

Lemma readonly_bulk_loop (payments : list Payment) :
  forall (sent_count failed_count : Z) (errors : list BulkError),
    readonly (bulk_loop payments sent_count failed_count errors).
Proof.
  induction payments as [|payment rest IH]; intros sent_count failed_count errors;
    cbn [bulk_loop]; [apply readonly_ret|].
  apply readonly_bind; [apply readonly_send_payment_reminder|].
  intros reply. destruct (lr_success reply); apply IH.
Qed.

(** X27: The tools that remind, message and list never write to the store,
    whatever they are called with, whatever the data gateway and the LINE
    endpoint do, and whether they return or raise: the quotes, the contracts
    and the next ids are as before, and no create, patch or delete was
    sent. *)
Theorem reminders_and_listings_never_write :
  (forall payment_id reminder_type,
      readonly (send_payment_reminder payment_id reminder_type))
  /\ (forall contract_id, readonly (send_renewal_reminder contract_id))
  /\ (forall branch_id urgency dry_run,
        readonly (send_bulk_payment_reminders branch_id urgency dry_run))
  /\ (forall customers customer_id message,
        readonly (send_line_message customers customer_id message))
  /\ (forall is_expired quote_id, readonly (get_quote is_expired quote_id))
  /\ (forall is_expired created_at_desc branch_id status customer_id limit,
        readonly (list_quotes is_expired created_at_desc branch_id status customer_id limit))
  /\ (forall branch_id urgency limit, readonly (list_payments_due branch_id urgency limit)).
Proof.
  split; [|split; [|split; [|split; [|split; [|split]]]]].
  - exact readonly_send_payment_reminder.
  - intros contract_id. unfold send_renewal_reminder, postgrest_get_renewals.
    apply readonly_reraise, readonly_bind.
    + apply readonly_bind; [apply readonly_get | intros; apply readonly_ask].
    + intros [|renewal rest]; [apply readonly_ret|].
      destruct (if_str (r_line_user_id renewal)); [|apply readonly_ret].
      apply readonly_bind; [apply readonly_send_line_push|].
      intros reply. destruct (lr_success reply); apply readonly_ret.
  - intros branch_id urgency dry_run.
    unfold send_bulk_payment_reminders, postgrest_get_payments.
    apply readonly_reraise, readonly_bind.
    + apply readonly_bind; [apply readonly_get | intros; apply readonly_ask].
    + intros payments. destruct dry_run; [apply readonly_ret|].
      apply readonly_bind; [apply readonly_bulk_loop|].
      intros [[sent_count failed_count] errors]. apply readonly_ret.
  - intros customers customer_id message.
    unfold send_line_message, postgrest_get_customers.
    apply readonly_reraise, readonly_bind.
    + apply readonly_bind; [apply readonly_get | intros; apply readonly_ret].
    + intros [|customer rest]; [apply readonly_ret|].
      destruct (if_str (cu_line_user_id customer)); [|apply readonly_ret].
      apply readonly_bind; [apply readonly_send_line_push|].
      intros reply. destruct (lr_success reply); apply readonly_ret.
  - intros is_expired quote_id. unfold get_quote, postgrest_get_quotes.
    apply readonly_reraise, readonly_bind.
    + apply readonly_bind; [apply readonly_get | intros; apply readonly_ask].
    + intros [|quote rest]; apply readonly_ret.
  - intros is_expired created_at_desc branch_id status customer_id limit.
    unfold list_quotes, postgrest_list_quotes.
    apply readonly_reraise, readonly_bind.
    + apply readonly_bind; [apply readonly_get | intros; apply readonly_ask].
    + intros rows. apply readonly_ret.
  - intros branch_id urgency limit.
    unfold list_payments_due, postgrest_get_payments_limit.
    apply readonly_reraise, readonly_bind.
    + apply readonly_bind; [apply readonly_get | intros; apply readonly_ask].
    + intros rows. apply readonly_ret.
Qed.

(** A live bulk run on the store of [Q1], with the gateway failing half way:
    the quote is as it was. *)
Example bulk_run_leaves_the_quotes :
  quotes (send_bulk_payment_reminders None "all" false
            (gateway_fails_once 1 (Exception_ "Server error '503'") world_Q1_draft)).2
  = [quote_Q1].
Proof. vm_compute. reflexivity. Qed.

(** ** A push that is not delivered *)

Lemma send_line_push_refused (line_user_id text : string) (status_code : Z) (w : World) :
  LINE_CHANNEL_ACCESS_TOKEN w <> "" ->
  line_api w (length (pushes w)) = Responded status_code ->
  status_code <> 200 ->
  send_line_push line_user_id text w
  = (Returned (line_failure ("LINE API 錯誤: " +:+ str_int status_code)),
     log (ReqPush line_user_id text) w).
Proof.
  intros Htoken Hapi Hstatus. unfold send_line_push. rewrite Hapi.
  destruct (String.eqb_spec (LINE_CHANNEL_ACCESS_TOKEN w) ""); [contradiction|].
  destruct (Z.eqb_spec status_code 200); [contradiction | reflexivity].
Qed.

Lemma send_line_push_client_error (line_user_id text : string) (e : exn) (w : World) :
  LINE_CHANNEL_ACCESS_TOKEN w <> "" ->
  line_api w (length (pushes w)) = ClientError e ->
  send_line_push line_user_id text w
  = (Returned (line_failure (exn_message e)), log (ReqPush line_user_id text) w).
Proof.
  intros Htoken Hapi. unfold send_line_push. rewrite Hapi.
  destruct (String.eqb_spec (LINE_CHANNEL_ACCESS_TOKEN w) ""); [contradiction | reflexivity].
Qed.

(** X28: A payment reminder whose push is not delivered does not raise: the
    failure of the dispatch comes back as the reply.  When the endpoint
    answers with a status other than 200 the error names the status; when the
    HTTP client raises, the error is the text of its exception.  In both
    cases the push was attempted once, and the reply echoes neither the
    payment id nor the reminder type. *)
Theorem payment_reminder_dispatch_failure
    (payment_id : Z) (reminder_type : string) (w : World)
    (payment : Payment) (line_user_id : string) :
  postgrest_answers w ->
  find_payment payment_id w = Some payment ->
  p_line_user_id payment = Some line_user_id ->
  line_user_id <> "" ->
  LINE_CHANNEL_ACCESS_TOKEN w <> "" ->
  line_api w (length (pushes w)) <> Responded 200 ->
  send_payment_reminder payment_id reminder_type w
  = (Returned (line_failure
                 match line_api w (length (pushes w)) with
                 | Responded status_code => "LINE API 錯誤: " +:+ str_int status_code
                 | ClientError e => exn_message e
                 end),
     log (ReqPush line_user_id (payment_message reminder_type payment))
         (log (ReqGet "v_payments_due") w)).
Proof.
  intros Hup Hfind Haddr Hne Htoken Hapi. unfold send_payment_reminder.
  apply reraise_returned.
  erewrite bind_returned by (apply postgrest_get_payments_run; exact Hup).
  unfold find_payment in Hfind. destruct (filter_of_find _ _ _ Hfind) as [rest Hrows].
  rewrite filter_payments_by_id, Hrows, (if_str_some _ _ Haddr Hne).
  destruct (line_api w (length (pushes w))) as [status_code|e] eqn:Hline.
  - erewrite bind_returned.
    2: { apply send_line_push_refused with (status_code := status_code);
         [exact Htoken | rewrite pushes_log, app_nil_r; exact Hline | congruence]. }
    reflexivity.
  - erewrite bind_returned.
    2: { apply send_line_push_client_error with (e := e);
         [exact Htoken | rewrite pushes_log, app_nil_r; exact Hline]. }
    reflexivity.
Qed.

Lemma payment_reminder_dispatch_failure_witness :
  let w := line_always 429 world_three_overdue in
  send_payment_reminder 12 "due" w
  = (Returned (line_failure
                 match line_api w (length (pushes w)) with
                 | Responded status_code => "LINE API 錯誤: " +:+ str_int status_code
                 | ClientError e => exn_message e
                 end),
     log (ReqPush "U-lin" (payment_message "due" (overdue_payment 12 "Lin" "U-lin" 4500)))
         (log (ReqGet "v_payments_due") w)).
Proof.
  apply (payment_reminder_dispatch_failure 12 "due" (line_always 429 world_three_overdue)
           (overdue_payment 12 "Lin" "U-lin" 4500) "U-lin");
    try reflexivity; try discriminate.
  intros n. reflexivity.
Defined.

Example payment_reminder_dispatch_failure_text :
  (send_payment_reminder 12 "due" (line_always 429 world_three_overdue)).1
  = Returned (line_failure "LINE API 錯誤: 429").
Proof. vm_compute. reflexivity. Qed.
